(** * BlessedNotebook: the optimistic notebook store, its ordering engine,
      progress arithmetic and comment reconciliation

    A shallow embedding of the TypeScript sources.  Where the code sits:

    - [src/hooks/useNotebooks.ts], lines 1-795: the hook [useNotebooks]
      (entity store, fetch, mutations); lines 796-889: the types module
      with the older progress helpers;
    - [unnamed/part_003], lines 1-439: the component NoteCard (task drag
      handler, note progress); lines 440-830: the comments panel with
      optimistic echo;
    - [src/components/TaskCommentsPanel.tsx], lines 1-147: the comments
      panel without optimistic echo; lines 148-507: the component
      NotebookView (note drag handler, notebook progress, group average);
    - [src/components/JoinNotebookDialog.tsx]: joining by share code;
    - [supabase/migrations]: the tables and their constraints.

    React state is passed explicitly; the Supabase tables the code talks
    to are lists of rows; a failing request is an input of the operation
    that sends it. *)

From Stdlib Require Import ZArith QArith Qround Qabs Lia Lqa Floats.
From stdpp Require Import base decidable option list gmap strings.

Local Open Scope Z_scope.

(* ===================================================================== *)
(** * JavaScript numbers *)
(* ===================================================================== *)

(** The progress helpers divide one array length by another, scale by
    [100] and call [Math.round].  Every JavaScript number is a binary64
    float, so the quotient is a rounded value.  [JSNumber] lists the
    operations the sources use; [val] is the exact rational a number
    denotes.  Two instances follow: [binary64] (the primitive floats of
    the kernel, which compute as a JavaScript engine does) and [exactQ]
    (no rounding at all). *)

Class JSNumber := {
  num : Type;
  of_Z : Z -> num;
  nadd : num -> num -> num;
  nmul : num -> num -> num;
  ndiv : num -> num -> num;
  Math_round : num -> Z;
  finite : num -> Prop;
  val : num -> Q
}.

Declare Scope js_scope.
Delimit Scope js_scope with js.
Infix "+" := nadd : js_scope.
Infix "*" := nmul : js_scope.
Infix "/" := ndiv : js_scope.

(** Unit roundoff of binary64 and the largest integer below which every
    integer is a binary64 value. *)
Definition u64 : Q := 1 # (2 ^ 53).
Definition max_safe : Z := 2 ^ 53.

(** [x] is a finite number whose exact value is [q]. *)
Definition denotes `{JSNumber} (x : num) (q : Q) : Prop := finite x /\ val x == q.

(** What the proofs below use of the arithmetic: integers are exact,
    sums and products that stay integral and within [max_safe] are
    exact, a quotient of two such integers and a product in the normal
    range are off by at most the relative error [u64], and [Math.round]
    is [floor (x + 1/2)] of the exact value.  These are the facts of the
    IEEE 754 round-to-nearest arithmetic restricted to the operand
    shapes the helpers produce. *)
Record JSNumberLaws (N : JSNumber) : Prop := {
  val_of_Z : forall n : Z, Z.abs n <= max_safe -> denotes (of_Z n) (inject_Z n);
  add_exact : forall (a b : num) (m n : Z),
    denotes a (inject_Z m) -> denotes b (inject_Z n) ->
    Z.abs (m + n) <= max_safe ->
    denotes (a + b)%js (inject_Z (m + n));
  mul_exact : forall (a b : num) (m n : Z),
    denotes a (inject_Z m) -> denotes b (inject_Z n) ->
    Z.abs (m * n) <= max_safe ->
    denotes (a * b)%js (inject_Z (m * n));
  div_int : forall (a b : num) (m d : Z),
    denotes a (inject_Z m) -> denotes b (inject_Z d) ->
    0 <= m <= max_safe -> 0 < d <= max_safe ->
    finite (a / b)%js /\
    (Qabs (val (a / b)%js - inject_Z m / inject_Z d)
       <= u64 * (inject_Z m / inject_Z d))%Q;
  mul_rel : forall a b : num,
    finite a -> finite b ->
    ((1 # 2 ^ 1000) <= val a * val b <= inject_Z (2 ^ 1000))%Q ->
    finite (a * b)%js /\
    (Qabs (val (a * b)%js - val a * val b) <= u64 * (val a * val b))%Q;
  mul_zero : forall a b : num,
    finite a -> finite b -> val a * val b == 0 -> denotes (a * b)%js 0;
  round_exact : forall x : num,
    finite x -> Math_round x = Qfloor (val x + (1 # 2))
}.

(** ** The exact instance *)

#[export] Instance exactQ : JSNumber | 10 := {|
  num := Q;
  of_Z := inject_Z;
  nadd := Qplus;
  nmul := Qmult;
  ndiv := Qdiv;
  Math_round := fun x => Qfloor (x + (1 # 2));
  finite := fun _ => True;
  val := fun x => x
|}.

(** ** The binary64 instance *)

(** The exact value of a finite float, read off its mantissa and
    exponent; infinities and NaN are not [finite] and are given the
    value [0]. *)
Definition SF2Q (x : SpecFloat.spec_float) : Q :=
  match x with
  | SpecFloat.S754_finite s m e =>
      let mz := if s then Z.neg m else Z.pos m in
      if (0 <=? e)%Z then inject_Z (mz * 2 ^ e)
      else mz # (Z.to_pos (2 ^ (- e)))
  | _ => 0
  end.

Definition float_val (x : float) : Q := SF2Q (Prim2SF x).

Definition float_finite (x : float) : Prop :=
  match Prim2SF x with
  | SpecFloat.S754_zero _ | SpecFloat.S754_finite _ _ _ => True
  | _ => False
  end.

Definition binary64 : JSNumber := {|
  num := float;
  of_Z := fun n =>
    if (0 <=? n)%Z then PrimFloat.of_uint63 (Uint63.of_Z n)
    else PrimFloat.opp (PrimFloat.of_uint63 (Uint63.of_Z (- n)));
  nadd := PrimFloat.add;
  nmul := PrimFloat.mul;
  ndiv := PrimFloat.div;
  Math_round := fun x => Qfloor (float_val x + (1 # 2));
  finite := float_finite;
  val := float_val
|}.

(* ===================================================================== *)
(** * Array helpers of the JavaScript runtime *)
(* ===================================================================== *)

Section js_array.
Context {A : Type} (P : A -> Prop) `{!forall x, Decision (P x)}.

(** [arr.find(p)]: the first element that satisfies [p]. *)
Definition js_find (l : list A) : option A := snd <$> list_find P l.

(** [arr.findIndex(p)]: its position, [-1] when there is none. *)
Definition findIndex (l : list A) : Z :=
  match list_find P l with
  | Some (i, _) => Z.of_nat i
  | None => -1
  end.

(** [arr.some(p)]. *)
Definition js_some (l : list A) : bool := bool_decide (Exists P l).
End js_array.

(** [arr.includes(x)]. *)
Definition includes `{EqDecision A} (x : A) (l : list A) : bool :=
  bool_decide (x ∈ l).

(** Truthiness of a nullable string ([folderId ? .. : ..], [!t.folder_id]):
    [null] and the empty string are falsy. *)
Definition truthy (o : option string) : bool :=
  match o with
  | Some s => negb (bool_decide (s = ""%string))
  | None => false
  end.

(** [s || d] on a string that may be null or empty. *)
Definition str_or (o : option string) (d : string) : string :=
  match o with
  | Some s => if bool_decide (s = ""%string) then d else s
  | None => d
  end.

(** [s || null]. *)
Definition str_or_null (o : option string) : option string :=
  if truthy o then o else None.

(** [n || 0] on an integer-valued number. *)
Definition or0 (n : Z) : Z := if (n =? 0) then 0 else n.

(** [Math.max(...xs)] on integers.  The callers test the length first:
    the empty case (JavaScript's [-Infinity]) is never evaluated there
    and is [None] here. *)
Definition Math_max (xs : list Z) : option Z :=
  match xs with
  | [] => None
  | x :: rest => Some (foldl Z.max x rest)
  end.

(** [Array.prototype.splice] start position: a negative start counts from
    the end, and the result is clamped to the array. *)
Definition splice_start (len start : Z) : nat :=
  Z.to_nat (if start <? 0 then Z.max (len + start) 0 else Z.min start len).

(** Modelled from the spec: [arrayMove] of @dnd-kit/sortable, which both
    drag handlers import and which is not part of the repository.  The
    spec's words are "remove the moved item and reinsert it at the new
    position"; the library does this with two [splice] calls, so
    positions outside the array follow [splice] (a negative position
    counts from the end).  When nothing is removed the library inserts
    [undefined], and the handlers, which read [.id] of every element,
    throw: that is [None]. *)
Definition arrayMove {A} (l : list A) (from to : Z) : option (list A) :=
  let len := Z.of_nat (length l) in
  let to' := if to <? 0 then len + to else to in
  let i := splice_start len from in
  match l !! i with
  | Some x =>
      let rest := delete i l in
      let j := splice_start (Z.of_nat (length rest)) to' in
      Some (take j rest ++ x :: drop j rest)
  | None => None
  end.

(* ===================================================================== *)
(** * Data model ([useNotebooks.ts], lines 7-54) *)
(* ===================================================================== *)

Inductive Role := owner | admin | reader.

#[export] Instance Role_eq_dec : EqDecision Role.
Proof. solve_decision. Defined.

Record TaskCompletion := {
  userId : string;
  userName : string;
  avatarUrl : option string
}.

Module Task.
Record t := {
  id : string;
  title : string;
  note_id : string;
  folder_id : option string;
  order_index : Z;
  created_at : string;
  completedBy : list string;
  completions : list TaskCompletion
}.
End Task.

Module TaskFolder.
Record t := {
  id : string;
  note_id : string;
  title : string;
  order_index : Z;
  is_collapsed : bool;
  created_at : string
}.
End TaskFolder.

Module Note.
Record t := {
  id : string;
  title : string;
  notebook_id : string;
  order_index : Z;
  created_at : string;
  tasks : list Task.t;
  folders : list TaskFolder.t
}.
End Note.

Module Notebook.
Record t := {
  id : string;
  title : string;
  owner_id : string;
  is_shared : bool;
  share_code : option string;
  order_index : Z;
  created_at : string;
  notes : list Note.t;
  memberCount : Z;
  userRole : Role
}.
End Notebook.

(** An entry of the [newOrder] argument of the reorder operations. *)
Record OrderEntry := { entry_id : string; entry_index : Z }.

#[export] Instance TaskCompletion_eq_dec : EqDecision TaskCompletion.
Proof. solve_decision. Defined.
#[export] Instance Task_eq_dec : EqDecision Task.t.
Proof. solve_decision. Defined.
#[export] Instance TaskFolder_eq_dec : EqDecision TaskFolder.t.
Proof. solve_decision. Defined.
#[export] Instance Note_eq_dec : EqDecision Note.t.
Proof. solve_decision. Defined.
#[export] Instance Notebook_eq_dec : EqDecision Notebook.t.
Proof. solve_decision. Defined.
#[export] Instance OrderEntry_eq_dec : EqDecision OrderEntry.
Proof. solve_decision. Defined.

(* ===================================================================== *)
(** * The durable store (Supabase tables, [supabase/migrations]) *)
(* ===================================================================== *)

Module Row.
Record notebook := {
  nb_id : string;
  nb_title : string;
  nb_owner_id : string;
  nb_is_shared : bool;
  nb_share_code : option string;
  nb_order_index : Z;
  nb_created_at : string
}.
Record member := {
  m_notebook_id : string;
  m_user_id : string;
  m_role : Role
}.
Record note := {
  n_id : string;
  n_notebook_id : string;
  n_title : string;
  n_order_index : Z;
  n_created_at : string
}.
Record folder := {
  f_id : string;
  f_note_id : string;
  f_title : string;
  f_order_index : Z;
  f_is_collapsed : bool;
  f_created_at : string
}.
Record task := {
  t_id : string;
  t_note_id : string;
  t_folder_id : option string;
  t_title : string;
  t_order_index : Z;
  t_created_at : string
}.
Record completion := {
  c_task_id : string;
  c_user_id : string
}.
Record profile := {
  p_user_id : string;
  p_name : string;
  p_avatar_url : option string
}.
End Row.

#[export] Instance Row_member_eq_dec : EqDecision Row.member.
Proof. solve_decision. Defined.
#[export] Instance Row_completion_eq_dec : EqDecision Row.completion.
Proof. solve_decision. Defined.
#[export] Instance Row_task_eq_dec : EqDecision Row.task.
Proof. solve_decision. Defined.

Record Backend := {
  notebooks_tbl : list Row.notebook;
  members_tbl : list Row.member;
  notes_tbl : list Row.note;
  folders_tbl : list Row.folder;
  tasks_tbl : list Row.task;
  completions_tbl : list Row.completion;
  profiles_tbl : list Row.profile
}.

(** [.maybeSingle()]: the row when exactly one matches, [null] when none
    does, an error (and no data) when several do. *)
Inductive Single (A : Type) := NoRow | OneRow (a : A) | ManyRows.
Arguments NoRow {A}.
Arguments OneRow {A} a.
Arguments ManyRows {A}.

Definition maybeSingle {A} (rows : list A) : Single A :=
  match rows with
  | [] => NoRow
  | [a] => OneRow a
  | _ => ManyRows
  end.

(** The [data] field of the answer of [.maybeSingle()]. *)
Definition single_data {A} (r : Single A) : option A :=
  match r with OneRow a => Some a | _ => None end.

(** [.order('order_index', { ascending: true })]: rows by ascending key;
    rows with equal keys keep the order of the table. *)
Fixpoint insert_by {A} (key : A -> Z) (x : A) (l : list A) : list A :=
  match l with
  | [] => [x]
  | y :: r => if key x <=? key y then x :: l else y :: insert_by key x r
  end.

Definition order_by {A} (key : A -> Z) (l : list A) : list A :=
  foldr (insert_by key) [] l.

(** [new Map(entries)]: a later entry replaces an earlier one with the
    same key. *)
Definition js_Map {V} (entries : list (string * V)) : gmap string V :=
  list_to_map (reverse entries).

(** [[...new Set(xs)]]: first occurrences, in order. *)
Definition js_unique (xs : list string) : list string := remove_dups xs.

(* ===================================================================== *)
(** * The hook state and [fetchNotebooks] ([useNotebooks.ts], lines 56-232) *)
(* ===================================================================== *)

(** [notebooks] is the React state of the hook; [toasts] collects the
    messages shown with [toast.error] / [toast.success]; [refetches]
    counts the [fetchNotebooks()] calls a mutation has scheduled on
    settlement and that have not resolved yet. *)
Record Hook := {
  notebooks : list Notebook.t;
  toasts : list string;
  refetches : nat
}.

Definition setNotebooks (f : list Notebook.t -> list Notebook.t) (s : Hook) : Hook :=
  {| notebooks := f (notebooks s); toasts := toasts s; refetches := refetches s |}.

Definition toast (msg : string) (s : Hook) : Hook :=
  {| notebooks := notebooks s; toasts := toasts s ++ [msg]; refetches := refetches s |}.

Definition schedule_refetch (s : Hook) : Hook :=
  {| notebooks := notebooks s; toasts := toasts s; refetches := S (refetches s) |}.

(** A completion row joined with the profile of its user (lines 155-183). *)
Record FetchedCompletion := {
  fc_task_id : string;
  fc_user_id : string;
  fc_userName : string;
  fc_avatarUrl : option string
}.

Section fetch.
Variable db : Backend.
Variable uid : string.

(** Lines 153-183. *)
Definition fetch_completions (taskIds : list string) : list FetchedCompletion :=
  if bool_decide (0 < length taskIds)%nat then
    let completionData :=
      filter (fun c => Row.c_task_id c ∈ taskIds) (completions_tbl db) in
    if bool_decide (0 < length completionData)%nat then
      let userIds := js_unique (map Row.c_user_id completionData) in
      let profiles :=
        filter (fun p => Row.p_user_id p ∈ userIds) (profiles_tbl db) in
      let profileMap := js_Map (map (fun p => (Row.p_user_id p, p)) profiles) in
      map (fun c =>
             let profile := profileMap !! Row.c_user_id c in
             {| fc_task_id := Row.c_task_id c;
                fc_user_id := Row.c_user_id c;
                fc_userName := str_or (Row.p_name <$> profile) "Unknown";
                fc_avatarUrl := str_or_null (profile ≫= Row.p_avatar_url) |})
          completionData
    else []
  else [].

(** Lines 192-203. *)
Definition task_with_completions (completions : list FetchedCompletion)
    (t : Row.task) : Task.t :=
  let taskCompletions := filter (fun c => fc_task_id c = Row.t_id t) completions in
  {| Task.id := Row.t_id t;
     Task.title := Row.t_title t;
     Task.note_id := Row.t_note_id t;
     Task.folder_id := Row.t_folder_id t;
     Task.order_index := Row.t_order_index t;
     Task.created_at := Row.t_created_at t;
     Task.completedBy := map fc_user_id taskCompletions;
     Task.completions :=
       map (fun c => {| userId := fc_user_id c;
                        userName := fc_userName c;
                        avatarUrl := fc_avatarUrl c |}) taskCompletions |}.

Definition folder_of_row (f : Row.folder) : TaskFolder.t :=
  {| TaskFolder.id := Row.f_id f;
     TaskFolder.note_id := Row.f_note_id f;
     TaskFolder.title := Row.f_title f;
     TaskFolder.order_index := Row.f_order_index f;
     TaskFolder.is_collapsed := Row.f_is_collapsed f;
     TaskFolder.created_at := Row.f_created_at f |}.

(** The [count] of the head-only select of lines 186-189, and line 219:
    [(memberCount || 0) + 1]. *)
Definition member_rows (nbid : string) : list Row.member :=
  filter (fun m => Row.m_notebook_id m = nbid) (members_tbl db).

Definition count_or0 (count : option Z) : Z :=
  match count with Some c => or0 c | None => 0 end.

(** Lines 106-222: one notebook with its notes, folders and tasks. *)
Definition fetch_one (nb : Row.notebook) : Notebook.t :=
  let userRole :=
    if bool_decide (Row.nb_owner_id nb = uid) then owner
    else
      match single_data (maybeSingle
              (filter (fun m => Row.m_notebook_id m = Row.nb_id nb
                                /\ Row.m_user_id m = uid) (members_tbl db))) with
      | Some membership => Row.m_role membership
      | None => reader
      end in
  let notes :=
    order_by Row.n_order_index
      (filter (fun n => Row.n_notebook_id n = Row.nb_id nb) (notes_tbl db)) in
  let noteIds := map Row.n_id notes in
  let folders :=
    if bool_decide (0 < length noteIds)%nat
    then order_by Row.f_order_index
           (filter (fun f => Row.f_note_id f ∈ noteIds) (folders_tbl db))
    else [] in
  let tasks :=
    if bool_decide (0 < length noteIds)%nat
    then order_by Row.t_order_index
           (filter (fun t => Row.t_note_id t ∈ noteIds) (tasks_tbl db))
    else [] in
  let completions := fetch_completions (map Row.t_id tasks) in
  let memberCount := Some (Z.of_nat (length (member_rows (Row.nb_id nb)))) in
  let tasksWithCompletions := map (task_with_completions completions) tasks in
  let notesWithTasks :=
    map (fun n =>
           {| Note.id := Row.n_id n;
              Note.title := Row.n_title n;
              Note.notebook_id := Row.n_notebook_id n;
              Note.order_index := Row.n_order_index n;
              Note.created_at := Row.n_created_at n;
              Note.tasks :=
                filter (fun t => Task.note_id t = Row.n_id n) tasksWithCompletions;
              Note.folders :=
                map folder_of_row
                  (filter (fun f => Row.f_note_id f = Row.n_id n) folders) |})
        notes in
  {| Notebook.id := Row.nb_id nb;
     Notebook.title := Row.nb_title nb;
     Notebook.owner_id := Row.nb_owner_id nb;
     Notebook.is_shared := Row.nb_is_shared nb;
     Notebook.share_code := Row.nb_share_code nb;
     Notebook.order_index := Row.nb_order_index nb;
     Notebook.created_at := Row.nb_created_at nb;
     Notebook.notes := notesWithTasks;
     Notebook.memberCount := count_or0 memberCount + 1;
     Notebook.userRole := userRole |}.

(** Lines 86-102: the owned notebooks, then those joined, without
    repeating an id. *)
Definition push_unseen (acc : list Row.notebook) (nb : Row.notebook) :=
  if bool_decide (Row.nb_id nb ∈ map Row.nb_id acc) then acc else acc ++ [nb].

Definition all_notebooks : list Row.notebook :=
  let ownedNotebooks :=
    filter (fun nb => Row.nb_owner_id nb = uid) (notebooks_tbl db) in
  let memberNotebooks :=
    omap (fun m =>
            head (filter (fun nb => Row.nb_id nb = Row.m_notebook_id m)
                         (notebooks_tbl db)))
         (filter (fun m => Row.m_user_id m = uid) (members_tbl db)) in
  foldl push_unseen (foldl push_unseen [] ownedNotebooks) memberNotebooks.

Definition notebooksWithData : list Notebook.t := map fetch_one all_notebooks.
End fetch.

(** [fetchNotebooks] (lines 62-232): without a signed-in user the state
    is emptied; when one of the first two queries fails the state is kept
    and the failure is reported; else the state is replaced wholesale. *)
Definition fetchNotebooks (db : Backend) (user : option string)
    (query_fails : bool) (s : Hook) : Hook :=
  match user with
  | None => setNotebooks (fun _ => []) s
  | Some uid =>
      if query_fails then toast "Failed to load notebooks" s
      else setNotebooks (fun _ => notebooksWithData db uid) s
  end.

(* ===================================================================== *)
(** * Spread-copies ([{ ...x, field: v }]) *)
(* ===================================================================== *)

Definition Notebook_with_notes (nb : Notebook.t) (ns : list Note.t) : Notebook.t :=
  {| Notebook.id := Notebook.id nb;
     Notebook.title := Notebook.title nb;
     Notebook.owner_id := Notebook.owner_id nb;
     Notebook.is_shared := Notebook.is_shared nb;
     Notebook.share_code := Notebook.share_code nb;
     Notebook.order_index := Notebook.order_index nb;
     Notebook.created_at := Notebook.created_at nb;
     Notebook.notes := ns;
     Notebook.memberCount := Notebook.memberCount nb;
     Notebook.userRole := Notebook.userRole nb |}.

Definition Note_with_tasks (n : Note.t) (ts : list Task.t) : Note.t :=
  {| Note.id := Note.id n;
     Note.title := Note.title n;
     Note.notebook_id := Note.notebook_id n;
     Note.order_index := Note.order_index n;
     Note.created_at := Note.created_at n;
     Note.tasks := ts;
     Note.folders := Note.folders n |}.

Definition Task_with_folder_id (t : Task.t) (f : option string) : Task.t :=
  {| Task.id := Task.id t;
     Task.title := Task.title t;
     Task.note_id := Task.note_id t;
     Task.folder_id := f;
     Task.order_index := Task.order_index t;
     Task.created_at := Task.created_at t;
     Task.completedBy := Task.completedBy t;
     Task.completions := Task.completions t |}.

Definition Task_with_completion (t : Task.t) (by_ : list string)
    (cs : list TaskCompletion) : Task.t :=
  {| Task.id := Task.id t;
     Task.title := Task.title t;
     Task.note_id := Task.note_id t;
     Task.folder_id := Task.folder_id t;
     Task.order_index := Task.order_index t;
     Task.created_at := Task.created_at t;
     Task.completedBy := by_;
     Task.completions := cs |}.

(* ===================================================================== *)
(** * Ordering engine: the drag handlers *)
(* ===================================================================== *)

(** What a handler asks of the hook: the callback it invokes, if any. *)
Inductive Call :=
| onMoveTaskToFolder (taskId : string) (folderId : option string)
| onReorderTasks (noteId : string) (newOrder : list OrderEntry)
| onReorderNotes (notebookId : string) (newOrder : list OrderEntry).

Inductive Outcome :=
| NoCall
| Calls (c : Call)
| Throws.

(** [xs.map((x, index) => ({ id: x.id, order_index: index }))]. *)
Definition index_entries {A} (get_id : A -> string) (l : list A) : list OrderEntry :=
  imap (fun i x => {| entry_id := get_id x; entry_index := Z.of_nat i |}) l.

(** The sibling list a task is dragged within (NoteCard,
    lines 200-202). *)
Definition tasksInContainer (note : Note.t) (activeTask : Task.t) : list Task.t :=
  if bool_decide (Task.folder_id activeTask = None)
  then filter (fun t => truthy (Task.folder_id t) = false) (Note.tasks note)
  else filter (fun t => Task.folder_id t = Task.folder_id activeTask) (Note.tasks note).

(** [handleTaskDragEnd] (NoteCard, [unnamed/part_003] lines 158-215).  [over] is
    [None] when the task is dropped outside every droppable. *)
Definition handleTaskDragEnd (note : Note.t) (activeId : string)
    (over : option string) : Outcome :=
  match over with
  | None => NoCall
  | Some overId =>
    match js_find (fun f => TaskFolder.id f = overId) (Note.folders note) with
    | Some targetFolder =>
        match js_find (fun t => Task.id t = activeId) (Note.tasks note) with
        | Some task =>
            if bool_decide (Task.folder_id task <> Some (TaskFolder.id targetFolder))
            then Calls (onMoveTaskToFolder activeId (Some (TaskFolder.id targetFolder)))
            else NoCall
        | None => NoCall
        end
    | None =>
      if bool_decide (overId = ("root-" +:+ Note.id note)%string) then
        match js_find (fun t => Task.id t = activeId) (Note.tasks note) with
        | Some task =>
            if bool_decide (Task.folder_id task <> None)
            then Calls (onMoveTaskToFolder activeId None)
            else NoCall
        | None => NoCall
        end
      else
        match js_find (fun t => Task.id t = activeId) (Note.tasks note),
              js_find (fun t => Task.id t = overId) (Note.tasks note) with
        | Some activeTask, Some overTask =>
            if bool_decide (Task.folder_id activeTask <> Task.folder_id overTask)
            then Calls (onMoveTaskToFolder activeId (Task.folder_id overTask))
            else
              let siblings := tasksInContainer note activeTask in
              let oldIndex := findIndex (fun t => Task.id t = activeId) siblings in
              let newIndex := findIndex (fun t => Task.id t = overId) siblings in
              if bool_decide (oldIndex <> -1 /\ newIndex <> -1) then
                match arrayMove siblings oldIndex newIndex with
                | Some moved =>
                    Calls (onReorderTasks (Note.id note) (index_entries Task.id moved))
                | None => Throws
                end
              else NoCall
        | _, _ => NoCall
        end
    end
  end.

(** [handleDragEnd] (NotebookView, [components/TaskCommentsPanel.tsx]
    lines 315-329). *)
Definition handleDragEnd (notebook : Notebook.t) (activeId : string)
    (over : option string) : Outcome :=
  match over with
  | Some overId =>
      if bool_decide (activeId <> overId) then
        let oldIndex := findIndex (fun n => Note.id n = activeId) (Notebook.notes notebook) in
        let newIndex := findIndex (fun n => Note.id n = overId) (Notebook.notes notebook) in
        match arrayMove (Notebook.notes notebook) oldIndex newIndex with
        | Some moved =>
            Calls (onReorderNotes (Notebook.id notebook) (index_entries Note.id moved))
        | None => Throws
        end
      else NoCall
  | None => NoCall
  end.

(* ===================================================================== *)
(** * Mutation coordinator: the optimistic mutations *)
(* ===================================================================== *)

(** A [useMutation] of the hook.  [mutationFn] talks to the store: it
    receives, for each request it sends, whether that request fails, and
    answers whether it throws.  [onMutate] returns the context
    ([previousNotebooks]) that [onError] receives. *)
Record Mutation (V : Type) := {
  mutationFn : V -> list bool -> Backend -> bool * Backend;
  onMutate : V -> Hook -> list Notebook.t * Hook;
  onError : list Notebook.t -> Hook -> Hook;
  onSettled : Hook -> Hook
}.
Arguments mutationFn {V} _ _ _ _.
Arguments onMutate {V} _ _ _.
Arguments onError {V} _ _ _.
Arguments onSettled {V} _ _.

(** [mutation.mutate(v)]: [onMutate], the write, [onError] when it threw,
    [onSettled] in both cases. *)
Definition mutate {V} (m : Mutation V) (v : V) (faults : list bool)
    (w : Hook * Backend) : Hook * Backend :=
  let '(context, s1) := onMutate m v w.1 in
  let '(threw, db1) := mutationFn m v faults w.2 in
  let s2 := if threw then onError m context s1 else s1 in
  (onSettled m s2, db1).

(** The per-id updates of both reorder mutations, sent together
    ([Promise.all]); the mutation throws when one of them failed, the
    others have been applied all the same. *)
Fixpoint run_updates {R} (upd : OrderEntry -> list R -> list R)
    (newOrder : list OrderEntry) (faults : list bool) (rows : list R)
    : bool * list R :=
  match newOrder with
  | [] => (false, rows)
  | e :: rest =>
      let fault := default false (head faults) in
      let '(err, rows') :=
        run_updates upd rest (tail faults) (if fault then rows else upd e rows) in
      (fault || err, rows')
  end.

Definition set_note_order (notebookId : string) (e : OrderEntry)
    (rows : list Row.note) : list Row.note :=
  map (fun r =>
         if bool_decide (Row.n_id r = entry_id e /\ Row.n_notebook_id r = notebookId)
         then {| Row.n_id := Row.n_id r;
                 Row.n_notebook_id := Row.n_notebook_id r;
                 Row.n_title := Row.n_title r;
                 Row.n_order_index := entry_index e;
                 Row.n_created_at := Row.n_created_at r |}
         else r) rows.

Definition set_task_order (noteId : string) (e : OrderEntry)
    (rows : list Row.task) : list Row.task :=
  map (fun r =>
         if bool_decide (Row.t_id r = entry_id e /\ Row.t_note_id r = noteId)
         then {| Row.t_id := Row.t_id r;
                 Row.t_note_id := Row.t_note_id r;
                 Row.t_folder_id := Row.t_folder_id r;
                 Row.t_title := Row.t_title r;
                 Row.t_order_index := entry_index e;
                 Row.t_created_at := Row.t_created_at r |}
         else r) rows.

Definition set_task_folder (taskId : string) (folderId : option string)
    (rows : list Row.task) : list Row.task :=
  map (fun r =>
         if bool_decide (Row.t_id r = taskId)
         then {| Row.t_id := Row.t_id r;
                 Row.t_note_id := Row.t_note_id r;
                 Row.t_folder_id := folderId;
                 Row.t_title := Row.t_title r;
                 Row.t_order_index := Row.t_order_index r;
                 Row.t_created_at := Row.t_created_at r |}
         else r) rows.

Definition Backend_with_notes (db : Backend) (rows : list Row.note) : Backend :=
  {| notebooks_tbl := notebooks_tbl db; members_tbl := members_tbl db;
     notes_tbl := rows; folders_tbl := folders_tbl db;
     tasks_tbl := tasks_tbl db; completions_tbl := completions_tbl db;
     profiles_tbl := profiles_tbl db |}.

Definition Backend_with_tasks (db : Backend) (rows : list Row.task) : Backend :=
  {| notebooks_tbl := notebooks_tbl db; members_tbl := members_tbl db;
     notes_tbl := notes_tbl db; folders_tbl := folders_tbl db;
     tasks_tbl := rows; completions_tbl := completions_tbl db;
     profiles_tbl := profiles_tbl db |}.

Definition Backend_with_completions (db : Backend)
    (rows : list Row.completion) : Backend :=
  {| notebooks_tbl := notebooks_tbl db; members_tbl := members_tbl db;
     notes_tbl := notes_tbl db; folders_tbl := folders_tbl db;
     tasks_tbl := tasks_tbl db; completions_tbl := rows;
     profiles_tbl := profiles_tbl db |}.

Definition Backend_with_members (db : Backend) (rows : list Row.member) : Backend :=
  {| notebooks_tbl := notebooks_tbl db; members_tbl := rows;
     notes_tbl := notes_tbl db; folders_tbl := folders_tbl db;
     tasks_tbl := tasks_tbl db; completions_tbl := completions_tbl db;
     profiles_tbl := profiles_tbl db |}.

(** The rollback shared by the three mutations (lines 569-576, 620-627,
    754-761): restore the snapshot, report the failure. *)
Definition rollback (msg : string) (previousNotebooks : list Notebook.t)
    (s : Hook) : Hook :=
  toast msg (setNotebooks (fun _ => previousNotebooks) s).

(** [reorderNotesMutation] (lines 537-581). *)
Definition reorderNotesMutation : Mutation (string * list OrderEntry) := {|
  mutationFn := fun '(notebookId, newOrder) faults db =>
    let '(err, rows) :=
      run_updates (set_note_order notebookId) newOrder faults (notes_tbl db) in
    (err, Backend_with_notes db rows);
  onMutate := fun '(notebookId, newOrder) s =>
    let previousNotebooks := notebooks s in
    (previousNotebooks,
     setNotebooks (map (fun nb =>
       if bool_decide (Notebook.id nb = notebookId) then
         let noteMap := js_Map (map (fun n => (Note.id n, n)) (Notebook.notes nb)) in
         let reorderedNotes := omap (fun e => noteMap !! entry_id e) newOrder in
         Notebook_with_notes nb reorderedNotes
       else nb)) s);
  onError := rollback "Failed to reorder notes";
  onSettled := schedule_refetch
|}.

(** [reorderTasksMutation] (lines 584-632). *)
Definition reorderTasksMutation : Mutation (string * list OrderEntry) := {|
  mutationFn := fun '(noteId, newOrder) faults db =>
    let '(err, rows) :=
      run_updates (set_task_order noteId) newOrder faults (tasks_tbl db) in
    (err, Backend_with_tasks db rows);
  onMutate := fun '(noteId, newOrder) s =>
    let previousNotebooks := notebooks s in
    (previousNotebooks,
     setNotebooks (map (fun nb =>
       Notebook_with_notes nb (map (fun note =>
         if bool_decide (Note.id note = noteId) then
           let taskMap :=
             js_Map (map (fun t => (Task.id t, t))
                         (filter (fun t => truthy (Task.folder_id t) = false)
                                 (Note.tasks note))) in
           let reorderedTasks := omap (fun e => taskMap !! entry_id e) newOrder in
           let folderTasks :=
             filter (fun t => truthy (Task.folder_id t) = true) (Note.tasks note) in
           Note_with_tasks note (reorderedTasks ++ folderTasks)
         else note) (Notebook.notes nb)))) s);
  onError := rollback "Failed to reorder tasks";
  onSettled := schedule_refetch
|}.

(** [moveTaskToFolderMutation] (lines 723-766). *)
Definition moveTaskToFolderMutation : Mutation (string * option string) := {|
  mutationFn := fun '(taskId, folderId) faults db =>
    if default false (head faults) then (true, db)
    else (false, Backend_with_tasks db (set_task_folder taskId folderId (tasks_tbl db)));
  onMutate := fun '(taskId, folderId) s =>
    let previousNotebooks := notebooks s in
    (previousNotebooks,
     setNotebooks (map (fun nb =>
       Notebook_with_notes nb (map (fun note =>
         Note_with_tasks note (map (fun task =>
           if bool_decide (Task.id task = taskId)
           then Task_with_folder_id task folderId
           else task) (Note.tasks note))) (Notebook.notes nb)))) s);
  onError := rollback "Failed to move task";
  onSettled := schedule_refetch
|}.

(** What the hook does with a handler's call (lines 634-640, 768-770). *)
Definition dispatch (c : Call) (faults : list bool) (w : Hook * Backend)
    : Hook * Backend :=
  match c with
  | onMoveTaskToFolder taskId folderId =>
      mutate moveTaskToFolderMutation (taskId, folderId) faults w
  | onReorderTasks noteId newOrder =>
      mutate reorderTasksMutation (noteId, newOrder) faults w
  | onReorderNotes notebookId newOrder =>
      mutate reorderNotesMutation (notebookId, newOrder) faults w
  end.

(* ===================================================================== *)
(** * Completion tracker and task creation *)
(* ===================================================================== *)

(** How a non-optimistic operation ended. *)
Inductive Ending := Skipped | Failed | Succeeded.

#[export] Instance Ending_eq_dec : EqDecision Ending.
Proof. solve_decision. Defined.

(** The look-up chain of [toggleTask] and [addTask] (lines 360-361,
    453-455): [notebooks.find(..)?.notes.find(..)?.tasks.find(..)]. *)
Definition find_note (nbs : list Notebook.t) (notebookId noteId : string)
    : option Note.t :=
  notebook ← js_find (fun nb => Notebook.id nb = notebookId) nbs;
  js_find (fun n => Note.id n = noteId) (Notebook.notes notebook).

Definition find_task (nbs : list Notebook.t) (notebookId noteId taskId : string)
    : option Task.t :=
  note ← find_note nbs notebookId noteId;
  js_find (fun t => Task.id t = taskId) (Note.tasks note).

(** [.delete().eq('task_id', ..).eq('user_id', ..)] on [task_completions]. *)
Definition delete_completion (fault : bool) (taskId uid : string) (db : Backend)
    : bool * Backend :=
  if fault then (true, db)
  else (false,
        Backend_with_completions db
          (filter (fun c => ~ (Row.c_task_id c = taskId /\ Row.c_user_id c = uid))
                  (completions_tbl db))).

(** [.insert({ task_id, user_id })]; the table is [UNIQUE(task_id,
    user_id)], a second row for the pair is rejected. *)
Definition insert_completion (fault : bool) (taskId uid : string) (db : Backend)
    : bool * Backend :=
  let row := {| Row.c_task_id := taskId; Row.c_user_id := uid |} in
  if fault || bool_decide (row ∈ completions_tbl db) then (true, db)
  else (false, Backend_with_completions db (completions_tbl db ++ [row])).

(** The local patch of [toggleTask] (lines 490-516). *)
Definition toggle_patch (notebookId noteId taskId uid : string)
    (isCompleted : bool) (userName : string) (avatarUrl : option string)
    (prev : list Notebook.t) : list Notebook.t :=
  map (fun nb =>
    if bool_decide (Notebook.id nb = notebookId) then
      Notebook_with_notes nb (map (fun n =>
        if bool_decide (Note.id n = noteId) then
          Note_with_tasks n (map (fun t =>
            if bool_decide (Task.id t = taskId) then
              Task_with_completion t
                (if isCompleted
                 then filter (fun id => id <> uid) (Task.completedBy t)
                 else Task.completedBy t ++ [uid])
                (if isCompleted
                 then filter (fun c => userId c <> uid) (Task.completions t)
                 else Task.completions t ++
                        [{| userId := uid; userName := userName;
                            avatarUrl := avatarUrl |}])
            else t) (Note.tasks n))
        else n) (Notebook.notes nb))
    else nb) prev.

(** [toggleTask] (lines 449-521).  [fault]: the store rejects the write
    for a reason of its own (network, access policy). *)
Definition toggleTask (user : option string) (fault : bool)
    (notebookId noteId taskId : string) (w : Hook * Backend)
    : Ending * (Hook * Backend) :=
  match user with
  | None => (Skipped, w)
  | Some uid =>
    match find_task (notebooks w.1) notebookId noteId taskId with
    | None => (Skipped, w)
    | Some task =>
        let isCompleted := includes uid (Task.completedBy task) in
        let '(error, db1) :=
          if isCompleted then delete_completion fault taskId uid w.2
          else insert_completion fault taskId uid w.2 in
        if error then (Failed, (toast "Failed to update task" w.1, db1))
        else
          let profile :=
            single_data (maybeSingle
              (filter (fun p => Row.p_user_id p = uid) (profiles_tbl db1))) in
          let userName := str_or (Row.p_name <$> profile) "Unknown" in
          let avatarUrl := str_or_null (profile ≫= Row.p_avatar_url) in
          (Succeeded,
           (setNotebooks (toggle_patch notebookId noteId taskId uid isCompleted
                            userName avatarUrl) w.1, db1))
    end
  end.

(** The sibling list [addTask] numbers the new task after (lines
    362-364). *)
Definition folderTasks_of (note : option Note.t) (folderId : option string)
    : list Task.t :=
  match note with
  | Some n =>
      if truthy folderId
      then filter (fun t => Task.folder_id t = folderId) (Note.tasks n)
      else filter (fun t => truthy (Task.folder_id t) = false) (Note.tasks n)
  | None => []
  end.

(** Lines 365-367. *)
Definition maxOrder_of (folderTasks : list Task.t) : Z :=
  if bool_decide (0 < length folderTasks)%nat
  then default 0 (Math_max (map (fun t => or0 (Task.order_index t)) folderTasks))
  else -1.

(** [addTask] (lines 358-393).  [new_id] and [now] are the [id] and
    [created_at] the store gives the inserted row. *)
Definition addTask (fault : bool) (new_id now : string)
    (notebookId noteId title : string) (folderId : option string)
    (w : Hook * Backend) : Ending * (Hook * Backend) :=
  let note := find_note (notebooks w.1) notebookId noteId in
  let folderTasks := folderTasks_of note folderId in
  let maxOrder := maxOrder_of folderTasks in
  if fault then (Failed, (toast "Failed to create task" w.1, w.2))
  else
    let data := {| Row.t_id := new_id; Row.t_note_id := noteId;
                   Row.t_folder_id := folderId; Row.t_title := title;
                   Row.t_order_index := maxOrder + 1;
                   Row.t_created_at := now |} in
    let task := {| Task.id := Row.t_id data; Task.title := Row.t_title data;
                   Task.note_id := Row.t_note_id data;
                   Task.folder_id := Row.t_folder_id data;
                   Task.order_index := Row.t_order_index data;
                   Task.created_at := Row.t_created_at data;
                   Task.completedBy := []; Task.completions := [] |} in
    (Succeeded,
     (setNotebooks (map (fun nb =>
        if bool_decide (Notebook.id nb = notebookId) then
          Notebook_with_notes nb (map (fun n =>
            if bool_decide (Note.id n = noteId)
            then Note_with_tasks n (Note.tasks n ++ [task])
            else n) (Notebook.notes nb))
        else nb)) w.1,
      Backend_with_tasks w.2 (tasks_tbl w.2 ++ [data]))).

(* ===================================================================== *)
(** * Joining by share code ([JoinNotebookDialog.tsx], lines 29-95) *)
(* ===================================================================== *)

(** [String.prototype.trim] and [toUpperCase] on the ASCII range (a
    share code is eight characters of an ASCII alphabet). *)
Definition is_space (a : Ascii.ascii) : bool :=
  let n := Ascii.nat_of_ascii a in
  bool_decide (n = 9 \/ n = 10 \/ n = 11 \/ n = 12 \/ n = 13 \/ n = 32)%nat.

Fixpoint drop_spaces (l : list Ascii.ascii) : list Ascii.ascii :=
  match l with
  | a :: r => if is_space a then drop_spaces r else l
  | [] => []
  end.

Definition trim (s : string) : string :=
  String.string_of_list_ascii
    (reverse (drop_spaces (reverse (drop_spaces (String.list_ascii_of_string s))))).

Definition upper_ascii (a : Ascii.ascii) : Ascii.ascii :=
  let n := Ascii.nat_of_ascii a in
  if bool_decide (97 <= n <= 122)%nat then Ascii.ascii_of_nat (n - 32) else a.

Definition toUpperCase (s : string) : string :=
  String.string_of_list_ascii (map upper_ascii (String.list_ascii_of_string s)).

Inductive Toast :=
| toast_error (msg : string)
| toast_success (msg : string).

#[export] Instance Toast_eq_dec : EqDecision Toast.
Proof. solve_decision. Defined.

(** The three requests [handleJoin] sends, each of which the store may
    fail: the notebook look-up, the membership look-up, the insert. *)
Record JoinFaults := {
  find_fails : bool;
  member_lookup_fails : bool;
  insert_fails : bool
}.

(** [.insert({ notebook_id, user_id, role: 'reader' })]; the table is
    [UNIQUE(notebook_id, user_id)]. *)
Definition insert_member (fault : bool) (notebookId uid : string) (db : Backend)
    : bool * Backend :=
  if fault || bool_decide (Exists (fun m => Row.m_notebook_id m = notebookId
                                            /\ Row.m_user_id m = uid)
                                  (members_tbl db))
  then (true, db)
  else (false,
        Backend_with_members db
          (members_tbl db ++
             [{| Row.m_notebook_id := notebookId; Row.m_user_id := uid;
                 Row.m_role := reader |}])).

(** [handleJoin].  The answer is the store afterwards, the toast shown
    (none when the handler returns at once) and whether the dialog was
    closed and [onJoined] called. *)
Definition handleJoin (shareCode : string) (user : option string)
    (faults : JoinFaults) (db : Backend) : Backend * option Toast * bool :=
  match user with
  | None => (db, None, false)
  | Some uid =>
    if bool_decide (trim shareCode = ""%string) then (db, None, false)
    else
      let code := toUpperCase (trim shareCode) in
      let found :=
        if find_fails faults then None
        else Some (maybeSingle
                     (filter (fun nb => Row.nb_share_code nb = Some code)
                             (notebooks_tbl db))) in
      match found with
      | None | Some ManyRows =>
          (db, Some (toast_error "Error finding notebook"), false)
      | Some NoRow => (db, Some (toast_error "Invalid share code"), false)
      | Some (OneRow notebook) =>
        if negb (Row.nb_is_shared notebook)
        then (db, Some (toast_error "This notebook is not shared"), false)
        else
          let existingMember :=
            if member_lookup_fails faults then None
            else single_data (maybeSingle
                   (filter (fun m => Row.m_notebook_id m = Row.nb_id notebook
                                     /\ Row.m_user_id m = uid) (members_tbl db))) in
          match existingMember with
          | Some _ =>
              (db, Some (toast_error "You are already a member of this notebook"),
               false)
          | None =>
              let '(joinError, db1) :=
                insert_member (insert_fails faults) (Row.nb_id notebook) uid db in
              if joinError
              then (db1, Some (toast_error "Failed to join notebook"), false)
              else (db1,
                    Some (toast_success
                            ("Joined " +:+ String (Ascii.ascii_of_nat 34)
                               (Row.nb_title notebook +:+
                                String (Ascii.ascii_of_nat 34) "!"))),
                    true)
          end
      end
  end.

(* ===================================================================== *)
(** * Realtime comment reconciler (the two comments panels) *)
(* ===================================================================== *)

Module Comment.
(** [CommentRow]; a row pushed by the change feed has no [user_name]
    and no [avatar_url] yet. *)
Record t := {
  id : string;
  task_id : string;
  user_id : string;
  content : string;
  created_at : string;
  user_name : option string;
  avatar_url : option string
}.
End Comment.

#[export] Instance Comment_eq_dec : EqDecision Comment.t.
Proof. solve_decision. Defined.

(** The [profile] of [useAuth()] and the rows of [profiles] the handlers
    read: a name and an avatar. *)
Record ProfileData := { pd_name : string; pd_avatar_url : option string }.

(** State of one open panel.  [lookups] are the profile requests an
    INSERT event has started and that have not resolved yet. *)
Record Thread := {
  comments : list Comment.t;
  newText : string;
  sending : bool;
  lookups : list Comment.t;
  notices : list string
}.

Definition setComments (f : list Comment.t -> list Comment.t) (s : Thread) : Thread :=
  {| comments := f (comments s); newText := newText s; sending := sending s;
     lookups := lookups s; notices := notices s |}.

Definition with_author (row : Comment.t) (name : string) (avatar : option string)
    : Comment.t :=
  {| Comment.id := Comment.id row; Comment.task_id := Comment.task_id row;
     Comment.user_id := Comment.user_id row; Comment.content := Comment.content row;
     Comment.created_at := Comment.created_at row;
     Comment.user_name := Some name; Comment.avatar_url := avatar |}.

(** What happens to an open panel: the user sends, the insert answers,
    the change feed delivers, a profile request resolves. *)
Inductive Event :=
| Send (tempId now : string)
| SendAnswer (tempId content : string) (data : option Comment.t)
| PushInsert (newRow : Comment.t)
| ProfileResolved (newRow : Comment.t) (data : option ProfileData)
| PushDelete (old_id : string).

(** The panel with the optimistic echo ([unnamed/part_003], lines
    477-738), the one the task item of [unnamed/part_002] mounts. *)
Module Panel.
Section panel.
Variable taskId : string.
Variable user : option string.
Variable profile : option ProfileData.

(** First half of [handleSend], up to the [await] (lines 650-672 of
  the revision). *)
Definition handleSend_begin (tempId now : string) (s : Thread) : Thread :=
if bool_decide (trim (newText s) = ""%string) || sending s then s
else
  match user with
  | None =>
      {| comments := comments s; newText := newText s; sending := sending s;
         lookups := lookups s;
         notices := notices s ++ ["You must be signed in"%string] |}
  | Some uid =>
      let optimisticComment :=
        {| Comment.id := tempId; Comment.task_id := taskId;
           Comment.user_id := uid; Comment.content := trim (newText s);
           Comment.created_at := now;
           Comment.user_name := Some (str_or (pd_name <$> profile) "You");
           Comment.avatar_url := str_or_null (profile ≫= pd_avatar_url) |} in
      {| comments := comments s ++ [optimisticComment]; newText := "";
         sending := true; lookups := lookups s; notices := notices s |}
  end.

(** Second half of [handleSend] (lines 681-714): [data] is the
  inserted row, [None] when the insert failed. *)
Definition handleSend_end (tempId content : string) (data : option Comment.t)
  (s : Thread) : Thread :=
match data with
| Some data =>
    let s1 := setComments (fun prev =>
      let withoutTemp := filter (fun c => Comment.id c <> tempId) prev in
      let alreadyExists :=
        js_some (fun c => Comment.id c = Comment.id data) withoutTemp in
      if alreadyExists then withoutTemp
      else withoutTemp ++
             [with_author data (str_or (pd_name <$> profile) "You")
                (str_or_null (profile ≫= pd_avatar_url))]) s in
    {| comments := comments s1; newText := newText s1; sending := false;
       lookups := lookups s1; notices := notices s1 |}
| None =>
    let s1 := setComments (filter (fun c => Comment.id c <> tempId)) s in
    {| comments := comments s1; newText := content; sending := false;
       lookups := lookups s1;
       notices := notices s1 ++ ["Failed to send comment"%string] |}
end.

(** The INSERT branch of the subscription (lines 516-561): an id that
  is held already is skipped, else the author is looked up. *)
Definition on_insert (newRow : Comment.t) (s : Thread) : Thread :=
let exists_ := js_some (fun c => Comment.id c = Comment.id newRow) (comments s) in
if exists_ then s
else {| comments := comments s; newText := newText s; sending := sending s;
        lookups := lookups s ++ [newRow]; notices := notices s |}.

(** The [.then] of that look-up (lines 533-557). *)
Definition on_profile (newRow : Comment.t) (data : option ProfileData)
  (s : Thread) : Thread :=
let s1 := setComments (fun current =>
  let alreadyExists :=
    js_some (fun c => Comment.id c = Comment.id newRow) current in
  if alreadyExists then current
  else current ++
         [with_author newRow (str_or (pd_name <$> data) "Unknown")
            (str_or_null (data ≫= pd_avatar_url))]) s in
{| comments := comments s1; newText := newText s1; sending := sending s1;
   lookups := list_difference (lookups s1) [newRow]; notices := notices s1 |}.

(** The DELETE branch (lines 563-565). *)
Definition on_delete (old_id : string) (s : Thread) : Thread :=
setComments (filter (fun c => Comment.id c <> old_id)) s.

Definition step (s : Thread) (e : Event) : Thread :=
match e with
| Send tempId now => handleSend_begin tempId now s
| SendAnswer tempId content data => handleSend_end tempId content data s
| PushInsert newRow => on_insert newRow s
| ProfileResolved newRow data => on_profile newRow data s
| PushDelete old_id => on_delete old_id s
end.

Definition run (s : Thread) (trace : list Event) : Thread := foldl step s trace.
End panel.
End Panel.

(** The panel without optimistic echo ([src/components/
    TaskCommentsPanel.tsx], lines 20-104): [handleSend] only writes, the
    subscription appends what the change feed delivers. *)
Module PlainPanel.
Section panel.
Variable user : option string.

(** The INSERT branch (lines 34-41): the look-up is started at once. *)
Definition on_insert (newRow : Comment.t) (s : Thread) : Thread :=
{| comments := comments s; newText := newText s; sending := sending s;
   lookups := lookups s ++ [newRow]; notices := notices s |}.

(** Line 38. *)
Definition on_profile (newRow : Comment.t) (data : option ProfileData)
  (s : Thread) : Thread :=
{| comments := comments s ++
     [with_author newRow (str_or (pd_name <$> data) "Unknown")
        (str_or_null (data ≫= pd_avatar_url))];
   newText := newText s; sending := sending s;
   lookups := list_difference (lookups s) [newRow]; notices := notices s |}.

(** Lines 42-44. *)
Definition on_delete (old_id : string) (s : Thread) : Thread :=
setComments (filter (fun c => Comment.id c <> old_id)) s.

(** [handleSend] (lines 91-104), the insert having answered: the text
  is cleared on success, nothing is appended. *)
Definition handleSend (data : option Comment.t) (s : Thread) : Thread :=
if bool_decide (trim (newText s) = ""%string) then s
else
  match user, data with
  | None, _ =>
      {| comments := comments s; newText := newText s; sending := sending s;
         lookups := lookups s;
         notices := notices s ++ ["You must be signed in"%string] |}
  | Some _, None =>
      {| comments := comments s; newText := newText s; sending := sending s;
         lookups := lookups s;
         notices := notices s ++ ["Failed to send comment"%string] |}
  | Some _, Some _ =>
      {| comments := comments s; newText := ""; sending := sending s;
         lookups := lookups s; notices := notices s |}
  end.

Definition step (s : Thread) (e : Event) : Thread :=
match e with
| Send _ _ => s
| SendAnswer _ _ data => handleSend data s
| PushInsert newRow => on_insert newRow s
| ProfileResolved newRow data => on_profile newRow data s
| PushDelete old_id => on_delete old_id s
end.

Definition run (s : Thread) (trace : list Event) : Thread := foldl step s trace.
End panel.
End PlainPanel.

(* ===================================================================== *)
(** * Progress arithmetic *)
(* ===================================================================== *)

Record Progress := { completed : Z; total : Z; percentage : Z }.

#[export] Instance Progress_eq_dec : EqDecision Progress.
Proof. solve_decision. Defined.

Definition no_progress : Progress := {| completed := 0; total := 0; percentage := 0 |}.

Section progress.
Context {N : JSNumber}.

(** [Math.round((completed / total) * 100)]. *)
Definition percent (completed total : num) : Z :=
  Math_round ((completed / total) * of_Z 100)%js.

(** [xs.length], a JavaScript number. *)
Definition len {A} (l : list A) : Z := Z.of_nat (length l).

(** [calculateNoteProgress] (NoteCard, [unnamed/part_003] lines 56-65). *)
Definition calculateNoteProgress (note : Note.t) (userId : string) : Progress :=
  let total := len (Note.tasks note) in
  if bool_decide (total = 0) then no_progress
  else
    let completed :=
      len (filter (fun task => userId ∈ Task.completedBy task) (Note.tasks note)) in
    {| completed := completed; total := total;
       percentage := percent (of_Z completed) (of_Z total) |}.

(** [calculateProgress] (NotebookView, [components/TaskCommentsPanel.tsx]
    lines 198-208). *)
Definition calculateProgress (notebook : Notebook.t) (userId : string) : Progress :=
  let allTasks := flat_map Note.tasks (Notebook.notes notebook) in
  let total := len allTasks in
  if bool_decide (total = 0) then no_progress
  else
    let completed :=
      len (filter (fun task => userId ∈ Task.completedBy task) allTasks) in
    {| completed := completed; total := total;
       percentage := percent (of_Z completed) (of_Z total) |}.

(** [calculateGroupAverage] (NotebookView, lines 210-226). *)
Definition calculateGroupAverage (notebook : Notebook.t) : Progress :=
  let allTasks := flat_map Note.tasks (Notebook.notes notebook) in
  let total := len allTasks in
  if bool_decide (total = 0) || bool_decide (Notebook.memberCount notebook = 0)
  then no_progress
  else
    let totalCompletions :=
      foldl (fun sum task => (sum + of_Z (len (Task.completedBy task)))%js)
            (of_Z 0) allTasks in
    let avgPercentage :=
      percent totalCompletions (of_Z total * of_Z (Notebook.memberCount notebook))%js in
    {| completed := 0; total := 0; percentage := avgPercentage |}.
End progress.

(** The older progress helpers ([useNotebooks.ts], lines 796-889), over
    the notebook types declared with them: a notebook there has its
    list of members, a task a [completed] flag. *)
Module Legacy.
Module Task.
Record t := {
  id : string;
  title : string;
  completed : bool;
  completedBy : list string;
  createdAt : string
}.
End Task.
Module Note.
Record t := {
  id : string;
  title : string;
  tasks : list Task.t;
  createdAt : string
}.
End Note.
Module Member.
Record t := { userId : string; role : Role; joinedAt : string }.
End Member.
Module Notebook.
Record t := {
  id : string;
  title : string;
  notes : list Note.t;
  ownerId : string;
  members : list Member.t;
  isShared : bool;
  createdAt : string
}.
End Notebook.

Section progress.
Context {N : JSNumber}.

(** The two ways of counting (lines 846-848, 862-864): by user when a
    user id is given, by the [completed] flag otherwise. *)
Definition count_completed (tasks : list Task.t) (userId : option string) : Z :=
  match userId with
  | Some u =>
      if truthy userId
      then len (filter (fun task => u ∈ Task.completedBy task) tasks)
      else len (filter (fun task => Task.completed task = true) tasks)
  | None => len (filter (fun task => Task.completed task = true) tasks)
  end.

(** [calculateNoteProgress] (lines 842-855). *)
Definition calculateNoteProgress (note : Note.t) (userId : option string)
    : Progress :=
  let total := len (Note.tasks note) in
  if bool_decide (total = 0) then no_progress
  else
    let completed := count_completed (Note.tasks note) userId in
    {| completed := completed; total := total;
       percentage := percent (of_Z completed) (of_Z total) |}.

(** [calculateNotebookProgress] (lines 857-871). *)
Definition calculateNotebookProgress (notebook : Notebook.t)
    (userId : option string) : Progress :=
  let allTasks := flat_map Note.tasks (Notebook.notes notebook) in
  let total := len allTasks in
  if bool_decide (total = 0) then no_progress
  else
    let completed := count_completed allTasks userId in
    {| completed := completed; total := total;
       percentage := percent (of_Z completed) (of_Z total) |}.

(** [calculateGroupAverageProgress] (lines 873-889). *)
Definition calculateGroupAverageProgress (notebook : Notebook.t) : Progress :=
  if bool_decide (len (Notebook.members notebook) = 0) then no_progress
  else
    let memberProgresses :=
      map (fun member =>
             calculateNotebookProgress notebook (Some (Member.userId member)))
          (Notebook.members notebook) in
    let avgPercentage :=
      Math_round
        (foldl (fun sum p => (sum + of_Z (percentage p))%js) (of_Z 0)
               memberProgresses
         / of_Z (len (Notebook.members notebook)))%js in
    {| completed := 0; total := 0; percentage := avgPercentage |}.
End progress.
End Legacy.


(* ===================================================================== *)
(** * Vocabulary of the statements *)
(* ===================================================================== *)

(** [p] is an integer nearest to [100 * c / t] ([t] positive): the
    distance [|p - 100 c / t|] is at most one half, written without the
    division. *)
Definition rounds_percent (c t p : Z) : Prop :=
  - t <= 2 * t * p - 200 * c <= t.

(** [Math.round] of the exact quotient: halves go up. *)
Definition round_half_up (c t : Z) : Z := (200 * c + t) / (2 * t).

(** The largest length of a JavaScript array. *)
Definition max_array_length : Z := 2 ^ 32 - 1.

(** What the spec asks of the progress [r] of the tasks of a
    scope, [by_] giving the users who completed a task. *)
Definition is_progress_of {A} (by_ : A -> list string) (tasks : list A)
    (U : string) (r : Progress) : Prop :=
  let c := len (filter (fun t => U ∈ by_ t) tasks) in
  let t := len tasks in
  (t = 0 -> r = no_progress) /\
  (0 < t ->
   completed r = c /\ total r = t /\ rounds_percent c t (percentage r) /\
   ((200 * c + t) mod (2 * t) <> 0 -> percentage r = round_half_up c t)).

(** The number of completion entries of a list of tasks. *)
Definition total_completions (tasks : list Task.t) : Z :=
  foldr (fun t acc => len (Task.completedBy t) + acc) 0 tasks.

(** The reorder of the spec, "remove the moved item and reinsert it at
    the new position", for positions of the list. *)
Definition move_item {A} (l : list A) (old new : nat) : list A :=
  match l !! old with
  | Some x => take new (delete old l) ++ x :: drop new (delete old l)
  | None => l
  end.

(** What the spec asks of the [newOrder] a handler passes
    on for the sibling list [siblings] with ids [get_id]: the same ids,
    each with its position as index, so that the indices are
    [0, 1, 2, ...] without gap or repetition. *)
Definition renumbers {A} (get_id : A -> string) (siblings : list A)
    (newOrder : list OrderEntry) : Prop :=
  map entry_id newOrder ≡ₚ map get_id siblings /\
  (forall (i : nat) e, newOrder !! i = Some e -> entry_index e = Z.of_nat i) /\
  map entry_index newOrder = seqZ 0 (len siblings) /\
  NoDup (map entry_index newOrder).

(** Some request of a reorder write fails: the entry at a position of
    [newOrder] whose fault flag is set. *)
Definition write_fails (newOrder : list OrderEntry) (faults : list bool) : Prop :=
  exists (i : nat) e, newOrder !! i = Some e /\ faults !! i = Some true.

(** Every task the hook holds, notebook by notebook, note by note. *)
Definition all_tasks (nbs : list Notebook.t) : list Task.t :=
  flat_map (fun nb => flat_map Note.tasks (Notebook.notes nb)) nbs.

(** [t1] is [t] with at most its [folder_id] changed: to [folderId] when
    [t] is the moved task, not at all otherwise. *)
Definition moved_or_same (taskId : string) (folderId : option string)
    (t t1 : Task.t) : Prop :=
  Task.id t1 = Task.id t /\ Task.title t1 = Task.title t /\
  Task.note_id t1 = Task.note_id t /\
  Task.order_index t1 = Task.order_index t /\
  Task.created_at t1 = Task.created_at t /\
  Task.completedBy t1 = Task.completedBy t /\
  Task.completions t1 = Task.completions t /\
  Task.folder_id t1 = (if bool_decide (Task.id t = taskId) then folderId
                       else Task.folder_id t).

(** Two notes, two notebooks that differ in their tasks at most, the
    tasks being related pairwise by [R]. *)
Definition note_frame (R : Task.t -> Task.t -> Prop) (n n1 : Note.t) : Prop :=
  Note.id n1 = Note.id n /\ Note.title n1 = Note.title n /\
  Note.notebook_id n1 = Note.notebook_id n /\
  Note.order_index n1 = Note.order_index n /\
  Note.created_at n1 = Note.created_at n /\
  Note.folders n1 = Note.folders n /\
  Forall2 R (Note.tasks n) (Note.tasks n1).

Definition notebook_frame (R : Task.t -> Task.t -> Prop)
    (nb nb1 : Notebook.t) : Prop :=
  Notebook.id nb1 = Notebook.id nb /\ Notebook.title nb1 = Notebook.title nb /\
  Notebook.owner_id nb1 = Notebook.owner_id nb /\
  Notebook.is_shared nb1 = Notebook.is_shared nb /\
  Notebook.share_code nb1 = Notebook.share_code nb /\
  Notebook.order_index nb1 = Notebook.order_index nb /\
  Notebook.created_at nb1 = Notebook.created_at nb /\
  Notebook.memberCount nb1 = Notebook.memberCount nb /\
  Notebook.userRole nb1 = Notebook.userRole nb /\
  Forall2 (note_frame R) (Notebook.notes nb) (Notebook.notes nb1).

(** The same for a row of the [tasks] table. *)
Definition row_moved_or_same (taskId : string) (folderId : option string)
    (r r1 : Row.task) : Prop :=
  Row.t_id r1 = Row.t_id r /\ Row.t_note_id r1 = Row.t_note_id r /\
  Row.t_title r1 = Row.t_title r /\
  Row.t_order_index r1 = Row.t_order_index r /\
  Row.t_created_at r1 = Row.t_created_at r /\
  Row.t_folder_id r1 = (if bool_decide (Row.t_id r = taskId) then folderId
                        else Row.t_folder_id r).

(** Two lists hold the same elements (as sets). *)
Definition same_elements {A} (l1 l2 : list A) : Prop :=
  forall x, x ∈ l1 <-> x ∈ l2.

(** The users with an entry in the completions of a task. *)
Definition completion_users (t : Task.t) : list string :=
  map userId (Task.completions t).

(** The patch of lines 500-508 on the task it reaches. *)
Definition toggled (uid : string) (isCompleted : bool) (userName : string)
    (avatarUrl : option string) (t : Task.t) : Task.t :=
  Task_with_completion t
    (if isCompleted then filter (fun id => id <> uid) (Task.completedBy t)
     else Task.completedBy t ++ [uid])
    (if isCompleted then filter (fun c => userId c <> uid) (Task.completions t)
     else Task.completions t ++
            [{| userId := uid; userName := userName; avatarUrl := avatarUrl |}]).

(** The row of [task_completions] for a task and a user. *)
Definition completion_row (taskId uid : string) : Row.completion :=
  {| Row.c_task_id := taskId; Row.c_user_id := uid |}.

(** The profile [toggleTask] attaches to a new completion (lines
    480-487). *)
Definition profile_name (db : Backend) (uid : string) : string :=
  str_or (Row.p_name <$> single_data (maybeSingle
            (filter (fun p => Row.p_user_id p = uid) (profiles_tbl db)))) "Unknown".

Definition profile_avatar (db : Backend) (uid : string) : option string :=
  str_or_null (single_data (maybeSingle
            (filter (fun p => Row.p_user_id p = uid) (profiles_tbl db)))
          ≫= Row.p_avatar_url).

(** [m] is the largest element of [l]. *)
Definition is_maximum (m : Z) (l : list Z) : Prop :=
  m ∈ l /\ forall x, x ∈ l -> x <= m.

(** The tasks of a note that live in the container [folderId] ([None]:
    the root of the note). *)
Definition container_tasks (note : Note.t) (folderId : option string) : list Task.t :=
  filter (fun t => Task.folder_id t = folderId) (Note.tasks note).

(** Ids are UUIDs, never the empty string. *)
Definition folder_ids_nonempty (note : Note.t) (folderId : option string) : Prop :=
  folderId <> Some ""%string /\
  forall t, t ∈ Note.tasks note -> Task.folder_id t <> Some ""%string.

(** [uid] has a row in [notebook_members] for the notebook. *)
Definition is_member (db : Backend) (notebookId uid : string) : Prop :=
  Exists (fun m => Row.m_notebook_id m = notebookId /\ Row.m_user_id m = uid)
         (members_tbl db).

(** The table constraint [UNIQUE(notebook_id, user_id)]. *)
Definition members_unique (db : Backend) : Prop :=
  NoDup (map (fun m => (Row.m_notebook_id m, Row.m_user_id m)) (members_tbl db)).

(** The notebooks a typed share code selects. *)
Definition code_matches (db : Backend) (shareCode : string) : list Row.notebook :=
  filter (fun nb => Row.nb_share_code nb = Some (toUpperCase (trim shareCode)))
         (notebooks_tbl db).

(** The row [handleJoin] inserts. *)
Definition reader_row (notebookId uid : string) : Row.member :=
  {| Row.m_notebook_id := notebookId; Row.m_user_id := uid; Row.m_role := reader |}.

(** The row of [tasks] a task of the hook corresponds to. *)
Definition row_of_task (t : Task.t) : Row.task :=
  {| Row.t_id := Task.id t; Row.t_note_id := Task.note_id t;
     Row.t_folder_id := Task.folder_id t; Row.t_title := Task.title t;
     Row.t_order_index := Task.order_index t;
     Row.t_created_at := Task.created_at t |}.

(** How many entries of a thread have the id [d]. *)
Definition count_id (d : string) (cs : list Comment.t) : nat :=
  length (filter (fun c => Comment.id c = d) cs).

(** The events that follow the sending of a comment whose durable id is
    [d]: the answer of the insert, the delivery of the echo by the
    change feed (possibly more than once), the author look-ups these
    deliveries start. *)
Definition echo_event (tempId d : string) (e : Event) : Prop :=
  match e with
  | SendAnswer t _ (Some data) => t = tempId /\ Comment.id data = d
  | PushInsert newRow => Comment.id newRow = d
  | ProfileResolved newRow _ => Comment.id newRow = d
  | _ => False
  end.

(** The events among them that put the comment in the thread. *)
Definition merging_event (e : Event) : Prop :=
  match e with
  | SendAnswer _ _ (Some _) => True
  | ProfileResolved _ _ => True
  | _ => False
  end.

(* ===================================================================== *)
(** * Sample data *)
(* ===================================================================== *)

Definition sample_completion (u : string) : TaskCompletion :=
  {| userId := u; userName := "Unknown"; avatarUrl := None |}.

Definition sample_task (id : string) (folder : option string) (index : Z)
    (by_ : list string) : Task.t :=
  {| Task.id := id; Task.title := id; Task.note_id := "n1";
     Task.folder_id := folder; Task.order_index := index;
     Task.created_at := "2025-12-07"; Task.completedBy := by_;
     Task.completions := map sample_completion by_ |}.

(** A note with the root tasks A, B, C and the folder tasks D, E of
    folder [f1]. *)
Definition sample_note : Note.t :=
  {| Note.id := "n1"; Note.title := "Groceries"; Note.notebook_id := "nb1";
     Note.order_index := 0; Note.created_at := "2025-12-07";
     Note.tasks := [sample_task "A" None 0 ["u1"%string];
                    sample_task "B" None 1 [];
                    sample_task "D" (Some "f1"%string) 0 [];
                    sample_task "C" None 2 [];
                    sample_task "E" (Some "f1"%string) 1 []];
     Note.folders := [{| TaskFolder.id := "f1"; TaskFolder.note_id := "n1";
                         TaskFolder.title := "Later"; TaskFolder.order_index := 0;
                         TaskFolder.is_collapsed := false;
                         TaskFolder.created_at := "2025-12-07" |}] |}.

(** A note with four tasks, one of them completed by [u1]. *)
Definition four_tasks : Note.t :=
  {| Note.id := "n2"; Note.title := "Four"; Note.notebook_id := "nb1";
     Note.order_index := 1; Note.created_at := "2025-12-07";
     Note.tasks := [sample_task "T1" None 0 ["u1"%string];
                    sample_task "T2" None 1 ["u2"%string];
                    sample_task "T3" None 2 [];
                    sample_task "T4" None 3 []];
     Note.folders := [] |}.

Definition sample_notebook : Notebook.t :=
  {| Notebook.id := "nb1"; Notebook.title := "Home"; Notebook.owner_id := "u1";
     Notebook.is_shared := true; Notebook.share_code := Some "ABCD2345"%string;
     Notebook.order_index := 0; Notebook.created_at := "2025-12-07";
     Notebook.notes := [sample_note; four_tasks];
     Notebook.memberCount := 2; Notebook.userRole := owner |}.

Definition sample_hook : Hook :=
  {| notebooks := [sample_notebook]; toasts := []; refetches := 0 |}.

Definition old_task (id : string) (by_ : list string) : Legacy.Task.t :=
  {| Legacy.Task.id := id; Legacy.Task.title := id;
     Legacy.Task.completed := false; Legacy.Task.completedBy := by_;
     Legacy.Task.createdAt := "2025-12-05" |}.

(** Six tasks and two members: [u1] completed one task, [u2] three. *)
Definition old_sample_notebook : Legacy.Notebook.t :=
  {| Legacy.Notebook.id := "nb1"; Legacy.Notebook.title := "Home";
     Legacy.Notebook.notes :=
       [{| Legacy.Note.id := "n1"; Legacy.Note.title := "Six";
           Legacy.Note.tasks := [old_task "T1" ["u1"; "u2"]%string;
                                 old_task "T2" ["u2"%string];
                                 old_task "T3" ["u2"%string];
                                 old_task "T4" []; old_task "T5" [];
                                 old_task "T6" []];
           Legacy.Note.createdAt := "2025-12-05" |}];
     Legacy.Notebook.ownerId := "u1";
     Legacy.Notebook.members :=
       [{| Legacy.Member.userId := "u1"; Legacy.Member.role := owner;
           Legacy.Member.joinedAt := "2025-12-05" |};
        {| Legacy.Member.userId := "u2"; Legacy.Member.role := reader;
           Legacy.Member.joinedAt := "2025-12-05" |}];
     Legacy.Notebook.isShared := true;
     Legacy.Notebook.createdAt := "2025-12-05" |}.

(** The completion entries of the older notebook type. *)
Definition old_total_completions (nb : Legacy.Notebook.t) : Z :=
  foldr (fun t acc => len (Legacy.Task.completedBy t) + acc) 0
        (flat_map Legacy.Note.tasks (Legacy.Notebook.notes nb)).

(** [percent] on binary64 for every pair of counts up to a bound, checked
    against [rounds_percent]. *)
Definition binary64_percent_ok (c t : Z) : bool :=
  let p := @percent binary64 (@of_Z binary64 c) (@of_Z binary64 t) in
  bool_decide (rounds_percent c t p).

Definition binary64_percent_ok_upto (bound : nat) : bool :=
  forallb (fun t =>
             forallb (fun c => binary64_percent_ok (Z.of_nat c) (Z.of_nat (S t)))
                     (seq 0 (S (S t))))
          (seq 0 bound).

(** A store that holds the sample notebook (owned by [u1], joined by
    [u2]) and a private notebook of [u1]. *)
Definition sample_db : Backend :=
  {| notebooks_tbl :=
       [{| Row.nb_id := "nb1"; Row.nb_title := "Home"; Row.nb_owner_id := "u1";
           Row.nb_is_shared := true; Row.nb_share_code := Some "ABCD2345"%string;
           Row.nb_order_index := 0; Row.nb_created_at := "2025-12-07" |};
        {| Row.nb_id := "nb2"; Row.nb_title := "Diary"; Row.nb_owner_id := "u1";
           Row.nb_is_shared := false; Row.nb_share_code := Some "WXYZ6789"%string;
           Row.nb_order_index := 1; Row.nb_created_at := "2025-12-07" |}];
     members_tbl :=
       [{| Row.m_notebook_id := "nb1"; Row.m_user_id := "u2"; Row.m_role := reader |}];
     notes_tbl :=
       [{| Row.n_id := "n1"; Row.n_notebook_id := "nb1"; Row.n_title := "Groceries";
           Row.n_order_index := 0; Row.n_created_at := "2025-12-07" |};
        {| Row.n_id := "n2"; Row.n_notebook_id := "nb1"; Row.n_title := "Four";
           Row.n_order_index := 1; Row.n_created_at := "2025-12-07" |}];
     folders_tbl :=
       [{| Row.f_id := "f1"; Row.f_note_id := "n1"; Row.f_title := "Later";
           Row.f_order_index := 0; Row.f_is_collapsed := false;
           Row.f_created_at := "2025-12-07" |}];
     tasks_tbl := map row_of_task (Note.tasks sample_note);
     completions_tbl :=
       [{| Row.c_task_id := "A"; Row.c_user_id := "u1" |}];
     profiles_tbl :=
       [{| Row.p_user_id := "u1"; Row.p_name := "Ann"; Row.p_avatar_url := None |};
        {| Row.p_user_id := "u2"; Row.p_name := "Bob";
           Row.p_avatar_url := Some "bob.png"%string |};
        {| Row.p_user_id := "u3"; Row.p_name := "Cy"; Row.p_avatar_url := None |}] |}.

(** The reorder of the root tasks A, B, C of the sample note to B, A, C. *)
Definition swap_AB : list OrderEntry :=
  [{| entry_id := "B"; entry_index := 0 |};
   {| entry_id := "A"; entry_index := 1 |};
   {| entry_id := "C"; entry_index := 2 |}].

Definition sample_comment (id uid text : string) : Comment.t :=
  {| Comment.id := id; Comment.task_id := "A"; Comment.user_id := uid;
     Comment.content := text; Comment.created_at := "2025-12-07T18:00:00Z";
     Comment.user_name := None; Comment.avatar_url := None |}.

(** An open thread that holds the comment [c1] of user [u2]. *)
Definition sample_thread : Thread :=
  {| comments := [with_author (sample_comment "c1" "u2" "hello") "Bob" None];
     newText := "hi there"; sending := false; lookups := []; notices := [] |}.

(** A hook and a store in which the users [u1] and [u2], in this order,
    have completed the task X. *)
Definition two_users_hook : Hook :=
  {| notebooks :=
       [Notebook_with_notes sample_notebook
          [Note_with_tasks sample_note [sample_task "X" None 0 ["u1"; "u2"]%string]]];
     toasts := []; refetches := 0 |}.

Definition two_users_db : Backend :=
  Backend_with_completions sample_db
    [completion_row "X" "u1"; completion_row "X" "u2"].


(* ===================================================================== *)
(** * Functions and row policies of the store ([supabase/migrations]) *)
(* ===================================================================== *)

(** [is_notebook_member(notebook_uuid)] (migration 20251206111239, lines
    5-18) for the caller [auth_uid]: the caller owns the notebook or has
    a row in [notebook_members] for it. *)
Definition is_notebook_member (db : Backend) (auth_uid notebook_uuid : string) : bool :=
  bool_decide (Exists (fun nb => Row.nb_id nb = notebook_uuid
                                /\ Row.nb_owner_id nb = auth_uid)
                      (notebooks_tbl db))
  || bool_decide (Exists (fun m => Row.m_notebook_id m = notebook_uuid
                                   /\ Row.m_user_id m = auth_uid)
                         (members_tbl db)).

(** [get_notebook_role(notebook_uuid)] (migration 20251205230719, lines
    90-101): [COALESCE] of two scalar subqueries, the role of the
    caller's member row first, ['owner'] for the owner second.  A scalar
    subquery is [NULL] on no row ([NoRow]) and fails on several
    ([ManyRows]); [COALESCE] does not evaluate its second argument when
    the first is not [NULL]. *)
Definition get_notebook_role (db : Backend) (auth_uid notebook_uuid : string)
    : Single Role :=
  match maybeSingle
          (map Row.m_role
               (filter (fun m => Row.m_notebook_id m = notebook_uuid
                                 /\ Row.m_user_id m = auth_uid)
                       (members_tbl db))) with
  | OneRow r => OneRow r
  | ManyRows => ManyRows
  | NoRow =>
      match maybeSingle
              (map (fun _ => owner)
                   (filter (fun nb => Row.nb_id nb = notebook_uuid
                                      /\ Row.nb_owner_id nb = auth_uid)
                           (notebooks_tbl db))) with
      | OneRow r => OneRow r
      | ManyRows => ManyRows
      | NoRow => NoRow
      end
  end.

(** [role IN ('owner', 'admin')] as a policy reads it: a row passes when
    the test is true, not when it is false or [NULL].  In a store that
    keeps [UNIQUE(notebook_id, user_id)] and the primary key of
    [notebooks] the subqueries of [get_notebook_role] have at most one
    row; [ManyRows] is met in no such store and gives no right here. *)
Definition role_in_owner_admin (r : Single Role) : bool :=
  match r with
  | OneRow owner | OneRow admin => true
  | _ => false
  end.

(** The policies "Owners and admins can create / update / delete notes"
    (migration 20251205230719, lines 134-139). *)
Definition notes_writable (db : Backend) (auth_uid : string) (n : Row.note) : bool :=
  role_in_owner_admin (get_notebook_role db auth_uid (Row.n_notebook_id n)).

(** The policy "Owners and admins can update tasks" (lines 150-153): a
    note row with the task's [note_id] whose notebook gives the caller
    one of the two roles.  (A row these policies let the caller write
    is also one the caller may read: the role comes from a member row
    or from owning the notebook, which is what [is_notebook_member]
    asks.) *)
Definition tasks_writable (db : Backend) (auth_uid : string) (t : Row.task) : bool :=
  bool_decide (Exists (fun n => Row.n_id n = Row.t_note_id t
                                /\ notes_writable db auth_uid n = true)
                      (notes_tbl db)).

(** A one-dimensional array value of PostgreSQL: its lower bound (1
    for an array a client sends) and its elements, [None] for [NULL]. *)
Record PgArray := { lower : Z; elems : list (option string) }.

(** [FOR i IN array_lower(a, 1)..array_upper(a, 1) LOOP v := a[i]; ..]:
    the body runs for the elements in turn, [i] counting up from the
    lower bound.  Both bounds of an empty array are [NULL], and a loop
    with a [NULL] bound raises an error ([None]). *)
Fixpoint pg_loop {R} (body : Z -> option string -> R -> R) (i : Z)
    (vs : list (option string)) (s : R) : R :=
  match vs with
  | [] => s
  | v :: rest => pg_loop body (i + 1) rest (body i v s)
  end.

Definition pg_for_array {R} (body : Z -> option string -> R -> R) (a : PgArray)
    (s : R) : option R :=
  if bool_decide (elems a = []) then None
  else Some (pg_loop body (lower a) (elems a) s).

Definition task_with_order (r : Row.task) (i : Z) : Row.task :=
  {| Row.t_id := Row.t_id r; Row.t_note_id := Row.t_note_id r;
     Row.t_folder_id := Row.t_folder_id r; Row.t_title := Row.t_title r;
     Row.t_order_index := i; Row.t_created_at := Row.t_created_at r |}.

Definition note_with_order (r : Row.note) (i : Z) : Row.note :=
  {| Row.n_id := Row.n_id r; Row.n_notebook_id := Row.n_notebook_id r;
     Row.n_title := Row.n_title r; Row.n_order_index := i;
     Row.n_created_at := Row.n_created_at r |}.

(** [reorder_tasks(p_task_ids uuid[])] ([unnamed/part_008]), called by
    [auth_uid]; the function runs with the caller's rights, so each
    [UPDATE] reaches the rows the update policy lets the caller write.
    [None]: the call raised an error and changed nothing. *)
Definition reorder_tasks (db : Backend) (auth_uid : string)
    (p_task_ids : option PgArray) : option Backend :=
  match p_task_ids with
  | None => Some db
  | Some a =>
      Backend_with_tasks db <$>
        pg_for_array
          (fun i v_task_id rows =>
             map (fun r =>
                    if bool_decide (Some (Row.t_id r) = v_task_id)
                       && tasks_writable db auth_uid r
                    then task_with_order r i else r) rows)
          a (tasks_tbl db)
  end.

(** [reorder_notes(p_notebook_id uuid, p_note_ids uuid[])]
    ([unnamed/part_007]).  The guard of lines 11-13 raises when
    [get_notebook_role(..) NOT IN ('owner', 'admin')] is true: that is
    for the role reader; for a caller without any role the test is
    [NULL], which [IF] does not take. *)
Definition reorder_notes (db : Backend) (auth_uid p_notebook_id : string)
    (p_note_ids : option PgArray) : option Backend :=
  match get_notebook_role db auth_uid p_notebook_id with
  | OneRow reader | ManyRows => None
  | OneRow owner | OneRow admin | NoRow =>
    match p_note_ids with
    | None => Some db
    | Some a =>
        Backend_with_notes db <$>
          pg_for_array
            (fun i v_note_id rows =>
               map (fun r =>
                      if bool_decide (Some (Row.n_id r) = v_note_id
                                      /\ Row.n_notebook_id r = p_notebook_id)
                         && notes_writable db auth_uid r
                      then note_with_order r i else r) rows)
            a (notes_tbl db)
    end
  end.

(** [generate_share_code()] (migration 20251207180000, lines 46-62, and
    before it 20251205230719, lines 196-210): eight times a character of
    [chars] is appended, taken at a position drawn at random. *)
Definition share_chars : string := "ABCDEFGHJKLMNPQRSTUVWXYZ23456789".

(** [substr(s, n, 1)] of PostgreSQL: the character at position [n],
    counted from 1, and the empty string when [n] is not a position of
    [s]. *)
Definition substr1 (s : string) (n : Z) : string :=
  if bool_decide (1 <= n) then
    match String.get (Z.to_nat (n - 1)) s with
    | Some a => String a ""
    | None => ""
    end
  else "".

(** [draw i] is the value [floor(random() * length(chars) + 1)::int]
    takes in iteration [i] of [FOR i IN 1..8]. *)
Definition generate_share_code (draw : nat -> Z) : string :=
  foldl (fun result i => result +:+ substr1 share_chars (draw i)) ""%string
        (seq 1 8).

(* ===================================================================== *)
(** * Vocabulary of the further properties *)
(* ===================================================================== *)

(** The keys of a list never decrease. *)
Fixpoint ascending {A} (key : A -> Z) (l : list A) : Prop :=
  match l with
  | [] => True
  | x :: r => Forall (fun y => key x <= key y) r /\ ascending key r
  end.

(** A note whose tasks and folders are its own and come in ascending
    [order_index]. *)
Definition note_in_order (n : Note.t) : Prop :=
  ascending Task.order_index (Note.tasks n) /\
  ascending TaskFolder.order_index (Note.folders n) /\
  Forall (fun t => Task.note_id t = Note.id n) (Note.tasks n) /\
  Forall (fun f => TaskFolder.note_id f = Note.id n) (Note.folders n).

Definition notebook_in_order (nb : Notebook.t) : Prop :=
  ascending Note.order_index (Notebook.notes nb) /\
  Forall (fun n => Note.notebook_id n = Notebook.id nb /\ note_in_order n)
         (Notebook.notes nb).

(** What [reorder_tasks] and [reorder_notes] leave of a row when the
    ids [ids], none of them [NULL] and no two equal, are passed in an
    array with lower bound [l]: a row the caller may write whose id is
    at position [k] of [ids] (counted from 0) gets [l + k]. *)
Definition renumbered_task (db : Backend) (auth_uid : string) (l : Z)
    (ids : list string) (r : Row.task) : Row.task :=
  let k := findIndex (fun x => x = Row.t_id r) ids in
  if bool_decide (k <> -1) && tasks_writable db auth_uid r
  then task_with_order r (l + k) else r.

Definition renumbered_note (notebookId : string) (l : Z)
    (ids : list string) (r : Row.note) : Row.note :=
  let k := findIndex (fun x => x = Row.n_id r) ids in
  if bool_decide (k <> -1 /\ Row.n_notebook_id r = notebookId)
  then note_with_order r (l + k) else r.

(** The hook state and the store agree on who completed what: for every
    task the hook holds, [completedBy] lists the users of [completions],
    and a user is listed exactly when [task_completions] has the row. *)
Definition completions_in_sync (nbs : list Notebook.t) (db : Backend) : Prop :=
  forall t, t ∈ all_tasks nbs ->
    Task.completedBy t = completion_users t /\
    forall V, V ∈ Task.completedBy t <->
              completion_row (Task.id t) V ∈ completions_tbl db.

(** Where the tasks with one id sit: under one notebook id and one note
    id. *)
Definition located (nbs : list Notebook.t) (notebookId noteId taskId : string) : Prop :=
  forall nb n t, nb ∈ nbs -> n ∈ Notebook.notes nb -> t ∈ Note.tasks n ->
    Task.id t = taskId -> Notebook.id nb = notebookId /\ Note.id n = noteId.

(* ===================================================================== *)
(** * "Reset all tasks" (NoteCard, [unnamed/part_003] lines 246-254) *)
(* ===================================================================== *)

(** [toggleTask] (lines 449-521 of the hook) as a handler that is still
    running calls it: the look-up of lines 453-459 reads [notebooks] of
    the render the handler was created in ([seen]), the functional update
    of lines 490-516 applies to the state of the moment. *)
Definition toggleTask_from (seen : list Notebook.t) (user : option string)
    (fault : bool) (notebookId noteId taskId : string) (w : Hook * Backend)
    : Ending * (Hook * Backend) :=
  match user with
  | None => (Skipped, w)
  | Some uid =>
    match find_task seen notebookId noteId taskId with
    | None => (Skipped, w)
    | Some task =>
        let isCompleted := includes uid (Task.completedBy task) in
        let '(error, db1) :=
          if isCompleted then delete_completion fault taskId uid w.2
          else insert_completion fault taskId uid w.2 in
        if error then (Failed, (toast "Failed to update task" w.1, db1))
        else
          let profile :=
            single_data (maybeSingle
              (filter (fun p => Row.p_user_id p = uid) (profiles_tbl db1))) in
          let userName := str_or (Row.p_name <$> profile) "Unknown" in
          let avatarUrl := str_or_null (profile ≫= Row.p_avatar_url) in
          (Succeeded,
           (setNotebooks (toggle_patch notebookId noteId taskId uid isCompleted
                            userName avatarUrl) w.1, db1))
    end
  end.

(** The loop of the button: every task of the card's note that the
    current user has completed is toggled, one call after the other;
    [faults] tells, call by call, whether the store rejects the write.
    [currentUserId] is [user?.id || ''] ([pages/Index.tsx], line 53). *)
Fixpoint resetAll_loop (seen : list Notebook.t) (user : option string)
    (notebookId noteId : string) (tasks : list Task.t) (faults : list bool)
    (w : Hook * Backend) : Hook * Backend :=
  match tasks with
  | [] => w
  | task :: rest =>
      if includes (default ""%string user) (Task.completedBy task) then
        let w1 := (toggleTask_from seen user (default false (head faults))
                     notebookId noteId (Task.id task) w).2 in
        resetAll_loop seen user notebookId noteId rest (tail faults) w1
      else resetAll_loop seen user notebookId noteId rest faults w
  end.

Definition resetAll (user : option string) (notebookId : string) (note : Note.t)
    (faults : list bool) (w : Hook * Backend) : Hook * Backend :=
  resetAll_loop (notebooks w.1) user notebookId (Note.id note) (Note.tasks note)
    faults w.

(** What the loop does to a task when no write fails. *)
Definition without_user (U : string) (t : Task.t) : Task.t :=
  if bool_decide (U ∈ Task.completedBy t)
  then Task_with_completion t
         (filter (fun id => id <> U) (Task.completedBy t))
         (filter (fun c => userId c <> U) (Task.completions t))
  else t.

(* ===================================================================== *)
(** * What the notebook view lets the user do *)
(* ===================================================================== *)

(** NotebookView ([components/TaskCommentsPanel.tsx], lines 258-260).
    [notebook] is [None] when no notebook is selected; a role is a
    non-empty string, so [notebook?.userRole || ..] falls back only
    then. *)
Module NotebookView.
Definition isOwner (notebook : option Notebook.t) (currentUserId : string) : bool :=
  match notebook with
  | Some nb => bool_decide (Notebook.owner_id nb = currentUserId)
  | None => false
  end.

Definition userRole (notebook : option Notebook.t) (currentUserId : string) : Role :=
  match notebook with
  | Some nb => Notebook.userRole nb
  | None => if isOwner notebook currentUserId then owner else reader
  end.

Definition canEdit (notebook : option Notebook.t) (currentUserId : string) : bool :=
  bool_decide (userRole notebook currentUserId = owner)
  || bool_decide (userRole notebook currentUserId = admin).
End NotebookView.

(** No request of [handleJoin] fails. *)
Definition no_join_faults : JoinFaults :=
  {| find_fails := false; member_lookup_fails := false; insert_fails := false |}.

(* ===================================================================== *)
(** * The members panel ([components/MembersPanel.tsx]) *)
(* ===================================================================== *)

Definition Backend_with_notebooks (db : Backend) (rows : list Row.notebook) : Backend :=
  {| notebooks_tbl := rows; members_tbl := members_tbl db;
     notes_tbl := notes_tbl db; folders_tbl := folders_tbl db;
     tasks_tbl := tasks_tbl db; completions_tbl := completions_tbl db;
     profiles_tbl := profiles_tbl db |}.

(** [.update({ share_code, is_shared }).eq('id', notebookId)] on
    [notebooks] for the caller [auth_uid].  The policy "Owners can update
    notebooks" (migration 20251205230719, lines 108-109) hides the rows of
    other owners from the statement; the column is [share_code TEXT
    UNIQUE] (line 17): the statement fails when, after it, a row it wrote
    shares its code with another row. *)
Definition set_share_code (auth_uid notebookId : string)
    (code : option string) (shared : bool) (r : Row.notebook) : Row.notebook :=
  if bool_decide (Row.nb_id r = notebookId /\ Row.nb_owner_id r = auth_uid)
  then {| Row.nb_id := Row.nb_id r; Row.nb_title := Row.nb_title r;
          Row.nb_owner_id := Row.nb_owner_id r; Row.nb_is_shared := shared;
          Row.nb_share_code := code; Row.nb_order_index := Row.nb_order_index r;
          Row.nb_created_at := Row.nb_created_at r |}
  else r.

Definition update_share_code (fault : bool) (auth_uid notebookId : string)
    (code : option string) (shared : bool) (db : Backend) : bool * Backend :=
  let written :=
    filter (fun r => Row.nb_id r = notebookId /\ Row.nb_owner_id r = auth_uid)
           (notebooks_tbl db) in
  let rows := map (set_share_code auth_uid notebookId code shared) (notebooks_tbl db) in
  let clash :=
    bool_decide (written <> [] /\ code <> None /\
                 (1 < length (filter (fun r => Row.nb_share_code r = code) rows))%nat) in
  if fault || clash then (true, db) else (false, Backend_with_notebooks db rows).

(** [generateShareCode] (lines 172-200).  The answer is the store, the
    toast and whether [onShareCodeGenerated] was called. *)
Definition generateShareCode (rpc_fails update_fails : bool) (draw : nat -> Z)
    (auth_uid notebookId : string) (db : Backend) : Backend * Toast * bool :=
  if rpc_fails then (db, toast_error "Failed to generate share code", false)
  else
    let codeData := generate_share_code draw in
    let '(updateError, db1) :=
      update_share_code update_fails auth_uid notebookId (Some codeData) true db in
    if updateError then (db1, toast_error "Failed to generate share code", false)
    else (db1, toast_success "Share code generated!", true).

(* ===================================================================== *)
(** * Further operations of the hook ([useNotebooks.ts]) *)
(* ===================================================================== *)

(** The requests of these operations are sent as the signed-in user
    [auth_uid], who is the [user] of the hook; an [UPDATE] or [DELETE]
    reaches the rows the policies of the migrations let that user write
    and passes over the others without an error.  [fault] is a request
    that fails for a reason of its own. *)

(** The policies on [task_folders] (migration 20251207000000, lines
    36-50), of the same shape as those on [tasks]. *)
Definition folders_writable (db : Backend) (auth_uid : string) (f : Row.folder) : bool :=
  bool_decide (Exists (fun n => Row.n_id n = Row.f_note_id f
                                /\ notes_writable db auth_uid n = true)
                      (notes_tbl db)).

Definition Backend_with_folders (db : Backend) (rows : list Row.folder) : Backend :=
  {| notebooks_tbl := notebooks_tbl db; members_tbl := members_tbl db;
     notes_tbl := notes_tbl db; folders_tbl := rows;
     tasks_tbl := tasks_tbl db; completions_tbl := completions_tbl db;
     profiles_tbl := profiles_tbl db |}.

Definition Task_with_title (t : Task.t) (title : string) : Task.t :=
  {| Task.id := Task.id t; Task.title := title; Task.note_id := Task.note_id t;
     Task.folder_id := Task.folder_id t; Task.order_index := Task.order_index t;
     Task.created_at := Task.created_at t; Task.completedBy := Task.completedBy t;
     Task.completions := Task.completions t |}.

Definition Note_with_folders (n : Note.t) (fs : list TaskFolder.t) : Note.t :=
  {| Note.id := Note.id n; Note.title := Note.title n;
     Note.notebook_id := Note.notebook_id n; Note.order_index := Note.order_index n;
     Note.created_at := Note.created_at n; Note.tasks := Note.tasks n;
     Note.folders := fs |}.

Definition Folder_with_collapsed (f : TaskFolder.t) (c : bool) : TaskFolder.t :=
  {| TaskFolder.id := TaskFolder.id f; TaskFolder.note_id := TaskFolder.note_id f;
     TaskFolder.title := TaskFolder.title f;
     TaskFolder.order_index := TaskFolder.order_index f;
     TaskFolder.is_collapsed := c; TaskFolder.created_at := TaskFolder.created_at f |}.

Definition row_with_title (r : Row.task) (title : string) : Row.task :=
  {| Row.t_id := Row.t_id r; Row.t_note_id := Row.t_note_id r;
     Row.t_folder_id := Row.t_folder_id r; Row.t_title := title;
     Row.t_order_index := Row.t_order_index r;
     Row.t_created_at := Row.t_created_at r |}.

Definition row_with_collapsed (r : Row.folder) (c : bool) : Row.folder :=
  {| Row.f_id := Row.f_id r; Row.f_note_id := Row.f_note_id r;
     Row.f_title := Row.f_title r; Row.f_order_index := Row.f_order_index r;
     Row.f_is_collapsed := c; Row.f_created_at := Row.f_created_at r |}.

(** [renameTask] (lines 395-420). *)
Definition renameTask (auth_uid : string) (fault : bool)
    (notebookId noteId taskId title : string) (w : Hook * Backend)
    : Ending * (Hook * Backend) :=
  if fault then (Failed, (toast "Failed to rename task" w.1, w.2))
  else
    (Succeeded,
     (setNotebooks (map (fun nb =>
        if bool_decide (Notebook.id nb = notebookId) then
          Notebook_with_notes nb (map (fun n =>
            if bool_decide (Note.id n = noteId)
            then Note_with_tasks n (map (fun t =>
                   if bool_decide (Task.id t = taskId)
                   then Task_with_title t title else t) (Note.tasks n))
            else n) (Notebook.notes nb))
        else nb)) w.1,
      Backend_with_tasks w.2
        (map (fun r =>
                if bool_decide (Row.t_id r = taskId) && tasks_writable w.2 auth_uid r
                then row_with_title r title else r) (tasks_tbl w.2)))).

(** [deleteTask] (lines 422-447).  [task_completions.task_id] is
    declared [REFERENCES tasks(id) ON DELETE CASCADE] (migration
    20251205230719, line 53): the completions of a deleted task go with
    it. *)
Definition deleteTask (auth_uid : string) (fault : bool)
    (notebookId noteId taskId : string) (w : Hook * Backend)
    : Ending * (Hook * Backend) :=
  if fault then (Failed, (toast "Failed to delete task" w.1, w.2))
  else
    let deleted :=
      filter (fun r => Row.t_id r = taskId /\ tasks_writable w.2 auth_uid r = true)
             (tasks_tbl w.2) in
    (Succeeded,
     (setNotebooks (map (fun nb =>
        if bool_decide (Notebook.id nb = notebookId) then
          Notebook_with_notes nb (map (fun n =>
            if bool_decide (Note.id n = noteId)
            then Note_with_tasks n
                   (filter (fun t => Task.id t <> taskId) (Note.tasks n))
            else n) (Notebook.notes nb))
        else nb)) w.1,
      Backend_with_completions
        (Backend_with_tasks w.2
           (filter (fun r => ~ (Row.t_id r = taskId
                                /\ tasks_writable w.2 auth_uid r = true))
                   (tasks_tbl w.2)))
        (filter (fun c => Row.c_task_id c ∉ map Row.t_id deleted)
                (completions_tbl w.2)))).

(** [toggleFolderCollapse] (lines 701-720); a failure is logged and
    not reported (line 718). *)
Definition toggleFolderCollapse (auth_uid : string) (fault : bool)
    (folderId : string) (isCollapsed : bool) (w : Hook * Backend)
    : Ending * (Hook * Backend) :=
  if fault then (Failed, w)
  else
    (Succeeded,
     (setNotebooks (map (fun nb =>
        Notebook_with_notes nb (map (fun n =>
          Note_with_folders n (map (fun f =>
            if bool_decide (TaskFolder.id f = folderId)
            then Folder_with_collapsed f isCollapsed else f) (Note.folders n)))
          (Notebook.notes nb)))) w.1,
      Backend_with_folders w.2
        (map (fun r =>
                if bool_decide (Row.f_id r = folderId)
                   && folders_writable w.2 auth_uid r
                then row_with_collapsed r isCollapsed else r) (folders_tbl w.2)))).

(** A task row after [SET NULL] on its [folder_id], and the task a
    fetch builds from it. *)
Definition row_at_root (t : Row.task) : Row.task :=
  {| Row.t_id := Row.t_id t; Row.t_note_id := Row.t_note_id t;
     Row.t_folder_id := None; Row.t_title := Row.t_title t;
     Row.t_order_index := Row.t_order_index t;
     Row.t_created_at := Row.t_created_at t |}.

Definition Task_at_root (t : Task.t) : Task.t :=
  {| Task.id := Task.id t; Task.title := Task.title t; Task.note_id := Task.note_id t;
     Task.folder_id := None; Task.order_index := Task.order_index t;
     Task.created_at := Task.created_at t; Task.completedBy := Task.completedBy t;
     Task.completions := Task.completions t |}.

(** The note without the folder [folderId], its tasks at the root. *)
Definition Note_without_folder (folderId : string) (n : Note.t) : Note.t :=
  Note_with_folders
    (Note_with_tasks n
       (map (fun t => if bool_decide (Task.folder_id t = Some folderId)
                      then Task_at_root t else t) (Note.tasks n)))
    (filter (fun f => TaskFolder.id f <> folderId) (Note.folders n)).

(** [deleteFolder] (lines 685-699): the row is deleted and the state is
    fetched anew.  [tasks.folder_id] is declared [REFERENCES
    task_folders(id) ON DELETE SET NULL] (migration 20251207000000, line
    17): the tasks of a deleted folder stay, without a folder. *)
Definition deleteFolder (auth_uid : string)
    (fault query_fails : bool) (folderId : string) (w : Hook * Backend)
    : Ending * (Hook * Backend) :=
  if fault then (Failed, (toast "Failed to delete folder" w.1, w.2))
  else
    let deleted :=
      filter (fun r => Row.f_id r = folderId /\ folders_writable w.2 auth_uid r = true)
             (folders_tbl w.2) in
    let db1 :=
      Backend_with_tasks
        (Backend_with_folders w.2
           (filter (fun r => ~ (Row.f_id r = folderId
                                /\ folders_writable w.2 auth_uid r = true))
                   (folders_tbl w.2)))
        (map (fun t =>
                if match Row.t_folder_id t with
                   | Some f => bool_decide (f ∈ map Row.f_id deleted)
                   | None => false
                   end
                then row_at_root t else t) (tasks_tbl w.2)) in
    (Succeeded, (fetchNotebooks db1 (Some auth_uid) query_fails w.1, db1)).

(** The completion [fetchNotebooks] builds from a row of
    [task_completions] (lines 172-181): the profile is the one the map
    of line 172 holds for the user, the last row of [profiles] with that
    [user_id]. *)
Definition last_profile (db : Backend) (u : string) : option Row.profile :=
  last (filter (fun p => Row.p_user_id p = u) (profiles_tbl db)).

Definition fetched_completion (db : Backend) (c : Row.completion) : FetchedCompletion :=
  {| fc_task_id := Row.c_task_id c;
     fc_user_id := Row.c_user_id c;
     fc_userName := str_or (Row.p_name <$> last_profile db (Row.c_user_id c)) "Unknown";
     fc_avatarUrl := str_or_null (last_profile db (Row.c_user_id c) ≫= Row.p_avatar_url) |}.

(* ===================================================================== *)
(** * A failed send in the comments panel *)
(* ===================================================================== *)

(** An event of the change feed that does not carry the temporary id
    [tempId] of a pending send. *)
Definition feed_event (tempId : string) (e : Event) : Prop :=
  match e with
  | PushInsert newRow => Comment.id newRow <> tempId
  | ProfileResolved newRow _ => Comment.id newRow <> tempId
  | PushDelete _ => True
  | Send _ _ | SendAnswer _ _ _ => False
  end.

(** The thread after a send with the text [content] has failed, [s]
    being what the change feed alone has made of the thread. *)
Definition failed_send (content : string) (s : Thread) : Thread :=
  {| comments := comments s; newText := content; sending := false;
     lookups := lookups s;
     notices := notices s ++ ["Failed to send comment"%string] |}.

(* ===================================================================== *)
(** * The member list of the panel ([components/MembersPanel.tsx]) *)
(* ===================================================================== *)

(** [fetchMembers] (lines 64-170), run by a user the SELECT policies
    show the rows of the notebook to: its owner or one of its members
    (migration 20251206103104).  [profile] is the row the to-one embed
    [profiles!..._fkey] joins, [profiles.user_id] being [UNIQUE]; the
    row type has no [email] column. *)
Module MembersPanel.
Record Member := {
  user_id : string;
  role : Role;
  profile : option Row.profile;
  progress : Progress
}.

Section fetch.
Context {N : JSNumber}.
Variable db : Backend.

Definition profile_of (u : string) : option Row.profile :=
  head (filter (fun p => Row.p_user_id p = u) (profiles_tbl db)).

(** Lines 134-141 and 149-155. *)
Definition progress_of (completions : list Row.completion)
    (taskIds : list string) (u : string) : Progress :=
  let userCompletions :=
    len (filter (fun c => Row.c_user_id c = u) completions) in
  {| completed := userCompletions;
     total := len taskIds;
     percentage :=
       if bool_decide (0 < len taskIds)
       then percent (of_Z userCompletions) (of_Z (len taskIds))
       else 0 |}.

(** [None]: the member query failed and the list is left as it was
    (lines 80-83); the other queries are not checked for errors. *)
Definition fetchMembers (member_query_fails : bool) (notebookId : string)
    : option (list Member) :=
  if member_query_fails then None
  else
    let memberData :=
      filter (fun m => Row.m_notebook_id m = notebookId) (members_tbl db) in
    let notebook :=
      single_data (maybeSingle
        (filter (fun nb => Row.nb_id nb = notebookId) (notebooks_tbl db))) in
    let noteIds :=
      map Row.n_id
          (filter (fun n => Row.n_notebook_id n = notebookId) (notes_tbl db)) in
    let tasks :=
      if bool_decide (0 < length noteIds)%nat
      then filter (fun t => Row.t_note_id t ∈ noteIds) (tasks_tbl db)
      else [] in
    let taskIds := map Row.t_id tasks in
    let completions :=
      if bool_decide (0 < length taskIds)%nat
      then filter (fun c => Row.c_task_id c ∈ taskIds) (completions_tbl db)
      else [] in
    let owner_id := Row.nb_owner_id <$> notebook in
    let ownerFirst :=
      match owner_id with
      | Some o =>
          if truthy owner_id
          then [{| user_id := o; role := owner; profile := profile_of o;
                   progress := progress_of completions taskIds o |}]
          else []
      | None => []
      end in
    Some (ownerFirst ++
          map (fun m =>
                 {| user_id := Row.m_user_id m; role := Row.m_role m;
                    profile := profile_of (Row.m_user_id m);
                    progress := progress_of completions taskIds (Row.m_user_id m) |})
              (filter (fun m => Some (Row.m_user_id m) <> owner_id) memberData)).
End fetch.
End MembersPanel.

(** The constraints of the tables the two views are compared under
    (migration 20251205230719): [id] is the primary key of [notes] and
    of [tasks], and [task_completions] is [UNIQUE(task_id, user_id)]. *)
Definition keys_unique (db : Backend) : Prop :=
  NoDup (map Row.n_id (notes_tbl db)) /\
  NoDup (map Row.t_id (tasks_tbl db)) /\
  NoDup (completions_tbl db).

(* ===================================================================== *)
(* ===================================================================== *)
(** * Properties *)
(* ===================================================================== *)
(* ===================================================================== *)


Lemma Qabs_self_diff (x y : Q) : (0 <= y)%Q -> (Qabs (x - x) <= y)%Q.
Proof.
  intros Hy. assert (E : (x - x == 0)%Q) by ring. rewrite E. exact Hy.
Qed.

Lemma exactQ_laws : JSNumberLaws exactQ.
Proof.
  split; unfold denotes; cbn [finite val of_Z nadd nmul ndiv Math_round exactQ].
  - intros n _. split; [exact I | reflexivity].
  - intros a b m n [_ Ha] [_ Hb] _. split; [exact I|].
    rewrite Ha, Hb, inject_Z_plus. reflexivity.
  - intros a b m n [_ Ha] [_ Hb] _. split; [exact I|].
    rewrite Ha, Hb, inject_Z_mult. reflexivity.
  - intros a b m d [_ Ha] [_ Hb] [Hm _] [Hd _]. split; [exact I|]. rewrite Ha, Hb.
    apply Qabs_self_diff. apply Qmult_le_0_compat; [discriminate|].
    apply Qle_shift_div_l.
    + change 0%Q with (inject_Z 0). rewrite <- Zlt_Qlt. lia.
    + rewrite Qmult_0_l. change 0%Q with (inject_Z 0). rewrite <- Zle_Qle. lia.
  - intros a b _ _ [Hlo _]. split; [exact I|].
    apply Qabs_self_diff. apply Qmult_le_0_compat; [discriminate|].
    eapply Qle_trans; [|exact Hlo]. discriminate.
  - intros a b _ _ H. split; [exact I | exact H].
  - reflexivity.
Qed.

(** Constants written as powers, evaluated for [lra]. *)
Ltac eval_pow :=
  repeat match goal with
  | |- context [Pos.pow ?a ?b] =>
      let c := eval vm_compute in (Pos.pow a b) in change (Pos.pow a b) with c
  | H : context [Pos.pow ?a ?b] |- _ =>
      let c := eval vm_compute in (Pos.pow a b) in change (Pos.pow a b) with c in H
  | |- context [inject_Z (Z.pow ?a ?b)] =>
      let c := eval vm_compute in (Z.pow a b) in change (Z.pow a b) with c
  | H : context [inject_Z (Z.pow ?a ?b)] |- _ =>
      let c := eval vm_compute in (Z.pow a b) in change (Z.pow a b) with c in H
  end;
  repeat match goal with
  | |- context [inject_Z (Z.pos ?p)] =>
      change (inject_Z (Z.pos p)) with (Z.pos p # 1)
  | H : context [inject_Z (Z.pos ?p)] |- _ =>
      change (inject_Z (Z.pos p)) with (Z.pos p # 1) in H
  end.

Section nearest.
Context {N : JSNumber} (L : JSNumberLaws N).

Lemma percent_nearest (a b : num) (m d : Z) :
  denotes a (inject_Z m) -> denotes b (inject_Z d) ->
  0 <= m <= 2 ^ 43 -> 0 < d <= max_safe ->
  - d <= 2 * d * percent a b - 200 * m <= d.
Proof.
  intros Ha Hb Hm Hd. unfold percent.
  assert (Hm' : 0 <= m <= max_safe) by (unfold max_safe; lia).
  destruct (div_int N L a b m d Ha Hb Hm' Hd) as [Fq Hq].
  assert (H100' : Z.abs 100 <= max_safe) by (unfold max_safe; lia).
  destruct (val_of_Z N L 100 H100') as [F100 H100].
  set (r := val ((a / b) * of_Z 100)%js).
  set (q := val (a / b)%js) in *.
  set (M := inject_Z m) in *. set (D := inject_Z d) in *.
  assert (HD : (0 < D)%Q) by (unfold D; change 0%Q with (inject_Z 0); rewrite <- Zlt_Qlt; lia).
  assert (HM0 : (0 <= M)%Q) by (unfold M; change 0%Q with (inject_Z 0); rewrite <- Zle_Qle; lia).
  assert (HMhi : (M <= inject_Z (2 ^ 43))%Q) by (unfold M; rewrite <- Zle_Qle; lia).
  assert (HDhi : (D <= inject_Z (2 ^ 53))%Q) by (unfold D; rewrite <- Zle_Qle; unfold max_safe in Hd; lia).
  set (X := (M / D)%Q) in *.
  assert (HDX : (D * X == M)%Q) by (unfold X; field; intros E; rewrite E in HD; discriminate).
  apply Qabs_Qle_condition in Hq.
  assert (HD1 : (1 <= D)%Q)
    by (unfold D; change 1%Q with (inject_Z 1); rewrite <- Zle_Qle; lia).
  assert (HX0 : (0 <= X)%Q).
  { unfold X. apply Qle_shift_div_l; [exact HD|]. lra. }
  assert (HXM : (X <= M)%Q) by nra.
  unfold u64 in Hq. eval_pow.
  (* the scaled product is finite and within [c * X] of [100 * X] *)
  assert (Hr : finite ((a / b) * of_Z 100)%js /\
               (- ((201 # 2 ^ 53) * X) <= r - 100 * X <= (201 # 2 ^ 53) * X)%Q).
  { eval_pow. destruct (Z.eq_dec m 0) as [-> | Hm0].
    - assert (HMz : (M == 0)%Q) by reflexivity.
      assert (HX : (X == 0)%Q) by lra.
      assert (Hq0 : (q == 0)%Q) by lra.
      destruct (mul_zero N L (a / b)%js (of_Z 100) Fq F100) as [Fr Hr0].
      { fold q. rewrite Hq0. ring. }
      fold r in Hr0. split; [exact Fr | lra].
    - assert (HM1 : (1 <= M)%Q)
        by (unfold M; change 1%Q with (inject_Z 1); rewrite <- Zle_Qle; lia).
      assert (HXlo : ((1 # 2 ^ 53) <= X)%Q).
      { unfold X. apply Qle_shift_div_l; [exact HD|]. eval_pow. lra. }
      pose proof (mul_rel N L (a / b)%js (of_Z 100) Fq F100) as Hmul.
      fold q in Hmul. fold r in Hmul. rewrite H100 in Hmul.
      unfold u64 in Hmul. eval_pow.
      assert (Hrange : ((1 # 2 ^ 1000) <= q * inject_Z 100 <= inject_Z (2 ^ 1000))%Q).
      { eval_pow. split; lra. }
      destruct (Hmul Hrange) as [Fr Hmul']. apply Qabs_Qle_condition in Hmul'.
      split; [exact Fr | lra]. }
  destruct Hr as [Fr Hr].
  rewrite (round_exact N L _ Fr). fold r.
  set (p := Qfloor (r + (1 # 2))).
  pose proof (Qfloor_le (r + (1 # 2))) as Hp1.
  pose proof (Qlt_floor (r + (1 # 2))) as Hp2.
  fold p in Hp1, Hp2. rewrite inject_Z_plus in Hp2.
  set (P := inject_Z p) in *.
  eval_pow.
  assert (Hup : (2 * D * P - 200 * M < D + 1)%Q).
  { assert (H1 : (P <= (100 + (201 # 9007199254740992)) * X + (1 # 2))%Q) by lra.
    apply (Qmult_le_l _ _ D HD) in H1.
    assert (E : (D * ((100 + (201 # 9007199254740992)) * X + (1 # 2))
                 == (100 + (201 # 9007199254740992)) * (D * X) + D * (1 # 2))%Q) by ring.
    rewrite E, HDX in H1. lra. }
  assert (Hlo : (- D - 1 < 2 * D * P - 200 * M)%Q).
  { assert (H1 : (100 * X - (201 # 9007199254740992) * X - (1 # 2) < P)%Q) by lra.
    apply (Qmult_lt_l _ _ D HD) in H1.
    assert (E : (D * (100 * X - (201 # 9007199254740992) * X - (1 # 2))
                 == 100 * (D * X) - (201 # 9007199254740992) * (D * X) - D * (1 # 2))%Q)
      by ring.
    rewrite E, HDX in H1. lra. }
  unfold D, M, P in Hup, Hlo. clearbody p. clear - Hup Hlo.
  assert (E : (inject_Z (2 * d * p - 200 * m)
               == 2 * inject_Z d * inject_Z p - 200 * inject_Z m)%Q).
  { unfold Z.sub. rewrite inject_Z_plus, inject_Z_opp, !inject_Z_mult. ring. }
  split.
  + assert (H : - d - 1 < 2 * d * p - 200 * m); [|lia].
    rewrite Zlt_Qlt, E. unfold Z.sub.
    rewrite inject_Z_plus, !inject_Z_opp. exact Hlo.
  + assert (H : 2 * d * p - 200 * m < d + 1); [|lia].
    rewrite Zlt_Qlt, E, inject_Z_plus. exact Hup.
Qed.
End nearest.


(** ** Per-user progress *)

Lemma rounds_percent_unique (c t p p' : Z) :
  0 < t -> rounds_percent c t p -> rounds_percent c t p' ->
  (200 * c + t) mod (2 * t) <> 0 -> p = p'.
Proof.
  unfold rounds_percent. intros Ht [H1 H2] [H3 H4] Hmod.
  assert (Hd : 2 * t * (p - p') <= 2 * t /\ - (2 * t) <= 2 * t * (p - p')) by lia.
  assert (Hc : p - p' = 1 \/ p - p' = 0 \/ p - p' = -1) by nia.
  destruct Hc as [Hc | [Hc | Hc]]; [| lia |].
  - exfalso. apply Hmod. assert (E : 200 * c + t = p * (2 * t)) by nia.
    rewrite E. apply Z_mod_mult.
  - exfalso. apply Hmod. assert (E : 200 * c + t = p' * (2 * t)) by nia.
    rewrite E. apply Z_mod_mult.
Qed.

Lemma round_half_up_rounds (c t : Z) :
  0 < t -> rounds_percent c t (round_half_up c t).
Proof.
  intros Ht. unfold rounds_percent, round_half_up.
  pose proof (Z.div_mod (200 * c + t) (2 * t) ltac:(lia)) as E.
  pose proof (Z.mod_pos_bound (200 * c + t) (2 * t) ltac:(lia)) as B.
  nia.
Qed.

Lemma len_nonneg {A} (l : list A) : 0 <= len l.
Proof. unfold len. lia. Qed.

Lemma len_filter_le {A} (P : A -> Prop) `{!forall x, Decision (P x)} (l : list A) :
  len (filter P l) <= len l.
Proof. unfold len. pose proof (length_filter P l). lia. Qed.

Section progress_facts.
Context {N : JSNumber} (L : JSNumberLaws N).

Lemma percent_of_counts (c t : Z) :
  0 <= c <= t -> 0 < t <= max_array_length ->
  rounds_percent c t (percent (of_Z c) (of_Z t)).
Proof.
  intros Hc Ht. unfold max_array_length in Ht.
  apply (percent_nearest L).
  - apply (val_of_Z N L). unfold max_safe. lia.
  - apply (val_of_Z N L). unfold max_safe. lia.
  - lia.
  - unfold max_safe. lia.
Qed.

Lemma progress_of_tasks {A} (by_ : A -> list string) (tasks : list A) (U : string) :
  len tasks <= max_array_length ->
  is_progress_of by_ tasks U
    (if bool_decide (len tasks = 0) then no_progress
     else {| completed := len (filter (fun t => U ∈ by_ t) tasks);
             total := len tasks;
             percentage := percent (of_Z (len (filter (fun t => U ∈ by_ t) tasks)))
                                   (of_Z (len tasks)) |}).
Proof.
  intros Hlen. unfold is_progress_of. split.
  - intros H0. rewrite bool_decide_eq_true_2 by exact H0. reflexivity.
  - intros Hpos. rewrite bool_decide_eq_false_2 by lia. simpl.
    split; [reflexivity|]. split; [reflexivity|].
    assert (Hr : rounds_percent (len (filter (fun t => U ∈ by_ t) tasks)) (len tasks)
                   (percent (of_Z (len (filter (fun t => U ∈ by_ t) tasks)))
                            (of_Z (len tasks)))).
    { apply percent_of_counts; [|lia].
      split; [apply len_nonneg | apply len_filter_le]. }
    split; [exact Hr|]. intros Hmod.
    eapply rounds_percent_unique; eauto using round_half_up_rounds.
Qed.

End progress_facts.



(** ** Group average *)

Lemma total_completions_nonneg (tasks : list Task.t) : 0 <= total_completions tasks.
Proof.
  induction tasks as [|t ts IH]; simpl; [lia|].
  pose proof (len_nonneg (Task.completedBy t)). lia.
Qed.

Section group_facts.
Context {N : JSNumber} (L : JSNumberLaws N).

(** The running sum of [reduce] is exact while it stays a safe integer. *)
Lemma val_sum_completions (tasks : list Task.t) (acc : num) (a : Z) :
  denotes acc (inject_Z a) -> 0 <= a ->
  a + total_completions tasks <= max_safe ->
  denotes (foldl (fun sum task => (sum + of_Z (len (Task.completedBy task)))%js)
                 acc tasks)
          (inject_Z (a + total_completions tasks)).
Proof.
  revert acc a. induction tasks as [|t ts IH]; intros acc a Ha Ha0 Hb; simpl in *.
  - rewrite Z.add_0_r. exact Ha.
  - pose proof (len_nonneg (Task.completedBy t)) as Ht.
    pose proof (total_completions_nonneg ts) as Hts.
    rewrite Z.add_assoc. apply IH; [|lia|lia].
    apply (add_exact N L); [exact Ha| |lia].
    apply (val_of_Z N L). lia.
Qed.

Lemma Math_round_zero (x : num) : denotes x 0 -> Math_round x = 0.
Proof.
  intros [Fx Hx]. rewrite (round_exact N L _ Fx).
  assert (E : (val x + (1 # 2) == 1 # 2)%Q) by (rewrite Hx; ring).
  rewrite E. reflexivity.
Qed.

Lemma val_sum_zero (ps : list Progress) (acc : num) :
  denotes acc (inject_Z 0) -> Forall (fun p => percentage p = 0) ps ->
  denotes (foldl (fun sum p => (sum + of_Z (percentage p))%js) acc ps) (inject_Z 0).
Proof.
  intros Ha Hps. revert acc Ha. induction Hps as [|p ps Hp _ IH]; intros acc Ha; simpl.
  - exact Ha.
  - apply IH. rewrite Hp.
    apply (add_exact N L acc (of_Z 0) 0 0); [exact Ha| |unfold max_safe; lia].
    apply (val_of_Z N L). unfold max_safe. lia.
Qed.

End group_facts.


(** ** The percentage on binary64 *)

(** One task of four is 25 percent on the floats too. *)
Example binary64_quarter :
  @calculateNoteProgress binary64 four_tasks "u1"
  = {| completed := 1; total := 4; percentage := 25 |}.
Proof. vm_compute. reflexivity. Qed.

(** An exact half need not go up on the floats: 29 of 200 is 14.5
    percent, the float product is just below it, and [Math.round]
    answers 14, one of the two nearest integers. *)
Example binary64_half :
  @percent binary64 (@of_Z binary64 29) (@of_Z binary64 200) = 14 /\
  round_half_up 29 200 = 15 /\
  rounds_percent 29 200 14 /\ rounds_percent 29 200 15.
Proof. vm_compute. intuition congruence. Qed.

(** On the floats the percentage is a nearest integer for all counts up
    to 150 tasks (by evaluation). *)
Example binary64_percent_small : binary64_percent_ok_upto 150 = true.
Proof. vm_compute. reflexivity. Qed.


(** ** Instances of the two theorems on progress *)



(** On exact arithmetic the percentage is [Math.round] of the exact
    quotient for all counts, halves included. *)
Lemma exact_percent_half_up (c t : Z) :
  0 < t -> @percent exactQ (@of_Z exactQ c) (@of_Z exactQ t) = round_half_up c t.
Proof.
  intros Ht. unfold round_half_up.
  change (@percent exactQ (@of_Z exactQ c) (@of_Z exactQ t))
    with (Qfloor ((inject_Z c / inject_Z t) * inject_Z 100 + (1 # 2))).
  rewrite Zdiv_Qdiv. apply Qfloor_comp.
  rewrite inject_Z_plus, !inject_Z_mult.
  field. intros E.
  assert (H : (0 < inject_Z t)%Q)
    by (change 0%Q with (inject_Z 0); rewrite <- Zlt_Qlt; exact Ht).
  rewrite E in H. discriminate.
Qed.


(** ** Ordering engine *)

Section find_facts.
Context {A : Type} (P : A -> Prop) `{!forall x, Decision (P x)}.

Lemma findIndex_found (l : list A) :
  findIndex P l <> -1 ->
  exists (i : nat) x, findIndex P l = Z.of_nat i /\ l !! i = Some x /\ P x.
Proof.
  unfold findIndex. destruct (list_find P l) as [[i x]|] eqn:E; [|congruence].
  intros _. apply list_find_Some in E as (Hi & HP & _). eauto.
Qed.

Lemma findIndex_range (l : list A) : -1 <= findIndex P l < len l.
Proof.
  unfold findIndex, len. destruct (list_find P l) as [[i x]|] eqn:E.
  - apply list_find_Some in E as (Hi & _). apply lookup_lt_Some in Hi. lia.
  - lia.
Qed.

Lemma js_find_Some (l : list A) x : js_find P l = Some x -> x ∈ l /\ P x.
Proof.
  unfold js_find. destruct (list_find P l) as [[i y]|] eqn:E; [|discriminate].
  intros [= ->]. apply list_find_Some in E as (Hi & HP & _).
  split; [eapply list_elem_of_lookup_2; eauto | exact HP].
Qed.

Lemma findIndex_of_elem (l : list A) x : x ∈ l -> P x -> findIndex P l <> -1.
Proof.
  intros Hin HP. unfold findIndex.
  destruct (list_find P l) as [[i y]|] eqn:E; [lia|].
  exfalso. eapply list_find_None in E. rewrite Forall_forall in E. eapply E; eauto.
Qed.
End find_facts.

Lemma splice_start_in_range (n : nat) (i : nat) :
  (i <= n)%nat -> splice_start (Z.of_nat n) (Z.of_nat i) = i.
Proof. intros H. unfold splice_start. rewrite (proj2 (Z.ltb_ge _ _)) by lia. lia. Qed.

Lemma arrayMove_perm {A} (l l' : list A) (from to : Z) :
  arrayMove l from to = Some l' -> l' ≡ₚ l.
Proof.
  unfold arrayMove. destruct (l !! _) as [x|] eqn:E; [|discriminate].
  intros [= <-]. rewrite <- Permutation_middle, take_drop.
  symmetry. apply delete_Permutation. exact E.
Qed.

(** Within the list, [arrayMove] is the remove-and-reinsert of the spec. *)
Lemma arrayMove_in_range {A} (l : list A) (old new : nat) :
  (old < length l)%nat -> (new < length l)%nat ->
  arrayMove l (Z.of_nat old) (Z.of_nat new) = Some (move_item l old new).
Proof.
  intros Ho Hn. unfold arrayMove, move_item.
  rewrite (proj2 (Z.ltb_ge _ _)) by lia.
  rewrite splice_start_in_range by lia.
  destruct (l !! old) as [x|] eqn:E.
  - rewrite splice_start_in_range; [reflexivity|].
    rewrite length_delete by eauto. lia.
  - apply lookup_ge_None in E. lia.
Qed.

(** The moved item ends at the new position. *)
Lemma move_item_lookup {A} (l : list A) (old new : nat) x :
  l !! old = Some x -> (new < length l)%nat -> move_item l old new !! new = Some x.
Proof.
  intros E Hn. unfold move_item. rewrite E.
  assert (Hl : length (take new (delete old l)) = new).
  { rewrite length_take, length_delete by eauto. lia. }
  apply list_lookup_middle. symmetry. exact Hl.
Qed.

Lemma index_entries_ids {A} (f : A -> string) (l : list A) :
  map entry_id (index_entries f l) = map f l.
Proof.
  unfold index_entries. apply list_eq. intros i.
  rewrite !list_lookup_fmap, list_lookup_imap.
  destruct (l !! i); reflexivity.
Qed.

Lemma index_entries_lookup {A} (f : A -> string) (l : list A) (i : nat) e :
  index_entries f l !! i = Some e -> entry_index e = Z.of_nat i.
Proof.
  unfold index_entries. rewrite list_lookup_imap.
  destruct (l !! i); simpl; [|discriminate]. intros [= <-]. reflexivity.
Qed.

Lemma index_entries_indices {A} (f : A -> string) (l : list A) :
  map entry_index (index_entries f l) = seqZ 0 (len l).
Proof.
  unfold index_entries, len. apply list_eq. intros i.
  rewrite list_lookup_fmap, list_lookup_imap.
  destruct (l !! i) as [x|] eqn:E; simpl.
  - symmetry. rewrite lookup_seqZ. apply lookup_lt_Some in E. split; lia.
  - symmetry. apply lookup_seqZ_ge. apply lookup_ge_None in E. lia.
Qed.

Lemma index_entries_renumbers {A} (f : A -> string) (siblings moved : list A) :
  moved ≡ₚ siblings -> renumbers f siblings (index_entries f moved).
Proof.
  intros Hp. unfold renumbers. split; [|split; [|split]].
  - rewrite index_entries_ids. apply fmap_Permutation. exact Hp.
  - intros i e. apply index_entries_lookup.
  - rewrite index_entries_indices. unfold len. rewrite Hp. reflexivity.
  - rewrite index_entries_indices. apply NoDup_seqZ.
Qed.



(** ** Optimistic mutations: rollback *)

Lemma run_updates_fails {R} (upd : OrderEntry -> list R -> list R)
    (newOrder : list OrderEntry) (faults : list bool) (rows : list R) :
  (run_updates upd newOrder faults rows).1 = true <-> write_fails newOrder faults.
Proof.
  revert faults rows. induction newOrder as [|e rest IH]; intros faults rows; simpl.
  - split; [discriminate|]. intros (i & e & He & _). rewrite lookup_nil in He. discriminate.
  - destruct (run_updates upd rest (tail faults) _) as [err rows'] eqn:E. simpl.
    specialize (IH (tail faults)
                  (if default false (head faults) then rows else upd e rows)).
    rewrite E in IH. simpl in IH.
    rewrite orb_true_iff, IH. unfold write_fails. split.
    + intros [Hh | (i & e' & He & Hf)].
      * exists 0%nat, e. split; [reflexivity|].
        destruct faults as [|[] ?]; simpl in *; congruence.
      * exists (S i), e'. split; [exact He|].
        destruct faults; simpl in *; [rewrite lookup_nil in Hf; discriminate | exact Hf].
    + intros ([|i] & e' & He & Hf).
      * left. destruct faults as [|b ?]; simpl in *; [discriminate|]. congruence.
      * right. exists i, e'. split; [exact He|].
        destruct faults; simpl in *; [discriminate | exact Hf].
Qed.

(** The rollback restores whatever snapshot it is given, whatever the
    state has become in the meantime. *)
Lemma rollback_restores (msg : string) (previous : list Notebook.t) (s : Hook) :
  notebooks (rollback msg previous s) = previous /\
  toasts (rollback msg previous s) = toasts s ++ [msg].
Proof. split; reflexivity. Qed.

(** C2. For the optimistic reorder of notes and of tasks: when a request
    of the durable write fails, the notebooks the hook holds after the
    rollback are the notebooks it held before the optimistic apply, the
    failure is reported with a toast, and a refetch is scheduled. *)
Theorem failed_reorder_rolls_back (s : Hook) (db : Backend) (id : string)
    (newOrder : list OrderEntry) (faults : list bool) :
  write_fails newOrder faults ->
  (let s' := (mutate reorderTasksMutation (id, newOrder) faults (s, db)).1 in
   notebooks s' = notebooks s /\
   toasts s' = toasts s ++ ["Failed to reorder tasks"%string] /\
   refetches s' = S (refetches s)) /\
  (let s' := (mutate reorderNotesMutation (id, newOrder) faults (s, db)).1 in
   notebooks s' = notebooks s /\
   toasts s' = toasts s ++ ["Failed to reorder notes"%string] /\
   refetches s' = S (refetches s)).
Proof.
  intros Hf. split.
  - unfold mutate. simpl.
    destruct (run_updates (set_task_order id) newOrder faults (tasks_tbl db))
      as [err rows] eqn:E.
    assert (Herr : err = true).
    { apply (run_updates_fails (set_task_order id) newOrder faults (tasks_tbl db)) in Hf.
      rewrite E in Hf. exact Hf. }
    subst err. simpl. auto.
  - unfold mutate. simpl.
    destruct (run_updates (set_note_order id) newOrder faults (notes_tbl db))
      as [err rows] eqn:E.
    assert (Herr : err = true).
    { apply (run_updates_fails (set_note_order id) newOrder faults (notes_tbl db)) in Hf.
      rewrite E in Hf. exact Hf. }
    subst err. simpl. auto.
Qed.

(** The scenario of the spec: the root tasks A, B, C are reordered
    towards B, A, C (the optimistic state shows that order, the folder
    tasks D, E after them), the second request of the write fails, and
    the hook is back at A, B, C with the other tasks where they were. *)
Example rollback_ABC :
  map Task.id (all_tasks (notebooks sample_hook))
    = ["A"; "B"; "D"; "C"; "E"; "T1"; "T2"; "T3"; "T4"]%string /\
  map Task.id (all_tasks (notebooks
      (onMutate reorderTasksMutation ("n1"%string, swap_AB) sample_hook).2))
    = ["B"; "A"; "C"; "D"; "E"; "T1"; "T2"; "T3"; "T4"]%string /\
  (mutate reorderTasksMutation ("n1"%string, swap_AB) [false; true; false]
          (sample_hook, sample_db)).1
    = {| notebooks := notebooks sample_hook;
         toasts := ["Failed to reorder tasks"%string];
         refetches := 1 |}.
Proof. repeat split; vm_compute; reflexivity. Qed.

Lemma failed_reorder_rolls_back_witness :
  notebooks (mutate reorderTasksMutation ("n1"%string, swap_AB) [false; true; false]
               (sample_hook, sample_db)).1
  = notebooks sample_hook.
Proof.
  refine (proj1 (proj1
    (failed_reorder_rolls_back sample_hook sample_db "n1" swap_AB
       [false; true; false] _))).
  exists 1%nat, {| entry_id := "A"; entry_index := 1 |}. split; reflexivity.
Defined.

(** ** Cross-container move *)

Lemma Forall2_fmap_same {A} (R : A -> A -> Prop) (f : A -> A) (l : list A) :
  (forall x, R x (f x)) -> Forall2 R l (map f l).
Proof. intros H. induction l; simpl; constructor; auto. Qed.

Lemma moved_or_same_patch (taskId : string) (folderId : option string) (t : Task.t) :
  moved_or_same taskId folderId t
    (if bool_decide (Task.id t = taskId) then Task_with_folder_id t folderId else t).
Proof.
  unfold moved_or_same. case_bool_decide; simpl; repeat split; reflexivity.
Qed.

Lemma moved_or_same_order (taskId : string) (folderId : option string)
    (l l1 : list Task.t) :
  Forall2 (moved_or_same taskId folderId) l l1 ->
  map Task.order_index l1 = map Task.order_index l /\
  map Task.id l1 = map Task.id l.
Proof.
  induction 1 as [|t t1 l l1 Ht _ [IH1 IH2]]; simpl; [auto|].
  destruct Ht as (-> & _ & _ & -> & _). rewrite IH1, IH2. auto.
Qed.



(** ** Completion toggle *)

Lemma js_find_cons {A} (P : A -> Prop) `{!forall x, Decision (P x)} (x : A) (l : list A) :
  js_find P (x :: l) = if decide (P x) then Some x else js_find P l.
Proof.
  unfold js_find. simpl. destruct (decide (P x)); [reflexivity|].
  destruct (list_find P l) as [[i y]|]; reflexivity.
Qed.

(** Looking up by id in a list mapped by a function that keeps ids. *)
Lemma js_find_map_key {A} (key : A -> string) (f : A -> A) (k : string) (l : list A) :
  (forall x, key (f x) = key x) ->
  js_find (fun x => key x = k) (map f l) = f <$> js_find (fun x => key x = k) l.
Proof.
  intros Hk. induction l as [|x l IH]; [reflexivity|].
  simpl map. rewrite !js_find_cons, Hk.
  destruct (decide (key x = k)); [reflexivity | exact IH].
Qed.

Lemma filter_all {A} (P : A -> Prop) `{!forall x, Decision (P x)} (l : list A) :
  Forall P l -> filter P l = l.
Proof.
  induction 1 as [|x l Hx _ IH]; [reflexivity|].
  rewrite filter_cons_True by exact Hx. f_equal. exact IH.
Qed.

Lemma js_find_key {A} (key : A -> string) (k : string) (l : list A) x :
  js_find (fun x => key x = k) l = Some x -> key x = k.
Proof. intros H. apply js_find_Some in H. apply H. Qed.

Lemma find_task_toggle_patch (nbs : list Notebook.t)
    (notebookId noteId taskId uid : string) (isCompleted : bool)
    (userName : string) (avatarUrl : option string) :
  find_task (toggle_patch notebookId noteId taskId uid isCompleted userName
               avatarUrl nbs) notebookId noteId taskId
  = toggled uid isCompleted userName avatarUrl
      <$> find_task nbs notebookId noteId taskId.
Proof.
  unfold find_task, find_note, toggle_patch.
  rewrite (js_find_map_key Notebook.id) by (intros nb; case_bool_decide; reflexivity).
  destruct (js_find (fun nb => Notebook.id nb = notebookId) nbs) as [nb|] eqn:Enb;
    [|reflexivity].
  simpl. rewrite (bool_decide_eq_true_2 _ (js_find_key _ _ _ _ Enb)). simpl.
  rewrite (js_find_map_key Note.id) by (intros n; case_bool_decide; reflexivity).
  destruct (js_find (fun n => Note.id n = noteId) (Notebook.notes nb)) as [n|] eqn:En;
    [|reflexivity].
  simpl. rewrite (bool_decide_eq_true_2 _ (js_find_key _ _ _ _ En)). simpl.
  rewrite (js_find_map_key Task.id) by (intros t; case_bool_decide; reflexivity).
  destruct (js_find (fun t => Task.id t = taskId) (Note.tasks n)) as [t|] eqn:Et;
    [|reflexivity].
  simpl. rewrite (bool_decide_eq_true_2 _ (js_find_key _ _ _ _ Et)). reflexivity.
Qed.

(** A toggle that succeeds: the write it made and the task it left. *)
Lemma toggleTask_succeeded (U : string) (fault : bool)
    (notebookId noteId taskId : string) (w w1 : Hook * Backend) (T : Task.t) :
  find_task (notebooks w.1) notebookId noteId taskId = Some T ->
  toggleTask (Some U) fault notebookId noteId taskId w = (Succeeded, w1) ->
  find_task (notebooks w1.1) notebookId noteId taskId
    = Some (toggled U (includes U (Task.completedBy T))
              (profile_name w1.2 U) (profile_avatar w1.2 U) T) /\
  completions_tbl w1.2
    = (if includes U (Task.completedBy T)
       then filter (fun c => c <> completion_row taskId U) (completions_tbl w.2)
       else completions_tbl w.2 ++ [completion_row taskId U]) /\
  (includes U (Task.completedBy T) = false ->
   completion_row taskId U ∉ completions_tbl w.2).
Proof.
  intros HT. unfold toggleTask. rewrite HT.
  destruct (includes U (Task.completedBy T)) eqn:Ei.
  - unfold delete_completion. destruct fault; [discriminate|].
    intros [= <-]. split; [|split].
    + simpl. rewrite find_task_toggle_patch, HT. reflexivity.
    + simpl. apply list_filter_iff. intros [a b]. unfold completion_row. simpl.
      split; [intros H [= -> ->]; tauto | intros H [-> ->]; tauto].
    + discriminate.
  - unfold insert_completion.
    destruct (fault || bool_decide _) eqn:Ef; [discriminate|].
    apply orb_false_iff in Ef as [-> Hin]. apply bool_decide_eq_false in Hin.
    intros [= <-]. split; [|split].
    + simpl. rewrite find_task_toggle_patch, HT. reflexivity.
    + reflexivity.
    + intros _. exact Hin.
Qed.



(** ** Task creation *)

Lemma or0_id (n : Z) : or0 n = n.
Proof. unfold or0. destruct (Z.eqb_spec n 0); congruence. Qed.

Lemma foldl_max_is_maximum (x : Z) (l : list Z) :
  is_maximum (foldl Z.max x l) (x :: l).
Proof.
  revert x. induction l as [|y l IH]; intros x; simpl.
  - split; [left|]. intros z Hz. apply list_elem_of_singleton in Hz. lia.
  - destruct (IH (Z.max x y)) as [Hin Hmax]. split.
    + apply elem_of_cons in Hin as [E | Hin].
      * rewrite E. destruct (Z.max_spec x y) as [[_ ->] | [_ ->]].
        -- right. left.
        -- left.
      * right. right. exact Hin.
    + intros z Hz.
      assert (Hxy : Z.max x y <= foldl Z.max (Z.max x y) l) by (apply Hmax; left).
      apply elem_of_cons in Hz as [-> | Hz]; [lia|].
      apply elem_of_cons in Hz as [-> | Hz]; [lia|].
      apply Hmax. right. exact Hz.
Qed.

Lemma truthy_nonempty (o : option string) :
  o <> Some ""%string -> truthy o = bool_decide (o <> None).
Proof.
  intros H. destruct o as [s|]; simpl; repeat case_bool_decide; simpl; congruence.
Qed.

Lemma filter_ext_in {A} (P Q : A -> Prop) `{!forall x, Decision (P x)}
    `{!forall x, Decision (Q x)} (l : list A) :
  (forall x, x ∈ l -> (P x <-> Q x)) -> filter P l = filter Q l.
Proof.
  induction l as [|x l IH]; intros Hpq; [reflexivity|].
  rewrite !filter_cons.
  rewrite IH by (intros y Hy; apply Hpq; right; exact Hy).
  pose proof (Hpq x (list_elem_of_here _ _)) as Hx.
  destruct (decide (P x)), (decide (Q x)); try reflexivity; tauto.
Qed.

(** With ids that are never empty, the sibling list [addTask] looks at
    is the container the new task goes to. *)
Lemma folderTasks_of_container (note : Note.t) (folderId : option string) :
  folder_ids_nonempty note folderId ->
  folderTasks_of (Some note) folderId = container_tasks note folderId.
Proof.
  intros [Hf Ht]. unfold folderTasks_of, container_tasks.
  rewrite truthy_nonempty by exact Hf. case_bool_decide as E.
  - reflexivity.
  - assert (folderId = None) as ->.
    { destruct folderId; [exfalso; first [discriminate E | apply E; discriminate] | reflexivity]. }
    apply filter_ext_in. intros t Hin. rewrite truthy_nonempty by auto.
    rewrite bool_decide_eq_false. split; [apply dec_stable | tauto].
Qed.

Lemma maxOrder_of_spec (tasks : list Task.t) :
  (tasks = [] -> maxOrder_of tasks = -1) /\
  (tasks <> [] -> is_maximum (maxOrder_of tasks) (map Task.order_index tasks)).
Proof.
  unfold maxOrder_of. destruct tasks as [|t ts]; simpl.
  - split; [reflexivity | congruence].
  - split; [discriminate|]. intros _.
    rewrite or0_id.
    replace (map (fun t0 => or0 (Task.order_index t0)) ts)
      with (map Task.order_index ts)
      by (apply map_ext; intros; symmetry; apply or0_id).
    apply foldl_max_is_maximum.
Qed.

(** C9. A task created in a container of a note the hook holds (the
    root when [folderId] is null, else the folder) gets as [order_index]
    one plus the largest [order_index] among the tasks of that
    container, 0 when the container is empty; it is appended to the
    tasks of the note, the tasks that were there staying as they were
    and where they were, and the same row is added to the [tasks] table. *)
Theorem addTask_numbers_after_last (fault : bool)
    (new_id now notebookId noteId title : string) (folderId : option string)
    (w w1 : Hook * Backend) (note : Note.t) :
  find_note (notebooks w.1) notebookId noteId = Some note ->
  folder_ids_nonempty note folderId ->
  addTask fault new_id now notebookId noteId title folderId w = (Succeeded, w1) ->
  exists task : Task.t,
    find_note (notebooks w1.1) notebookId noteId
      = Some (Note_with_tasks note (Note.tasks note ++ [task])) /\
    Task.id task = new_id /\ Task.title task = title /\
    Task.note_id task = noteId /\ Task.folder_id task = folderId /\
    Task.created_at task = now /\
    Task.completedBy task = [] /\ Task.completions task = [] /\
    (container_tasks note folderId = [] -> Task.order_index task = 0) /\
    (container_tasks note folderId <> [] ->
     is_maximum (Task.order_index task - 1)
                (map Task.order_index (container_tasks note folderId))) /\
    tasks_tbl w1.2 = tasks_tbl w.2 ++ [row_of_task task] /\
    toasts w1.1 = toasts w.1.
Proof.
  intros Hnote Hids. unfold addTask. rewrite Hnote.
  rewrite folderTasks_of_container by exact Hids.
  destruct fault; [discriminate|]. intros [= <-].
  exists {| Task.id := new_id; Task.title := title; Task.note_id := noteId;
            Task.folder_id := folderId;
            Task.order_index := maxOrder_of (container_tasks note folderId) + 1;
            Task.created_at := now; Task.completedBy := [];
            Task.completions := [] |}.
  split_and!; try reflexivity.
  - simpl. unfold find_note in *.
    rewrite (js_find_map_key Notebook.id) by (intros nb; case_bool_decide; reflexivity).
    destruct (js_find (fun nb => Notebook.id nb = notebookId) (notebooks w.1))
      as [nb|] eqn:Enb; [|discriminate].
    simpl in *. rewrite (bool_decide_eq_true_2 _ (js_find_key _ _ _ _ Enb)). simpl.
    rewrite (js_find_map_key Note.id) by (intros n; case_bool_decide; reflexivity).
    rewrite Hnote. simpl.
    rewrite (bool_decide_eq_true_2 _ (js_find_key _ _ _ _ Hnote)). reflexivity.
  - simpl. intros E.
    destruct (maxOrder_of_spec (container_tasks note folderId)) as [H0 _].
    rewrite (H0 E). reflexivity.
  - simpl. intros E.
    destruct (maxOrder_of_spec (container_tasks note folderId)) as [_ H1].
    replace (maxOrder_of (container_tasks note folderId) + 1 - 1)
      with (maxOrder_of (container_tasks note folderId)) by lia.
    apply (H1 E).
Qed.


(** ** Joining by share code *)

(** Under the uniqueness constraint a member has exactly one row. *)
Lemma member_row_single (db : Backend) (notebookId uid : string) :
  members_unique db -> is_member db notebookId uid ->
  exists m, filter (fun m => Row.m_notebook_id m = notebookId /\ Row.m_user_id m = uid)
                   (members_tbl db) = [m].
Proof.
  unfold members_unique, is_member.
  induction (members_tbl db) as [|x l IH]; intros Hnd Hex.
  - inversion Hex.
  - simpl in Hnd. apply NoDup_cons in Hnd as [Hx Hnd].
    rewrite filter_cons. destruct (decide _) as [[E1 E2] | Hne].
    + exists x. f_equal.
      destruct (filter _ l) as [|y r] eqn:Ef; [reflexivity|].
      exfalso. apply Hx.
      assert (Hy : y ∈ filter (fun m => Row.m_notebook_id m = notebookId
                                        /\ Row.m_user_id m = uid) l)
        by (rewrite Ef; left).
      apply list_elem_of_filter in Hy as [[F1 F2] Hy].
      apply list_elem_of_fmap. exists y. split; [congruence | exact Hy].
    + apply IH; [exact Hnd|]. apply Exists_cons in Hex as [? | ?]; tauto.
Qed.

Lemma not_member_no_row (db : Backend) (notebookId uid : string) :
  ~ is_member db notebookId uid ->
  filter (fun m => Row.m_notebook_id m = notebookId /\ Row.m_user_id m = uid)
         (members_tbl db) = [].
Proof.
  unfold is_member. intros Hno.
  destruct (filter _ _) as [|y r] eqn:Ef; [reflexivity|].
  exfalso. apply Hno. apply Exists_exists. exists y.
  assert (Hy : y ∈ filter (fun m => Row.m_notebook_id m = notebookId
                                    /\ Row.m_user_id m = uid) (members_tbl db))
    by (rewrite Ef; left).
  apply list_elem_of_filter in Hy as [Hy Hin]. auto.
Qed.



(** ** What [fetchNotebooks] builds *)


(** The owner is counted on top of the rows even when one of the rows is
    the owner's own: a notebook whose only member row is its owner's
    reports two members. *)
Example memberCount_counts_owner_twice :
  let db := Backend_with_members sample_db
              [{| Row.m_notebook_id := "nb2"; Row.m_user_id := "u1";
                  Row.m_role := owner |}] in
  map (fun nb => (Notebook.id nb, Notebook.owner_id nb, Notebook.memberCount nb))
      (notebooks (fetchNotebooks db (Some "u1"%string) false sample_hook))
  = [("nb1", "u1", 1); ("nb2", "u1", 2)]%string.
Proof. vm_compute. reflexivity. Qed.

Lemma fetch_completions_sound (db : Backend) (ids : list string)
    (fc : FetchedCompletion) :
  fc ∈ fetch_completions db ids ->
  completion_row (fc_task_id fc) (fc_user_id fc) ∈ completions_tbl db.
Proof.
  unfold fetch_completions. intros Hfc.
  case_bool_decide; [|inversion Hfc].
  case_bool_decide; [|inversion Hfc].
  apply list_elem_of_fmap in Hfc as (c & -> & Hc). simpl.
  apply list_elem_of_filter in Hc as [_ Hc].
  destruct c. exact Hc.
Qed.

(** The state [fetchNotebooks] builds satisfies what the toggle theorem
    asks of a task: the users of [completedBy] are those of
    [completions], and each of them has a row in [task_completions]. *)
Lemma fetched_task_consistent (db : Backend) (uid : string) (nb : Notebook.t)
    (note : Note.t) (t : Task.t) (U : string) :
  nb ∈ notebooksWithData db uid -> note ∈ Notebook.notes nb -> t ∈ Note.tasks note ->
  Task.completedBy t = completion_users t /\
  (U ∈ Task.completedBy t -> completion_row (Task.id t) U ∈ completions_tbl db).
Proof.
  unfold notebooksWithData. intros Hnb Hnote Ht.
  apply list_elem_of_fmap in Hnb as (row & -> & _).
  unfold fetch_one in Hnote. simpl in Hnote.
  apply list_elem_of_fmap in Hnote as (n & -> & _). simpl in Ht.
  apply list_elem_of_filter in Ht as [_ Ht].
  apply list_elem_of_fmap in Ht as (r & -> & _).
  unfold task_with_completions, completion_users. simpl. split.
  - rewrite map_map. reflexivity.
  - intros HU. apply list_elem_of_fmap in HU as (fc & -> & Hfc).
    apply list_elem_of_filter in Hfc as [<- Hfc].
    apply (fetch_completions_sound _ _ _ Hfc).
Qed.


(** ** Comment reconciliation *)

Lemma js_some_count (d : string) (cs : list Comment.t) :
  js_some (fun c => Comment.id c = d) cs = bool_decide (0 < count_id d cs)%nat.
Proof.
  unfold js_some, count_id. apply bool_decide_ext.
  rewrite Exists_exists. split.
  - intros (c & Hin & Hc).
    assert (H : c ∈ filter (fun c => Comment.id c = d) cs)
      by (apply list_elem_of_filter; auto).
    destruct (filter _ cs); [inversion H | simpl; lia].
  - intros H. destruct (filter _ cs) as [|c r] eqn:E; [simpl in H; lia|].
    assert (Hc : c ∈ filter (fun c => Comment.id c = d) cs) by (rewrite E; left).
    apply list_elem_of_filter in Hc as [? ?]. eauto.
Qed.

Lemma count_id_app (d : string) (l1 l2 : list Comment.t) :
  count_id d (l1 ++ l2) = (count_id d l1 + count_id d l2)%nat.
Proof. unfold count_id. rewrite filter_app, length_app. reflexivity. Qed.

Lemma count_id_without (d tempId : string) (cs : list Comment.t) :
  tempId <> d ->
  count_id d (filter (fun c => Comment.id c <> tempId) cs) = count_id d cs.
Proof.
  intros Hne. unfold count_id. rewrite list_filter_filter. f_equal.
  apply list_filter_iff. intros c. split; [tauto|]. intros E. split; congruence.
Qed.

Section panel_facts.
Variable taskId : string.
Variable user : option string.
Variable profile : option ProfileData.

#[local] Abbreviation step := (Panel.step taskId user profile).
#[local] Abbreviation run := (Panel.run taskId user profile).

(** An event of the echo leaves at most one entry with the durable id,
    and a merging event leaves exactly one. *)
Lemma echo_step_count (tempId d : string) (s : Thread) (e : Event) :
  tempId <> d -> echo_event tempId d e ->
  (count_id d (comments s) <= 1)%nat ->
  (count_id d (comments (step s e)) <= 1)%nat /\
  (count_id d (comments s) <= count_id d (comments (step s e)))%nat /\
  (merging_event e -> count_id d (comments (step s e)) = 1%nat).
Proof.
  intros Hne He Hle. destruct e as [| t c [data|] | newRow | newRow pd |];
    simpl in He; try contradiction.
  - destruct He as [-> Hd]. simpl.
    rewrite Hd, js_some_count, count_id_without by exact Hne.
    case_bool_decide.
    + rewrite count_id_without by exact Hne. split_and!; [lia | lia | intros _; lia].
    + rewrite count_id_app, count_id_without by exact Hne.
      unfold count_id at 2 5 7. simpl. rewrite filter_cons_True by exact Hd.
      simpl. split_and!; [lia | lia | intros _; lia].
  - simpl. unfold Panel.on_insert. destruct (js_some _ _); simpl;
      split_and!; try lia; contradiction.
  - simpl. rewrite He, js_some_count. case_bool_decide.
    + split_and!; [lia | lia | intros _; lia].
    + rewrite count_id_app. unfold count_id at 2 5 7. simpl.
      rewrite filter_cons_True by exact He. simpl.
      split_and!; [lia | lia | intros _; lia].
Qed.

Lemma echo_run_count (tempId d : string) (trace : list Event) (s : Thread) :
  tempId <> d -> Forall (echo_event tempId d) trace ->
  (count_id d (comments s) <= 1)%nat ->
  (count_id d (comments (run s trace)) <= 1)%nat /\
  (count_id d (comments s) <= count_id d (comments (run s trace)))%nat /\
  (Exists merging_event trace -> count_id d (comments (run s trace)) = 1%nat).
Proof.
  intros Hne Htr. revert s. induction Htr as [|e trace He _ IH]; intros s Hle.
  - simpl. split_and!; [lia | lia |]. intros H. inversion H.
  - simpl.
    destruct (echo_step_count tempId d s e Hne He Hle) as (H1 & H2 & H3).
    destruct (IH (step s e) H1) as (I1 & I2 & I3).
    split_and!; [lia | lia |].
    intros Hex. apply Exists_cons in Hex as [Hm | Hex]; [|auto].
    specialize (H3 Hm). lia.
Qed.

(** A pushed insert whose id the thread holds changes nothing, not even
    the pending look-ups. *)
Lemma held_insert_is_noop (newRow : Comment.t) (s : Thread) :
  (0 < count_id (Comment.id newRow) (comments s))%nat ->
  Panel.on_insert newRow s = s.
Proof.
  intros H. unfold Panel.on_insert. rewrite js_some_count.
  rewrite bool_decide_eq_true_2 by exact H. reflexivity.
Qed.

(** The panel with optimistic echo reconciles as the spec asks: after a send, whatever the order and the
    number of the insert's answer, of the deliveries of its echo and of
    the look-ups they start, the thread holds exactly one entry with
    the durable id as soon as one of them has merged it. *)
Lemma panel_echo_merged_once (s : Thread) (tempId now d : string)
    (trace : list Event) :
  tempId <> d -> count_id d (comments s) = 0%nat ->
  Forall (echo_event tempId d) trace -> Exists merging_event trace ->
  count_id d (comments (run (step s (Send tempId now)) trace)) = 1%nat.
Proof.
  intros Hne H0 Htr Hex.
  assert (Hs : (count_id d (comments (step s (Send tempId now))) <= 1)%nat).
  { simpl. unfold Panel.handleSend_begin.
    destruct (_ || _); [lia|]. destruct user; simpl; [|lia].
    rewrite count_id_app. unfold count_id at 2. simpl.
    rewrite filter_cons_False by (simpl; congruence). simpl. lia. }
  apply (echo_run_count tempId d trace _ Hne Htr Hs). exact Hex.
Qed.
End panel_facts.

(** In the panel without optimistic echo a delivered insert is appended
    whatever the thread holds. *)
Lemma plain_insert_always_appends (user : option string) (s : Thread)
    (newRow : Comment.t) (data : option ProfileData) :
  count_id (Comment.id newRow)
    (comments (PlainPanel.run user s [PushInsert newRow; ProfileResolved newRow data]))
  = S (count_id (Comment.id newRow) (comments s)).
Proof.
  simpl. rewrite count_id_app. unfold count_id at 2. simpl.
  rewrite filter_cons_True by reflexivity. simpl. lia.
Qed.

(** There, a comment that is sent and echoed once is held once: the
    answer of the insert adds nothing, the echo adds the entry. *)
Lemma plain_echo_once (user : option string) (s : Thread) (tempId content : string)
    (data newRow : Comment.t) (pd : option ProfileData) :
  count_id (Comment.id newRow) (comments s) = 0%nat ->
  count_id (Comment.id newRow)
    (comments (PlainPanel.run user s
       [SendAnswer tempId content (Some data); PushInsert newRow;
        ProfileResolved newRow pd])) = 1%nat /\
  count_id (Comment.id newRow)
    (comments (PlainPanel.run user s
       [PushInsert newRow; ProfileResolved newRow pd;
        SendAnswer tempId content (Some data)])) = 1%nat.
Proof.
  intros H0. split.
  - change (PlainPanel.run user s (SendAnswer tempId content (Some data) :: ?l))
      with (PlainPanel.run user (PlainPanel.handleSend user (Some data) s) l).
    rewrite plain_insert_always_appends.
    unfold PlainPanel.handleSend. case_bool_decide; [rewrite H0; reflexivity|].
    destruct user; simpl; rewrite H0; reflexivity.
  - simpl. unfold PlainPanel.handleSend. simpl.
    case_bool_decide; [|destruct user]; simpl;
      rewrite count_id_app, H0; unfold count_id; simpl;
      rewrite filter_cons_True by reflexivity; reflexivity.
Qed.

(** C3, at the failing input.  The panel of [src/components/
    TaskCommentsPanel.tsx] holds the comment [c1]; the change feed
    delivers the insert of [c1] (again, or after the initial fetch has
    loaded it): the look-up is started and the comment is appended a
    second time.  The panel with optimistic echo leaves the thread as it
    is on the same delivery. *)
Theorem plain_panel_duplicates_held_comment :
  let newRow := sample_comment "c1" "u2" "hello" in
  let bob := Some {| pd_name := "Bob"; pd_avatar_url := None |} in
  count_id "c1" (comments sample_thread) = 1%nat /\
  PlainPanel.on_insert newRow sample_thread <> sample_thread /\
  count_id "c1" (comments (PlainPanel.run (Some "u1"%string) sample_thread
                             [PushInsert newRow; ProfileResolved newRow bob])) = 2%nat /\
  Panel.on_insert newRow sample_thread = sample_thread /\
  Panel.run "A" (Some "u1"%string) None sample_thread
    [PushInsert newRow; ProfileResolved newRow bob] = sample_thread.
Proof.
  split_and!; try (vm_compute; reflexivity).
  vm_compute. discriminate.
Qed.


(** ** The drag handlers on the sample note *)

(** The task handler never throws: it calls [arrayMove] with positions
    it has found. *)
Lemma handleTaskDragEnd_never_throws (note : Note.t) (activeId : string)
    (over : option string) :
  handleTaskDragEnd note activeId over <> Throws.
Proof.
  unfold handleTaskDragEnd. repeat case_match; try discriminate.
  exfalso.
  match goal with H : bool_decide _ = true |- _ =>
    apply bool_decide_eq_true in H as [Hold Hnew] end.
  apply findIndex_found in Hold as (old & xo & Eold & Hxo & _).
  apply findIndex_found in Hnew as (new & xn & Enew & Hxn & _).
  match goal with H : arrayMove _ _ _ = None |- _ =>
    rewrite Eold, Enew, arrayMove_in_range in H
      by (eapply lookup_lt_Some; eassumption); discriminate H end.
Qed.

(** A drop that changes the container is passed on as a move and as
    nothing else: on a folder, on the root zone, on a task of another
    container. *)
Lemma cross_container_drop_moves (note : Note.t) (activeId : string)
    (over : option string) (taskId : string) (folderId : option string) :
  handleTaskDragEnd note activeId over = Calls (onMoveTaskToFolder taskId folderId) ->
  taskId = activeId /\
  exists task, js_find (fun t => Task.id t = activeId) (Note.tasks note) = Some task /\
               Task.folder_id task <> folderId.
Proof.
  unfold handleTaskDragEnd. intros H.
  repeat case_match; simplify_eq; split; try reflexivity; eexists; split;
    try reflexivity;
    match goal with H : bool_decide _ = true |- _ =>
      apply bool_decide_eq_true in H; exact H end.
Qed.

(** Dragging the root task A onto C, and the folder task D onto E. *)
Example drag_on_sample_note :
  handleTaskDragEnd sample_note "A" (Some "C"%string)
    = Calls (onReorderTasks "n1"
               [{| entry_id := "B"; entry_index := 0 |};
                {| entry_id := "C"; entry_index := 1 |};
                {| entry_id := "A"; entry_index := 2 |}]) /\
  handleTaskDragEnd sample_note "D" (Some "E"%string)
    = Calls (onReorderTasks "n1"
               [{| entry_id := "E"; entry_index := 0 |};
                {| entry_id := "D"; entry_index := 1 |}]) /\
  handleTaskDragEnd sample_note "A" (Some "E"%string)
    = Calls (onMoveTaskToFolder "A" (Some "f1"%string)) /\
  handleTaskDragEnd sample_note "D" (Some "root-n1"%string)
    = Calls (onMoveTaskToFolder "D" None) /\
  handleTaskDragEnd sample_note "B" (Some "f1"%string)
    = Calls (onMoveTaskToFolder "B" (Some "f1"%string)) /\
  handleDragEnd sample_notebook "n2" (Some "n1"%string)
    = Calls (onReorderNotes "nb1"
               [{| entry_id := "n2"; entry_index := 0 |};
                {| entry_id := "n1"; entry_index := 1 |}]).
Proof. repeat split; vm_compute; reflexivity. Qed.

(** The optimistic patch of [reorderTasksMutation] looks up the entries
    of [newOrder] among the root tasks only.  For a reorder inside a
    folder it finds none of them: until the refetch the hook shows the
    folder tasks in their old order and no root task of the note; the
    store receives the new indices all the same. *)
Example folder_reorder_optimistic_state :
  let newOrder := [{| entry_id := "E"; entry_index := 0 |};
                   {| entry_id := "D"; entry_index := 1 |}] in
  let w' := mutate reorderTasksMutation ("n1"%string, newOrder) []
                   (sample_hook, sample_db) in
  map Task.id (all_tasks (notebooks w'.1)) = ["D"; "E"; "T1"; "T2"; "T3"; "T4"]%string /\
  map (fun r => (Row.t_id r, Row.t_order_index r)) (tasks_tbl w'.2)
    = [("A", 0); ("B", 1); ("D", 1); ("C", 2); ("E", 0)]%string.
Proof. split; vm_compute; reflexivity. Qed.

(** Two toggles bring back the same users, not the same lists: a user
    who was in the set is appended again at the end, with the name the
    profile has at that moment. *)
Example toggle_twice_moves_user_last :
  let w1 := (toggleTask (Some "u1"%string) false "nb1" "n1" "X"
               (two_users_hook, two_users_db)).2 in
  let w2 := (toggleTask (Some "u1"%string) false "nb1" "n1" "X" w1).2 in
  (fun t => (Task.completedBy t, map (fun c => (userId c, userName c)) (Task.completions t)))
    <$> find_task (notebooks two_users_hook) "nb1" "n1" "X"
    = Some (["u1"; "u2"], [("u1", "Unknown"); ("u2", "Unknown")])%string /\
  (fun t => (Task.completedBy t, map (fun c => (userId c, userName c)) (Task.completions t)))
    <$> find_task (notebooks w2.1) "nb1" "n1" "X"
    = Some (["u2"; "u1"], [("u2", "Unknown"); ("u1", "Ann")])%string /\
  completions_tbl w2.2 = [completion_row "X" "u2"; completion_row "X" "u1"].
Proof. repeat split; vm_compute; reflexivity. Qed.

(** ** Instances of the theorems on the sample data *)




Lemma addTask_numbers_after_last_witness :
  exists task : Task.t,
    Task.folder_id task = Some "f1"%string /\
    is_maximum (Task.order_index task - 1) [0; 1].
Proof.
  destruct (addTask_numbers_after_last false "F" "2025-12-08" "nb1" "n1" "Milk"
              (Some "f1"%string) (sample_hook, sample_db)
              (addTask false "F" "2025-12-08" "nb1" "n1" "Milk" (Some "f1"%string)
                 (sample_hook, sample_db)).2
              sample_note)
    as (task & _ & _ & _ & _ & Hf & _ & _ & _ & _ & Hmax & _).
  - reflexivity.
  - split; [discriminate|]. intros t Ht. vm_compute in Ht.
    repeat (apply elem_of_cons in Ht as [-> | Ht]; [discriminate|]).
    inversion Ht.
  - reflexivity.
  - exists task. split; [exact Hf|]. apply Hmax. discriminate.
Defined.




(** ** The list [fetchNotebooks] builds: which notebooks, in which order *)

Lemma push_unseen_spec (acc : list Row.notebook) (l : list Row.notebook) :
  NoDup (map Row.nb_id acc) ->
  NoDup (map Row.nb_id (foldl push_unseen acc l)) /\
  (forall i, i ∈ map Row.nb_id (foldl push_unseen acc l) <->
             i ∈ map Row.nb_id acc \/ i ∈ map Row.nb_id l) /\
  (forall r, r ∈ foldl push_unseen acc l -> r ∈ acc \/ r ∈ l).
Proof.
  revert acc. induction l as [|x l IH]; intros acc Hnd; simpl.
  - split; [exact Hnd|]. split; [|tauto].
    intros i. split; [tauto|]. intros [H|H]; [exact H|]. inversion H.
  - assert (Hnd' : NoDup (map Row.nb_id (push_unseen acc x))).
    { unfold push_unseen. case_bool_decide as Hin; [exact Hnd|].
      rewrite map_app. simpl. apply NoDup_app. split; [exact Hnd|].
      split; [|apply NoDup_singleton].
      intros i Hi Hx. apply list_elem_of_singleton in Hx. subst i. tauto. }
    destruct (IH _ Hnd') as (H1 & H2 & H3). split; [exact H1|]. split.
    + intros i. rewrite H2. unfold push_unseen.
      case_bool_decide as Hin.
      * rewrite elem_of_cons. split; [tauto|].
        intros [H|[->|H]]; tauto.
      * rewrite map_app, elem_of_app. simpl.
        rewrite list_elem_of_singleton, elem_of_cons. tauto.
    + intros r Hr. destruct (H3 r Hr) as [H|H]; [|right; by right].
      unfold push_unseen in H. case_bool_decide; [by left|].
      apply elem_of_app in H as [H|H]; [by left|].
      apply list_elem_of_singleton in H. subst. right. by left.
Qed.

Lemma all_notebooks_spec (db : Backend) (uid : string) :
  let ownedNotebooks :=
    filter (fun nb => Row.nb_owner_id nb = uid) (notebooks_tbl db) in
  let memberNotebooks :=
    omap (fun m => head (filter (fun nb => Row.nb_id nb = Row.m_notebook_id m)
                                (notebooks_tbl db)))
         (filter (fun m => Row.m_user_id m = uid) (members_tbl db)) in
  NoDup (map Row.nb_id (all_notebooks db uid)) /\
  (forall i, i ∈ map Row.nb_id (all_notebooks db uid) <->
             i ∈ map Row.nb_id ownedNotebooks \/ i ∈ map Row.nb_id memberNotebooks) /\
  (forall r, r ∈ all_notebooks db uid -> r ∈ ownedNotebooks \/ r ∈ memberNotebooks).
Proof.
  intros owned joined. unfold all_notebooks. fold owned. fold joined.
  destruct (push_unseen_spec [] owned (NoDup_nil_2)) as (A1 & A2 & A3).
  destruct (push_unseen_spec _ joined A1) as (B1 & B2 & B3).
  split; [exact B1|]. split.
  - intros i. rewrite B2, A2. simpl. rewrite elem_of_nil. tauto.
  - intros r Hr. apply B3 in Hr as [Hr|Hr]; [|by right].
    apply A3 in Hr as [Hr|Hr]; [inversion Hr|by left].
Qed.

Lemma all_notebooks_rows (db : Backend) (uid : string) (r : Row.notebook) :
  r ∈ all_notebooks db uid -> r ∈ notebooks_tbl db.
Proof.
  intros H. destruct (all_notebooks_spec db uid) as (_ & _ & H3).
  apply H3 in H as [H|H].
  - by apply list_elem_of_filter in H as [_ H].
  - apply list_elem_of_omap in H as (m & _ & Hm).
    apply head_Some_elem_of in Hm.
    by apply list_elem_of_filter in Hm as [_ Hm].
Qed.

Lemma fetch_one_id (db : Backend) (uid : string) (r : Row.notebook) :
  Notebook.id (fetch_one db uid r) = Row.nb_id r.
Proof. reflexivity. Qed.

Lemma notebooksWithData_ids (db : Backend) (uid : string) :
  map Notebook.id (notebooksWithData db uid) = map Row.nb_id (all_notebooks db uid).
Proof.
  unfold notebooksWithData. rewrite <- list_fmap_compose.
  apply list_fmap_ext. intros i r _. reflexivity.
Qed.


(** ** Ascending order of what [.order('order_index')] returns *)

Lemma insert_by_elem {A} (key : A -> Z) (x : A) (l : list A) y :
  y ∈ insert_by key x l <-> y = x \/ y ∈ l.
Proof.
  induction l as [|z l IH]; simpl.
  - rewrite list_elem_of_singleton, elem_of_nil. tauto.
  - destruct (key x <=? key z); rewrite !elem_of_cons; [tauto|].
    rewrite IH. tauto.
Qed.

Lemma order_by_elem {A} (key : A -> Z) (l : list A) y :
  y ∈ order_by key l <-> y ∈ l.
Proof.
  unfold order_by. induction l as [|x l IH]; simpl; [done|].
  rewrite insert_by_elem, IH, elem_of_cons. tauto.
Qed.

Lemma insert_by_ascending {A} (key : A -> Z) (x : A) (l : list A) :
  ascending key l -> ascending key (insert_by key x l).
Proof.
  induction l as [|z l IH]; simpl; [intros _; split; [constructor|done]|].
  intros [Hz Hl]. destruct (key x <=? key z) eqn:E; simpl.
  - apply Z.leb_le in E. split; [|done]. constructor; [done|].
    eapply Forall_impl; [exact Hz|]. simpl. intros; lia.
  - apply Z.leb_gt in E. split; [|by apply IH].
    apply Forall_forall. intros y Hy. apply insert_by_elem in Hy as [->|Hy]; [lia|].
    rewrite Forall_forall in Hz. by apply Hz.
Qed.

Lemma order_by_ascending {A} (key : A -> Z) (l : list A) :
  ascending key (order_by key l).
Proof.
  unfold order_by. induction l as [|x l IH]; simpl; [done|].
  by apply insert_by_ascending.
Qed.

Lemma ascending_filter {A} (key : A -> Z) (P : A -> Prop)
    `{!forall x, Decision (P x)} (l : list A) :
  ascending key l -> ascending key (filter P l).
Proof.
  induction l as [|x l IH]; simpl; [done|]. intros [Hx Hl].
  rewrite filter_cons. destruct (decide (P x)); [|by apply IH]. simpl.
  split; [|by apply IH]. apply Forall_forall. intros y Hy.
  apply list_elem_of_filter in Hy as [_ Hy]. rewrite Forall_forall in Hx. by apply Hx.
Qed.

Lemma ascending_fmap {A B} (key : A -> Z) (key' : B -> Z) (f : A -> B) (l : list A) :
  (forall x, key' (f x) = key x) -> ascending key l -> ascending key' (map f l).
Proof.
  intros Hk. induction l as [|x l IH]; simpl; [done|]. intros [Hx Hl].
  split; [|by apply IH]. apply Forall_fmap.
  eapply Forall_impl; [exact Hx|]. simpl. intros y. rewrite !Hk. done.
Qed.

(** X2. In every notebook [fetchNotebooks] builds, the notes come in
    ascending [order_index] and belong to the notebook; in every note
    the tasks and the folders come in ascending [order_index] and
    belong to the note. *)
Theorem fetched_lists_in_order (db : Backend) (uid : string) :
  Forall notebook_in_order (notebooksWithData db uid).
Proof.
  unfold notebooksWithData. apply Forall_fmap, Forall_forall. intros r _.
  unfold notebook_in_order, fetch_one; simpl. split.
  - apply (ascending_fmap Row.n_order_index); [done|]. apply order_by_ascending.
  - apply Forall_fmap, Forall_forall. intros n Hn. simpl.
    apply order_by_elem, list_elem_of_filter in Hn as [Hn _].
    split; [done|]. unfold note_in_order; simpl. split; [|split; [|split]].
    + apply ascending_filter.
      case_bool_decide; [|done].
      apply (ascending_fmap Row.t_order_index); [done|]. apply order_by_ascending.
    + apply (ascending_fmap Row.f_order_index); [done|].
      apply ascending_filter. case_bool_decide; [|done]. apply order_by_ascending.
    + apply Forall_forall. intros t Ht.
      by apply list_elem_of_filter in Ht as [Ht _].
    + apply Forall_fmap, Forall_forall. intros f Hf. simpl.
      by apply list_elem_of_filter in Hf as [Hf _].
Qed.


(** ** Completions: the hook state against the store *)

Lemma elem_of_flat_map {A B} (f : A -> list B) (l : list A) (b : B) :
  b ∈ flat_map f l <-> exists a, a ∈ l /\ b ∈ f a.
Proof.
  rewrite list_elem_of_In, in_flat_map. split.
  - intros (a & Ha & Hb). exists a. by rewrite !list_elem_of_In.
  - intros (a & Ha & Hb). exists a. by rewrite <- !list_elem_of_In.
Qed.

Lemma elem_of_all_tasks (nbs : list Notebook.t) (t : Task.t) :
  t ∈ all_tasks nbs <->
  exists nb n, nb ∈ nbs /\ n ∈ Notebook.notes nb /\ t ∈ Note.tasks n.
Proof.
  unfold all_tasks. rewrite elem_of_flat_map. split.
  - intros (nb & Hnb & Ht). apply elem_of_flat_map in Ht as (n & Hn & Ht). eauto.
  - intros (nb & n & Hnb & Hn & Ht). exists nb. split; [done|].
    apply elem_of_flat_map. eauto.
Qed.

Lemma fetch_completions_complete (db : Backend) (ids : list string)
    (i V : string) :
  i ∈ ids -> completion_row i V ∈ completions_tbl db ->
  exists fc, fc ∈ fetch_completions db ids /\ fc_task_id fc = i /\ fc_user_id fc = V.
Proof.
  intros Hi Hrow. unfold fetch_completions.
  rewrite bool_decide_eq_true_2.
  2:{ destruct ids; [inversion Hi|simpl; lia]. }
  assert (Hin : completion_row i V ∈
                filter (fun c => Row.c_task_id c ∈ ids) (completions_tbl db)).
  { apply list_elem_of_filter. split; [done|done]. }
  rewrite bool_decide_eq_true_2.
  2:{ destruct (filter _ (completions_tbl db)); [inversion Hin|simpl; lia]. }
  eexists. split.
  - apply list_elem_of_fmap. exists (completion_row i V). split; [reflexivity|done].
  - done.
Qed.


Lemma NoDup_key_inj {A K} (g : A -> K) (l : list A) (b c : A) :
  NoDup (map g l) -> b ∈ l -> c ∈ l -> g b = g c -> b = c.
Proof.
  induction l as [|x l IH]; simpl; intros Hnd Hb Hc E; [inversion Hb|].
  apply NoDup_cons in Hnd as [Hx Hnd].
  apply elem_of_cons in Hb as [->|Hb]; apply elem_of_cons in Hc as [->|Hc].
  - done.
  - exfalso. apply Hx. rewrite E. apply list_elem_of_fmap. eauto.
  - exfalso. apply Hx. rewrite <- E. apply list_elem_of_fmap. eauto.
  - by apply IH.
Qed.

Lemma NoDup_flat_map_inner {A B K} (f : A -> list B) (g : B -> K) (l : list A) x :
  NoDup (map g (flat_map f l)) -> x ∈ l -> NoDup (map g (f x)).
Proof.
  induction l as [|a l IH]; simpl; intros Hnd Hx; [inversion Hx|].
  rewrite map_app in Hnd. apply NoDup_app in Hnd as (H1 & _ & H2).
  apply elem_of_cons in Hx as [->|Hx]; [done|by apply IH].
Qed.

Lemma NoDup_flat_map_same {A B K} (f : A -> list B) (g : B -> K) (l : list A)
    (x y : A) (b c : B) :
  NoDup (map g (flat_map f l)) -> x ∈ l -> y ∈ l -> b ∈ f x -> c ∈ f y ->
  g b = g c -> x = y.
Proof.
  induction l as [|a l IH]; simpl; intros Hnd Hx Hy Hb Hc E; [inversion Hx|].
  rewrite map_app in Hnd. apply NoDup_app in Hnd as (H1 & Hdisj & H2).
  assert (Hin : forall z d, z ∈ l -> d ∈ f z -> g d ∈ map g (flat_map f l)).
  { intros z d Hz Hd. apply list_elem_of_fmap. exists d. split; [done|].
    apply elem_of_flat_map. eauto. }
  apply elem_of_cons in Hx as [->|Hx]; apply elem_of_cons in Hy as [->|Hy].
  - done.
  - exfalso. apply (Hdisj (g b)); [apply list_elem_of_fmap; eauto|].
    rewrite E. eauto.
  - exfalso. apply (Hdisj (g c)); [apply list_elem_of_fmap; eauto|].
    rewrite <- E. eauto.
  - by apply IH.
Qed.

Lemma found_task_located (nbs : list Notebook.t)
    (notebookId noteId taskId : string) (T : Task.t) :
  NoDup (map Task.id (all_tasks nbs)) ->
  find_task nbs notebookId noteId taskId = Some T ->
  located nbs notebookId noteId taskId /\
  T ∈ all_tasks nbs /\ Task.id T = taskId /\
  forall t, t ∈ all_tasks nbs -> Task.id t = taskId -> t = T.
Proof.
  intros Hnd Hfind. unfold find_task, find_note in Hfind.
  destruct (js_find _ nbs) as [NB0|] eqn:E1; [|discriminate]. simpl in Hfind.
  destruct (js_find _ (Notebook.notes NB0)) as [N0|] eqn:E2; [|discriminate].
  simpl in Hfind.
  apply js_find_Some in E1 as [HNB0 Hid1].
  apply js_find_Some in E2 as [HN0 Hid2].
  apply js_find_Some in Hfind as [HT Hid3].
  assert (HTall : T ∈ all_tasks nbs) by (apply elem_of_all_tasks; eauto).
  split; [|split; [done|split; [done|]]].
  - intros nb n t Hnb Hn Ht Hid.
    assert (nb = NB0).
    { apply (NoDup_flat_map_same
               (fun nb => flat_map Note.tasks (Notebook.notes nb)) Task.id nbs
               nb NB0 t T Hnd Hnb HNB0).
      - apply elem_of_flat_map. eauto.
      - apply elem_of_flat_map. eauto.
      - congruence. }
    subst nb. split; [done|].
    assert (n = N0); [|by subst].
    apply (NoDup_flat_map_same Note.tasks Task.id (Notebook.notes NB0) n N0 t T);
      [|done|done|done|done|congruence].
    apply (NoDup_flat_map_inner
             (fun nb => flat_map Note.tasks (Notebook.notes nb)) Task.id nbs NB0 Hnd HNB0).
  - intros t Ht Hid. apply (NoDup_key_inj Task.id (all_tasks nbs)); [done..|congruence].
Qed.

Section patch.
Variables notebookId noteId taskId uid : string.
Variable isCompleted : bool.
Variable userName : string.
Variable avatarUrl : option string.

#[local] Abbreviation tg :=
  (fun t : Task.t =>
     if bool_decide (Task.id t = taskId)
     then toggled uid isCompleted userName avatarUrl t else t).

Lemma toggle_patch_all_tasks (nbs : list Notebook.t) :
  located nbs notebookId noteId taskId ->
  all_tasks (toggle_patch notebookId noteId taskId uid isCompleted userName
               avatarUrl nbs)
  = map tg (all_tasks nbs).
Proof.
  unfold located, all_tasks, toggle_patch.
  induction nbs as [|nb nbs IH]; intros Hloc; simpl; [done|].
  rewrite map_app. f_equal.
  2:{ apply IH. intros nb' n t Hnb'. apply Hloc. by right. }
  assert (Hnb : forall n t, n ∈ Notebook.notes nb -> t ∈ Note.tasks n ->
                  Task.id t = taskId ->
                  Notebook.id nb = notebookId /\ Note.id n = noteId).
  { intros n t. apply Hloc. by left. }
  clear IH Hloc. case_bool_decide as Hid; simpl.
  - induction (Notebook.notes nb) as [|n ns IHn]; simpl; [done|].
    rewrite map_app. f_equal.
    2:{ apply IHn. intros n' t Hn'. apply Hnb. by right. }
    case_bool_decide as Hn; simpl; [done|].
    symmetry. erewrite map_ext_in; [apply map_id|]. intros t Ht. simpl.
    rewrite bool_decide_eq_false_2; [done|].
    intros E. apply Hn. apply (Hnb n t); [by left|by apply list_elem_of_In|done].
  - symmetry. erewrite map_ext_in; [apply map_id|]. intros t Ht. simpl.
    rewrite bool_decide_eq_false_2; [done|].
    intros E. apply list_elem_of_In, elem_of_flat_map in Ht as (n & Hn & Ht).
    apply Hid. by apply (Hnb n t).
Qed.

Lemma toggle_patch_located (nbs : list Notebook.t) (a b c : string) :
  located nbs a b c ->
  located (toggle_patch notebookId noteId taskId uid isCompleted userName
             avatarUrl nbs) a b c.
Proof.
  unfold located, toggle_patch. intros Hloc nb n t Hnb Hn Ht Hid.
  apply list_elem_of_fmap in Hnb as (nb0 & -> & Hnb0).
  case_bool_decide; [|by eapply Hloc].
  simpl in Hn. apply list_elem_of_fmap in Hn as (n0 & -> & Hn0). simpl.
  case_bool_decide; [|by eapply Hloc].
  simpl in Ht. apply list_elem_of_fmap in Ht as (t0 & -> & Ht0). simpl.
  case_bool_decide; simpl in Hid; by eapply Hloc.
Qed.
End patch.

Lemma toggled_id (uid : string) (c : bool) (name : string) (av : option string)
    (t : Task.t) :
  Task.id (toggled uid c name av t) = Task.id t.
Proof. reflexivity. Qed.

Lemma completion_users_filter (U : string) (cs : list TaskCompletion) :
  map userId (filter (fun c => userId c <> U) cs)
  = filter (fun id => id <> U) (map userId cs).
Proof.
  induction cs as [|c cs IH]; simpl; [done|].
  rewrite !filter_cons. destruct (decide (userId c <> U)); simpl; by rewrite IH.
Qed.




(** ** "Reset all tasks" *)

Lemma toggleTask_from_current (user : option string) (fault : bool)
    (notebookId noteId taskId : string) (w : Hook * Backend) :
  toggleTask_from (notebooks w.1) user fault notebookId noteId taskId w
  = toggleTask user fault notebookId noteId taskId w.
Proof. reflexivity. Qed.

Lemma js_find_unique {A} (key : A -> string) (l : list A) (x : A) :
  NoDup (map key l) -> x ∈ l -> js_find (fun y => key y = key x) l = Some x.
Proof.
  induction l as [|a l IH]; simpl; intros Hnd Hx; [inversion Hx|].
  apply NoDup_cons in Hnd as [Ha Hnd]. rewrite js_find_cons.
  apply elem_of_cons in Hx as [->|Hx].
  - by rewrite decide_True.
  - rewrite decide_False; [by apply IH|].
    intros E. apply Ha. rewrite E. apply list_elem_of_fmap. eauto.
Qed.

Lemma find_note_toggle_patch (nbs : list Notebook.t)
    (notebookId noteId taskId uid : string) (isCompleted : bool)
    (userName : string) (avatarUrl : option string) :
  find_note (toggle_patch notebookId noteId taskId uid isCompleted userName
               avatarUrl nbs) notebookId noteId
  = (fun n => Note_with_tasks n
       (map (fun t => if bool_decide (Task.id t = taskId)
                      then toggled uid isCompleted userName avatarUrl t else t)
            (Note.tasks n)))
      <$> find_note nbs notebookId noteId.
Proof.
  unfold find_note, toggle_patch.
  rewrite (js_find_map_key Notebook.id) by (intros nb; case_bool_decide; reflexivity).
  destruct (js_find (fun nb => Notebook.id nb = notebookId) nbs) as [nb|] eqn:Enb;
    [|reflexivity].
  simpl. rewrite (bool_decide_eq_true_2 _ (js_find_key _ _ _ _ Enb)). simpl.
  rewrite (js_find_map_key Note.id) by (intros n; case_bool_decide; reflexivity).
  destruct (js_find (fun n => Note.id n = noteId) (Notebook.notes nb)) as [n|] eqn:En;
    [|reflexivity].
  simpl. rewrite (bool_decide_eq_true_2 _ (js_find_key _ _ _ _ En)). reflexivity.
Qed.

Lemma without_user_id (U : string) (t : Task.t) :
  Task.id (without_user U t) = Task.id t.
Proof. unfold without_user. by case_bool_decide. Qed.

Lemma without_user_clears (U : string) (t : Task.t) :
  U ∉ Task.completedBy (without_user U t).
Proof.
  unfold without_user. case_bool_decide as H; [|done]. simpl.
  rewrite list_elem_of_filter. tauto.
Qed.

Section reset.
Variables (U notebookId : string) (note : Note.t) (seen : list Notebook.t).
Hypothesis Hseen : find_note seen notebookId (Note.id note) = Some note.
Hypothesis Hnd : NoDup (map Task.id (Note.tasks note)).

Lemma resetAll_loop_spec (todo done_ : list Task.t) (w : Hook * Backend) :
  Note.tasks note = done_ ++ todo ->
  find_note (notebooks w.1) notebookId (Note.id note)
    = Some (Note_with_tasks note (map (without_user U) done_ ++ todo)) ->
  let w' := resetAll_loop seen (Some U) notebookId (Note.id note) todo [] w in
  find_note (notebooks w'.1) notebookId (Note.id note)
    = Some (Note_with_tasks note (map (without_user U) (done_ ++ todo))) /\
  completions_tbl w'.2
    = filter (fun c => ~ (Row.c_user_id c = U /\
                          Row.c_task_id c ∈
                            map Task.id (filter (fun t => U ∈ Task.completedBy t) todo)))
             (completions_tbl w.2) /\
  toasts w'.1 = toasts w.1.
Proof.
  revert done_ w. induction todo as [|task rest IH]; intros done_ w Hsplit Hcur; simpl.
  - rewrite app_nil_r in *. split; [exact Hcur|]. split; [|done].
    symmetry. apply filter_all, Forall_forall. intros c _ [_ H]. inversion H.
  - assert (Htask : task ∈ Note.tasks note).
    { rewrite Hsplit. apply elem_of_app. right. by left. }
    unfold includes. simpl. case_bool_decide as HU.
    + (* the task is toggled *)
      unfold toggleTask_from, find_task. rewrite Hseen. simpl.
      rewrite (js_find_unique Task.id _ _ Hnd Htask).
      unfold includes. rewrite (bool_decide_eq_true_2 _ HU).
      unfold delete_completion. simpl.
      match goal with
      | |- context [resetAll_loop _ _ _ _ _ _ ?w1] => set (w1_ := w1)
      end.
      destruct (IH (done_ ++ [task]) w1_) as (H1 & H2 & H3).
      { by rewrite <- app_assoc. }
      { unfold w1_. simpl. rewrite find_note_toggle_patch, Hcur. simpl.
        f_equal. unfold Note_with_tasks; simpl. f_equal.
        rewrite !map_app. simpl. rewrite <- app_assoc. simpl.
        rewrite Hsplit, map_app in Hnd. simpl in Hnd.
        apply NoDup_app in Hnd as (Hd1 & Hd2 & Hd3).
        apply NoDup_cons in Hd3 as [Hd3 Hd4].
        f_equal; [|f_equal].
        - rewrite <- list_fmap_compose. apply list_fmap_ext. intros i t Ht. simpl.
          rewrite without_user_id. rewrite bool_decide_eq_false_2; [done|].
          intros E. apply (Hd2 (Task.id t)).
          + apply list_elem_of_fmap. exists t. split; [done|].
            by apply list_elem_of_lookup_2 in Ht.
          + rewrite E. by left.
        - rewrite bool_decide_eq_true_2 by done.
          unfold without_user. by rewrite bool_decide_eq_true_2.
        - erewrite map_ext_in; [apply map_id|]. intros t Ht. simpl.
          rewrite bool_decide_eq_false_2; [done|].
          intros E. apply Hd3. rewrite <- E. apply list_elem_of_fmap.
          exists t. split; [done|]. by apply list_elem_of_In. }
      rewrite <- app_assoc in H1. simpl in H1.
      split; [exact H1|]. split; [|by rewrite H3].
      rewrite H2. unfold w1_. simpl. rewrite list_filter_filter.
      rewrite filter_cons_True by done. simpl.
      apply list_filter_iff. intros c. rewrite elem_of_cons. tauto.
    + (* the task is skipped *)
      destruct (IH (done_ ++ [task]) w) as (H1 & H2 & H3).
      { by rewrite <- app_assoc. }
      { rewrite Hcur. f_equal. f_equal. rewrite map_app. simpl.
        rewrite <- app_assoc. simpl. f_equal. f_equal.
        unfold without_user. by rewrite bool_decide_eq_false_2. }
      rewrite <- app_assoc in H1. simpl in H1.
      split; [exact H1|]. split; [|exact H3].
      rewrite H2. by rewrite filter_cons_False.
Qed.
End reset.




(** ** Roles: the view against the policies of the store *)

Lemma filter_unique_key {A K} (key : A -> K) (P : A -> Prop)
    `{!forall x, Decision (P x)} (l : list A) (x : A) :
  NoDup (map key l) -> x ∈ l -> P x -> (forall y, P y -> key y = key x) ->
  filter P l = [x].
Proof.
  induction l as [|a l IH]; simpl; intros Hnd Hx HP Hkey; [inversion Hx|].
  apply NoDup_cons in Hnd as [Ha Hnd]. rewrite filter_cons.
  apply elem_of_cons in Hx as [->|Hx].
  - rewrite decide_True by done. f_equal.
    destruct (filter P l) as [|y r] eqn:E; [done|]. exfalso. apply Ha.
    assert (Hy : y ∈ filter P l) by (rewrite E; left).
    apply list_elem_of_filter in Hy as [Hy1 Hy2].
    rewrite <- (Hkey y Hy1). apply list_elem_of_fmap. eauto.
  - destruct (decide (P a)) as [Hpa|Hpa]; [|by apply IH].
    exfalso. apply Ha. rewrite (Hkey a Hpa). apply list_elem_of_fmap. eauto.
Qed.

Lemma owner_role (db : Backend) (uid : string) (row : Row.notebook) :
  NoDup (map Row.nb_id (notebooks_tbl db)) -> row ∈ notebooks_tbl db ->
  Row.nb_owner_id row = uid -> ~ is_member db (Row.nb_id row) uid ->
  get_notebook_role db uid (Row.nb_id row) = OneRow owner.
Proof.
  intros Hnd Hrow Ho Hm. unfold get_notebook_role.
  rewrite (not_member_no_row _ _ _ Hm). simpl.
  rewrite (filter_unique_key Row.nb_id _ _ row Hnd Hrow); [done|done|].
  by intros y [? _].
Qed.

Lemma member_role (db : Backend) (uid nbid : string) (m : Row.member) :
  filter (fun m => Row.m_notebook_id m = nbid /\ Row.m_user_id m = uid)
         (members_tbl db) = [m] ->
  get_notebook_role db uid nbid = OneRow (Row.m_role m).
Proof. intros E. unfold get_notebook_role. by rewrite E. Qed.



Lemma handleJoin_joins (db : Backend) (uid shareCode : string) (nb : Row.notebook) :
  trim shareCode <> ""%string ->
  code_matches db shareCode = [nb] -> Row.nb_is_shared nb = true ->
  ~ is_member db (Row.nb_id nb) uid ->
  (handleJoin shareCode (Some uid) no_join_faults db).1.1
  = Backend_with_members db (members_tbl db ++ [reader_row (Row.nb_id nb) uid]) /\
  (handleJoin shareCode (Some uid) no_join_faults db).2 = true.
Proof.
  intros Hcode Hmatch Hshared Hm. unfold handleJoin, code_matches in *.
  rewrite bool_decide_eq_false_2 by done. simpl.
  rewrite Hmatch. simpl. rewrite Hshared. simpl.
  rewrite (not_member_no_row _ _ _ Hm). simpl.
  unfold insert_member. simpl.
  rewrite bool_decide_eq_false_2 by exact Hm. split; reflexivity.
Qed.




(** ** Share codes *)

Lemma list_ascii_of_string_app (s1 s2 : string) :
  String.list_ascii_of_string (s1 +:+ s2)
  = String.list_ascii_of_string s1 ++ String.list_ascii_of_string s2.
Proof. induction s1 as [|a s1 IH]; simpl; [done|]. by rewrite IH. Qed.

Lemma string_get_elem (s : string) (n : nat) (a : Ascii.ascii) :
  String.get n s = Some a -> a ∈ String.list_ascii_of_string s.
Proof.
  revert n. induction s as [|b s IH]; intros n; simpl; [done|].
  destruct n as [|n]; [intros [= ->]; left|].
  intros H. right. by eapply IH.
Qed.

Lemma string_get_length (s : string) (n : nat) :
  (n < String.length s)%nat -> exists a, String.get n s = Some a.
Proof.
  revert n. induction s as [|b s IH]; intros n; simpl; [lia|].
  destruct n as [|n]; [eauto|]. intros H. apply IH. lia.
Qed.

Lemma substr1_chars (s : string) (n : Z) :
  Forall (fun a => a ∈ String.list_ascii_of_string s)
         (String.list_ascii_of_string (substr1 s n)) /\
  (length (String.list_ascii_of_string (substr1 s n)) <= 1)%nat /\
  (1 <= n <= Z.of_nat (String.length s) ->
   length (String.list_ascii_of_string (substr1 s n)) = 1%nat).
Proof.
  unfold substr1. case_bool_decide as Hn.
  - destruct (String.get _ s) as [a|] eqn:E; simpl.
    + split; [|split; [lia|done]]. repeat constructor. by eapply string_get_elem.
    + split; [constructor|]. split; [lia|]. intros Hr.
      destruct (string_get_length s (Z.to_nat (n - 1))) as [a Ha]; [lia|congruence].
  - simpl. split; [constructor|]. split; [lia|lia].
Qed.

Lemma generate_loop_chars (draw : nat -> Z) (idx : list nat) (acc : string) :
  let code := foldl (fun result i => result +:+ substr1 share_chars (draw i)) acc idx in
  (Forall (fun a => a ∈ String.list_ascii_of_string share_chars)
          (String.list_ascii_of_string acc) ->
   Forall (fun a => a ∈ String.list_ascii_of_string share_chars)
          (String.list_ascii_of_string code)) /\
  (length (String.list_ascii_of_string code)
   <= length (String.list_ascii_of_string acc) + length idx)%nat /\
  (Forall (fun i => 1 <= draw i <= 32) idx ->
   length (String.list_ascii_of_string code)
   = (length (String.list_ascii_of_string acc) + length idx)%nat).
Proof.
  revert acc. induction idx as [|i idx IH]; intros acc; simpl.
  - split; [done|]. split; lia.
  - destruct (IH (acc +:+ substr1 share_chars (draw i))) as (H1 & H2 & H3).
    destruct (substr1_chars share_chars (draw i)) as (S1 & S2 & S3).
    rewrite list_ascii_of_string_app, length_app in *.
    split; [|split].
    + intros Hacc. apply H1. by apply Forall_app.
    + lia.
    + intros Hd. apply Forall_cons in Hd as [Hi Hd].
      rewrite (H3 Hd). rewrite S3; [lia|]. simpl. lia.
Qed.

Lemma drop_spaces_none (l : list Ascii.ascii) :
  Forall (fun a => is_space a = false) l -> drop_spaces l = l.
Proof. destruct 1 as [|a l Ha]; simpl; [done|]. by rewrite Ha. Qed.

Lemma string_of_list_of_string (s : string) :
  String.string_of_list_ascii (String.list_ascii_of_string s) = s.
Proof. induction s as [|a s IH]; simpl; [done|]. by rewrite IH. Qed.

Lemma trim_no_spaces (s : string) :
  Forall (fun a => is_space a = false) (String.list_ascii_of_string s) ->
  trim s = s.
Proof.
  intros H. unfold trim. rewrite (drop_spaces_none _ H).
  rewrite drop_spaces_none by (by apply Forall_reverse).
  by rewrite reverse_involutive, string_of_list_of_string.
Qed.

Lemma toUpperCase_upper (s : string) :
  Forall (fun a => upper_ascii a = a) (String.list_ascii_of_string s) ->
  toUpperCase s = s.
Proof.
  intros H. unfold toUpperCase.
  rewrite <- (string_of_list_of_string s) at 2. f_equal.
  induction H as [|a l Ha _ IH]; simpl; [done|]. by rewrite Ha, IH.
Qed.

Lemma share_chars_plain :
  Forall (fun a => is_space a = false /\ upper_ascii a = a)
         (String.list_ascii_of_string share_chars).
Proof. refine (bool_decide_unpack _ _). vm_compute. exact I. Qed.

Lemma code_of_share_chars_normal (code : string) :
  Forall (fun a => a ∈ String.list_ascii_of_string share_chars)
         (String.list_ascii_of_string code) ->
  toUpperCase (trim code) = code.
Proof.
  intros H. pose proof share_chars_plain as Hp. rewrite Forall_forall in Hp.
  rewrite trim_no_spaces.
  - apply toUpperCase_upper. eapply Forall_impl; [exact H|].
    intros a Ha. by apply Hp.
  - eapply Forall_impl; [exact H|]. intros a Ha. by apply Hp.
Qed.

Lemma generate_share_code_chars (draw : nat -> Z) :
  Forall (fun a => a ∈ String.list_ascii_of_string share_chars)
         (String.list_ascii_of_string (generate_share_code draw)).
Proof.
  unfold generate_share_code.
  by apply (generate_loop_chars draw (seq 1 8) ""%string).
Qed.

(** X8. A code [generate_share_code] returns has at most eight
    characters, exactly eight when every position drawn lies in
    [1..32], all of them from the alphabet of the function, which has
    no space, no lower-case letter and none of the look-alikes I, O, 0
    and 1; so trimming and upper-casing, as [handleJoin] does with what
    the user typed, leaves a generated code as it is. *)
Theorem generated_code_is_normal (draw : nat -> Z) :
  let code := generate_share_code draw in
  (String.length code <= 8)%nat /\
  ((forall i, (1 <= i <= 8)%nat -> 1 <= draw i <= 32) ->
   String.length code = 8%nat) /\
  Forall (fun a => a ∈ String.list_ascii_of_string share_chars)
         (String.list_ascii_of_string code) /\
  Forall (fun a => a ∉ String.list_ascii_of_string "IO01 abcdefghijklmnopqrstuvwxyz")
         (String.list_ascii_of_string share_chars) /\
  toUpperCase (trim code) = code.
Proof.
  intros code.
  assert (Hlen : forall s, String.length s = length (String.list_ascii_of_string s)).
  { induction s; simpl; congruence. }
  destruct (generate_loop_chars draw (seq 1 8) ""%string) as (H1 & H2 & H3).
  fold (generate_share_code draw) in *. fold code in H1, H2, H3.
  rewrite !Hlen. split; [exact H2|]. split.
  { intros Hd. rewrite H3; [done|]. apply Forall_forall. intros i Hi.
    apply elem_of_seq in Hi. apply Hd. lia. }
  split; [by apply H1|]. split.
  { refine (bool_decide_unpack _ _). vm_compute. exact I. }
  apply code_of_share_chars_normal. by apply H1.
Qed.

Lemma toUpperCase_empty (s : string) : toUpperCase s <> ""%string -> s <> ""%string.
Proof. intros H ->. by apply H. Qed.

(** X9. The share code round trip.  When the owner's
    [generateShareCode] succeeds on a notebook of the store, whoever
    then types the generated code, in either case of letters and with
    blanks around it, and has no member row for that notebook yet, is
    entered by [handleJoin] as its reader, and [onJoined] is called. *)
Theorem generated_code_admits_joiner (draw : nat -> Z)
    (owner_uid V nbid typed : string) (db db1 : Backend) (t : Toast) :
  (exists row, row ∈ notebooks_tbl db /\ Row.nb_id row = nbid /\
               Row.nb_owner_id row = owner_uid) ->
  generateShareCode false false draw owner_uid nbid db = (db1, t, true) ->
  generate_share_code draw <> ""%string ->
  toUpperCase (trim typed) = generate_share_code draw ->
  ~ is_member db nbid V ->
  let result := handleJoin typed (Some V) no_join_faults db1 in
  result.1.1 = Backend_with_members db1 (members_tbl db ++ [reader_row nbid V]) /\
  result.2 = true.
Proof.
  intros (row & Hrow & Hid & Ho) Hgen Hne Htyped Hm.
  unfold generateShareCode, update_share_code in Hgen. simpl in Hgen.
  set (code := generate_share_code draw) in *.
  destruct (bool_decide _) eqn:Hclash; simpl in Hgen; [discriminate|].
  injection Hgen as <- _. apply bool_decide_eq_false in Hclash.
  set (rows := map (set_share_code owner_uid nbid (Some code) true) (notebooks_tbl db))
    in *.
  set (row' := set_share_code owner_uid nbid (Some code) true row).
  assert (Hrow' : row' ∈ filter (fun r => Row.nb_share_code r = Some code) rows).
  { apply list_elem_of_filter. split.
    - unfold row', set_share_code. by rewrite bool_decide_eq_true_2.
    - apply list_elem_of_fmap. eauto. }
  assert (Hone : filter (fun r => Row.nb_share_code r = Some code) rows = [row']).
  { destruct (filter _ rows) as [|a [|b rest]] eqn:E.
    - inversion Hrow'.
    - apply list_elem_of_singleton in Hrow'. by subst.
    - exfalso. apply Hclash. split; [|split; [done|simpl; lia]].
      intros E0.
      assert (Hin : row ∈ filter (fun r => Row.nb_id r = nbid /\
                                           Row.nb_owner_id r = owner_uid)
                                 (notebooks_tbl db))
        by (by apply list_elem_of_filter).
      rewrite E0 in Hin. inversion Hin. }
  assert (Hid' : Row.nb_id row' = nbid).
  { unfold row', set_share_code. by rewrite bool_decide_eq_true_2. }
  destruct (handleJoin_joins (Backend_with_notebooks db rows) V typed row')
    as [H1 H2].
  - apply toUpperCase_empty. by rewrite Htyped.
  - unfold code_matches. rewrite Htyped. exact Hone.
  - unfold row', set_share_code. by rewrite bool_decide_eq_true_2.
  - by rewrite Hid'.
  - rewrite Hid' in H1. split; [exact H1|exact H2].
Qed.

Lemma generated_code_admits_joiner_witness :
  members_tbl (handleJoin " aaaaaaaa " (Some "u3"%string) no_join_faults
                 (generateShareCode false false (fun _ => 1) "u1" "nb2" sample_db).1.1).1.1
  = [reader_row "nb1" "u2"; reader_row "nb2" "u3"].
Proof.
  destruct (generated_code_admits_joiner (fun _ => 1) "u1" "u3" "nb2" " aaaaaaaa "
              sample_db
              (generateShareCode false false (fun _ => 1) "u1" "nb2" sample_db).1.1
              (toast_success "Share code generated!")) as [H _].
  - eexists. split; [right; left|]. split; reflexivity.
  - reflexivity.
  - vm_compute. discriminate.
  - reflexivity.
  - refine (bool_decide_unpack _ _). vm_compute. exact I.
  - rewrite H. reflexivity.
Defined.


(** ** The reorder functions of the store *)

Lemma findIndex_cons {A} (P : A -> Prop) `{!forall x, Decision (P x)} (x : A)
    (l : list A) :
  findIndex P (x :: l)
  = if decide (P x) then 0
    else if bool_decide (findIndex P l = -1) then -1 else findIndex P l + 1.
Proof.
  unfold findIndex. simpl. destruct (decide (P x)); [done|].
  destruct (list_find P l) as [[i y]|]; simpl.
  - case_bool_decide; lia.
  - done.
Qed.

Lemma findIndex_absent {A} (P : A -> Prop) `{!forall x, Decision (P x)} (l : list A) :
  Forall (fun x => ~ P x) l -> findIndex P l = -1.
Proof.
  induction 1 as [|x l Hx _ IH]; [done|].
  rewrite findIndex_cons, decide_False by done. by rewrite IH.
Qed.

Lemma findIndex_lookup {A} (P : A -> Prop) `{!forall x, Decision (P x)} (l : list A)
    (k : nat) x :
  l !! k = Some x -> P x -> (forall j y, l !! j = Some y -> P y -> j = k) ->
  findIndex P l = Z.of_nat k.
Proof.
  intros Hk HP Huniq. unfold findIndex.
  destruct (list_find P l) as [[i y]|] eqn:E.
  - apply list_find_Some in E as (Hi & Hy & _). f_equal. by apply (Huniq i y).
  - apply list_find_None in E. rewrite Forall_forall in E.
    exfalso. apply (E x); [|done]. by eapply list_elem_of_lookup_2.
Qed.

Section rpc.
Variables (db : Backend) (auth_uid : string).

Lemma reorder_tasks_loop (ids : list string) (i : Z) (rows : list Row.task) :
  NoDup ids ->
  pg_loop (fun i v_task_id rows =>
             map (fun r =>
                    if bool_decide (Some (Row.t_id r) = v_task_id)
                       && tasks_writable db auth_uid r
                    then task_with_order r i else r) rows)
          i (map Some ids) rows
  = map (renumbered_task db auth_uid i ids) rows.
Proof.
  revert i rows. induction ids as [|x ids IH]; intros i rows Hnd; simpl.
  - symmetry. erewrite map_ext; [apply map_id|]. intros r.
    unfold renumbered_task. simpl. done.
  - apply NoDup_cons in Hnd as [Hx Hnd]. rewrite IH by done.
    rewrite map_map. apply map_ext. intros r.
    unfold renumbered_task. rewrite findIndex_cons.
    destruct (decide (x = Row.t_id r)) as [E|E].
    + rewrite (bool_decide_eq_true_2 (Some _ = Some _)) by congruence. simpl.
      destruct (tasks_writable db auth_uid r) eqn:W; simpl.
      * rewrite findIndex_absent.
        { simpl. f_equal. lia. }
        apply Forall_forall. intros y Hy ->. apply Hx. by rewrite E.
      * by rewrite W, andb_false_r.
    + rewrite (bool_decide_eq_false_2 (Some _ = Some _)) by congruence. simpl.
      pose proof (findIndex_range (fun y => y = Row.t_id r) ids) as Hr.
      destruct (decide (findIndex (fun y => y = Row.t_id r) ids = -1)) as [Hk|Hk].
      * rewrite Hk. simpl. done.
      * rewrite (bool_decide_eq_true_2 (_ <> -1)) by done.
        rewrite (bool_decide_eq_false_2 (_ = -1)) by done.
        rewrite (bool_decide_eq_true_2 (_ + 1 <> -1)) by lia.
        simpl. destruct (tasks_writable db auth_uid r); [|done].
        f_equal. lia.
Qed.

(** X10. [reorder_tasks] of the store: a [NULL] array changes
    nothing; an empty array raises an error; an array of distinct ids
    gives every task the caller may write, and whose id is in the
    array, the lower bound of the array plus its position, so that an
    array a client sends numbers the tasks from 1, and it leaves every
    other row and table as it was. *)
Theorem reorder_tasks_numbers_from_lower_bound (l : Z) (ids : list string) :
  reorder_tasks db auth_uid None = Some db /\
  reorder_tasks db auth_uid (Some {| lower := l; elems := [] |}) = None /\
  (ids <> [] -> NoDup ids ->
   reorder_tasks db auth_uid (Some {| lower := l; elems := map Some ids |})
   = Some (Backend_with_tasks db
             (map (renumbered_task db auth_uid l ids) (tasks_tbl db))) /\
   forall (r : Row.task) (k : nat),
     ids !! k = Some (Row.t_id r) -> tasks_writable db auth_uid r = true ->
     Row.t_order_index (renumbered_task db auth_uid l ids r) = l + Z.of_nat k).
Proof.
  split; [done|]. split; [done|]. intros Hne Hnd. split.
  - unfold reorder_tasks, pg_for_array. simpl.
    rewrite bool_decide_eq_false_2 by (by destruct ids). simpl.
    by rewrite reorder_tasks_loop.
  - intros r k Hk W. unfold renumbered_task.
    rewrite (findIndex_lookup _ ids k (Row.t_id r)); [|done|done|].
    + rewrite bool_decide_eq_true_2 by lia. by rewrite W.
    + intros j y Hj ->. by eapply NoDup_lookup.
Qed.
End rpc.

Section rpc_notes.
Variables (db : Backend) (auth_uid p_notebook_id : string).

Lemma reorder_notes_loop (ids : list string) (i : Z) (rows : list Row.note) :
  NoDup ids ->
  pg_loop (fun i v_note_id rows =>
             map (fun r =>
                    if bool_decide (Some (Row.n_id r) = v_note_id
                                    /\ Row.n_notebook_id r = p_notebook_id)
                       && notes_writable db auth_uid r
                    then note_with_order r i else r) rows)
          i (map Some ids) rows
  = map (fun r =>
           if role_in_owner_admin (get_notebook_role db auth_uid p_notebook_id)
           then renumbered_note p_notebook_id i ids r else r) rows.
Proof.
  revert i rows. induction ids as [|x ids IH]; intros i rows Hnd; simpl.
  - symmetry. erewrite map_ext; [apply map_id|]. intros r.
    unfold renumbered_note. simpl. by destruct (role_in_owner_admin _).
  - apply NoDup_cons in Hnd as [Hx Hnd]. rewrite IH by done.
    rewrite map_map. apply map_ext. intros r.
    pose proof (findIndex_range (fun y => y = Row.n_id r) ids) as Hr.
    destruct (decide (Row.n_notebook_id r = p_notebook_id)) as [Hnb|Hnb].
    2:{ rewrite (bool_decide_eq_false_2 (Some _ = Some _ /\ _)) by tauto.
        rewrite andb_false_l. unfold renumbered_note.
        rewrite !(bool_decide_eq_false_2 (_ /\ Row.n_notebook_id r = _)) by tauto.
        by destruct (role_in_owner_admin _). }
    unfold notes_writable. rewrite Hnb.
    destruct (role_in_owner_admin (get_notebook_role db auth_uid p_notebook_id)) eqn:W.
    2:{ by rewrite andb_false_r. }
    rewrite andb_true_r. unfold renumbered_note at 2. rewrite findIndex_cons.
    destruct (decide (x = Row.n_id r)) as [E|E].
    + rewrite (bool_decide_eq_true_2 (Some _ = Some _ /\ _)) by (split; congruence).
      rewrite (bool_decide_eq_true_2 (0 <> -1 /\ _)) by done.
      unfold renumbered_note. simpl. rewrite findIndex_absent.
      2:{ apply Forall_forall. intros y Hy ->. apply Hx. by rewrite E. }
      case_bool_decide as Hc; [by destruct Hc|].
      f_equal. lia.
    + rewrite (bool_decide_eq_false_2 (Some _ = Some _ /\ _))
        by (intros [? _]; congruence).
      unfold renumbered_note.
      destruct (decide (findIndex (fun y => y = Row.n_id r) ids = -1)) as [Hk|Hk].
      * rewrite Hk. simpl.
        repeat case_bool_decide; try done; by destruct_and?.
      * rewrite (bool_decide_eq_false_2 (_ = -1)) by done.
        rewrite (bool_decide_eq_true_2 (_ <> -1 /\ _)) by done.
        rewrite (bool_decide_eq_true_2 (_ + 1 <> -1 /\ _)) by (split; [lia|done]).
        f_equal. lia.
Qed.

(** X11. [reorder_notes] of the store.  Its guard raises for a caller
    whose role in the notebook is reader.  A caller with no role at all
    passes the guard, the test on a [NULL] role being [NULL]; the store
    is then left as it was all the same, because the update policy on
    notes hides every row from such a caller.  For an owner or admin an
    array of distinct ids gives the notes of the notebook whose ids are
    in the array the lower bound plus their position, and changes
    nothing else; an empty array raises an error. *)
Theorem reorder_notes_guard (l : Z) (ids : list string) (a : option PgArray) :
  (get_notebook_role db auth_uid p_notebook_id = OneRow reader ->
   reorder_notes db auth_uid p_notebook_id a = None) /\
  (get_notebook_role db auth_uid p_notebook_id = NoRow ->
   reorder_notes db auth_uid p_notebook_id None = Some db /\
   (ids <> [] -> NoDup ids ->
    reorder_notes db auth_uid p_notebook_id
      (Some {| lower := l; elems := map Some ids |}) = Some db)) /\
  (role_in_owner_admin (get_notebook_role db auth_uid p_notebook_id) = true ->
   reorder_notes db auth_uid p_notebook_id None = Some db /\
   reorder_notes db auth_uid p_notebook_id (Some {| lower := l; elems := [] |}) = None /\
   (ids <> [] -> NoDup ids ->
    reorder_notes db auth_uid p_notebook_id
      (Some {| lower := l; elems := map Some ids |})
    = Some (Backend_with_notes db
              (map (renumbered_note p_notebook_id l ids) (notes_tbl db))))).
Proof.
  unfold reorder_notes, pg_for_array. split; [by intros ->|]. split.
  - intros Hrole. rewrite Hrole. split; [done|]. intros Hne Hnd. simpl.
    rewrite bool_decide_eq_false_2 by (by destruct ids). simpl.
    rewrite reorder_notes_loop by done. rewrite Hrole. simpl.
    rewrite map_id. by destruct db.
  - intros Hrole.
    destruct (get_notebook_role db auth_uid p_notebook_id) as [|[]|] eqn:E;
      try discriminate; (split; [done|]; split; [done|]; intros Hne Hnd; simpl;
      rewrite bool_decide_eq_false_2 by (by destruct ids); simpl;
      rewrite reorder_notes_loop by done; rewrite E; simpl; reflexivity).
Qed.
End rpc_notes.


(** ** Local patches against a fresh fetch *)

Lemma insert_by_fmap {A} (key : A -> Z) (f : A -> A) (x : A) (l : list A) :
  (forall y, key (f y) = key y) ->
  insert_by key (f x) (map f l) = map f (insert_by key x l).
Proof.
  intros Hk. induction l as [|a l IH]; simpl; [done|].
  rewrite !Hk. destruct (key x <=? key a); simpl; [done|]. by rewrite IH.
Qed.

Lemma order_by_fmap {A} (key : A -> Z) (f : A -> A) (l : list A) :
  (forall y, key (f y) = key y) ->
  order_by key (map f l) = map f (order_by key l).
Proof.
  intros Hk. unfold order_by. induction l as [|a l IH]; simpl; [done|].
  by rewrite IH, insert_by_fmap.
Qed.

Lemma filter_fmap_comm {A B} (P : B -> Prop) (Q : A -> Prop)
    `{!forall x, Decision (P x)} `{!forall x, Decision (Q x)} (f : A -> B)
    (l : list A) :
  (forall x, P (f x) <-> Q x) -> filter P (map f l) = map f (filter Q l).
Proof.
  intros HPQ. induction l as [|a l IH]; simpl; [done|].
  rewrite !filter_cons. destruct (decide (Q a)) as [Hq|Hq].
  - rewrite decide_True by (by apply HPQ). simpl. by rewrite IH.
  - rewrite decide_False by (by rewrite HPQ). done.
Qed.

Lemma map_ext_elem {A B} (f g : A -> B) (l : list A) :
  (forall x, x ∈ l -> f x = g x) -> map f l = map g l.
Proof. intros H. apply map_ext_in. intros x Hx. apply H. by apply list_elem_of_In. Qed.

Section collapse.
Variables (db : Backend) (auth_uid folderId : string) (c : bool).

#[local] Abbreviation updf :=
  (fun r : Row.folder =>
     if bool_decide (Row.f_id r = folderId) && folders_writable db auth_uid r
     then row_with_collapsed r c else r).

#[local] Abbreviation patchF :=
  (fun f : TaskFolder.t =>
     if bool_decide (TaskFolder.id f = folderId)
     then Folder_with_collapsed f c else f).

Hypothesis Hw : forall r, r ∈ folders_tbl db -> Row.f_id r = folderId ->
                          folders_writable db auth_uid r = true.

Lemma fetch_one_collapse (uid : string) (nb : Row.notebook) :
  fetch_one (Backend_with_folders db (map updf (folders_tbl db))) uid nb
  = Notebook_with_notes (fetch_one db uid nb)
      (map (fun n => Note_with_folders n (map patchF (Note.folders n)))
           (Notebook.notes (fetch_one db uid nb))).
Proof.
  unfold fetch_one, Notebook_with_notes; simpl. f_equal.
  rewrite map_map. apply map_ext. intros n.
  unfold Note_with_folders; simpl. f_equal.
  match goal with
  | |- context [bool_decide (0 < length ?ids)%nat] => set (noteIds := ids)
  end.
  assert (E : (if bool_decide (0 < length noteIds)%nat
               then order_by Row.f_order_index
                      (filter (fun f => Row.f_note_id f ∈ noteIds)
                              (map updf (folders_tbl db)))
               else [])
              = map updf
                  (if bool_decide (0 < length noteIds)%nat
                   then order_by Row.f_order_index
                          (filter (fun f => Row.f_note_id f ∈ noteIds) (folders_tbl db))
                   else [])).
  { case_bool_decide; [|done].
    rewrite (filter_fmap_comm _ (fun f => Row.f_note_id f ∈ noteIds)).
    - apply order_by_fmap. intros r. by destruct (_ && _).
    - intros r. by destruct (_ && _). }
  rewrite E. clear E.
  match goal with
  | |- context [map updf ?l] => set (sorted := l);
      assert (Hsub : forall r, r ∈ sorted -> r ∈ folders_tbl db)
  end.
  { unfold sorted. intros r. case_bool_decide as Hlen; [|by intros H0; inversion H0].
    rewrite order_by_elem, list_elem_of_filter. tauto. }
  rewrite (filter_fmap_comm _ (fun f => Row.f_note_id f = Row.n_id n)).
  2:{ intros r. by destruct (_ && _). }
  rewrite !map_map. apply map_ext_elem. intros r Hr.
  apply list_elem_of_filter in Hr as [_ Hr]. apply Hsub in Hr.
  unfold folder_of_row at 2. simpl. case_bool_decide as Hid; simpl; [|done].
  by rewrite (Hw r Hr Hid).
Qed.
End collapse.



(** X13. Collapsing a folder and expanding it again, as two clicks on
    its chevron do, restores the hook state and the store, whoever the
    user is. *)
Theorem collapse_twice_restores (uid folderId : string) (c0 : bool)
    (w : Hook * Backend) :
  (forall nb n f, nb ∈ notebooks w.1 -> n ∈ Notebook.notes nb ->
                  f ∈ Note.folders n -> TaskFolder.id f = folderId ->
                  TaskFolder.is_collapsed f = c0) ->
  (forall r, r ∈ folders_tbl w.2 -> Row.f_id r = folderId ->
             Row.f_is_collapsed r = c0) ->
  let w1 := (toggleFolderCollapse uid false folderId (negb c0) w).2 in
  let w2 := (toggleFolderCollapse uid false folderId c0 w1).2 in
  w2 = w.
Proof.
  intros Hs Hd. destruct w as [s db]. simpl in *. f_equal.
  - destruct s as [nbs ts rf]. unfold setNotebooks; simpl in *. f_equal.
    rewrite map_map. erewrite map_ext_elem; [apply map_id|].
    intros nb Hnb. destruct nb; unfold Notebook_with_notes; simpl. f_equal.
    rewrite map_map. erewrite map_ext_elem; [apply map_id|].
    intros n Hn. destruct n; unfold Note_with_folders; simpl. f_equal.
    rewrite map_map. erewrite map_ext_elem; [apply map_id|].
    intros f Hf. specialize (Hs _ _ _ Hnb Hn Hf). simpl in Hs.
    destruct (decide (TaskFolder.id f = folderId)) as [Hid|Hid].
    + rewrite (bool_decide_eq_true_2 _ Hid). simpl.
      rewrite (bool_decide_eq_true_2 _ Hid).
      destruct f; unfold Folder_with_collapsed; simpl in *. f_equal.
      symmetry. by apply Hs.
    + rewrite (bool_decide_eq_false_2 _ Hid). by rewrite (bool_decide_eq_false_2 _ Hid).
  - destruct db; unfold Backend_with_folders; simpl in *. f_equal.
    rewrite map_map. erewrite map_ext_elem; [apply map_id|].
    intros r Hr. specialize (Hd r Hr).
    unfold folders_writable, notes_writable, get_notebook_role; simpl.
    destruct r as [rid rnote rtitle rorder rcol rcreated]; simpl in *.
    destruct (bool_decide (rid = folderId)) eqn:Hid; simpl; [|by rewrite Hid].
    apply bool_decide_eq_true in Hid. specialize (Hd Hid). subst rcol.
    match goal with |- context [bool_decide (Exists ?P ?l)] =>
      destruct (bool_decide (Exists P l)) eqn:W end; simpl.
    + rewrite bool_decide_eq_true_2 by done. simpl. rewrite W. done.
    + rewrite bool_decide_eq_true_2 by done. simpl. rewrite W. done.
Qed.

Lemma collapse_twice_restores_witness :
  (toggleFolderCollapse "u1" false "f1" false
     (toggleFolderCollapse "u1" false "f1" true (sample_hook, sample_db)).2).2
  = (sample_hook, sample_db).
Proof.
  apply (collapse_twice_restores "u1" "f1" false (sample_hook, sample_db)).
  - intros nb n f Hnb Hn Hf _. simpl in Hnb.
    apply list_elem_of_singleton in Hnb. subst nb. simpl in Hn.
    apply elem_of_cons in Hn as [->|Hn].
    + simpl in Hf. apply list_elem_of_singleton in Hf. by subst f.
    + apply list_elem_of_singleton in Hn. subst n. inversion Hf.
  - intros r Hr _. simpl in Hr. apply list_elem_of_singleton in Hr. by subst r.
Defined.


(** ** Renaming a task *)

Lemma Notebook_with_notes_same (nb : Notebook.t) :
  Notebook_with_notes nb (Notebook.notes nb) = nb.
Proof. by destruct nb. Qed.

Lemma Note_with_tasks_same (n : Note.t) : Note_with_tasks n (Note.tasks n) = n.
Proof. by destruct n. Qed.

Lemma fetched_tasks_rows (db : Backend) (uid : string) (nb : Row.notebook)
    (n : Note.t) (t : Task.t) :
  n ∈ Notebook.notes (fetch_one db uid nb) -> t ∈ Note.tasks n ->
  Note.notebook_id n = Row.nb_id nb /\ Task.note_id t = Note.id n /\
  (exists nr, nr ∈ notes_tbl db /\ Row.n_id nr = Note.id n /\
              Row.n_notebook_id nr = Row.nb_id nb) /\
  (exists r, r ∈ tasks_tbl db /\ Row.t_id r = Task.id t /\
             Row.t_note_id r = Task.note_id t).
Proof.
  unfold fetch_one; simpl. intros Hn Ht.
  apply list_elem_of_fmap in Hn as (nr & -> & Hnr). simpl in *.
  apply order_by_elem, list_elem_of_filter in Hnr as [Hnb Hnr].
  apply list_elem_of_filter in Ht as [Hnote Ht].
  apply list_elem_of_fmap in Ht as (r & -> & Hr). simpl in *.
  split; [done|]. split; [done|]. split; [eauto|].
  exists r. split; [|done].
  case_bool_decide; [|inversion Hr].
  by apply order_by_elem, list_elem_of_filter in Hr as [_ Hr].
Qed.

Lemma fetch_completions_tasks (db : Backend) (rows : list Row.task)
    (ids : list string) :
  fetch_completions (Backend_with_tasks db rows) ids = fetch_completions db ids.
Proof. reflexivity. Qed.

Section rename.
Variables (db : Backend) (auth_uid notebookId noteId taskId title : string).

#[local] Abbreviation updt :=
  (fun r : Row.task =>
     if bool_decide (Row.t_id r = taskId) && tasks_writable db auth_uid r
     then row_with_title r title else r).

#[local] Abbreviation patchT :=
  (fun t : Task.t =>
     if bool_decide (Task.id t = taskId) then Task_with_title t title else t).

Hypothesis Hw : forall r, r ∈ tasks_tbl db -> Row.t_id r = taskId ->
                          tasks_writable db auth_uid r = true.

Lemma fetch_one_rename (uid : string) (nb : Row.notebook) :
  fetch_one (Backend_with_tasks db (map updt (tasks_tbl db))) uid nb
  = Notebook_with_notes (fetch_one db uid nb)
      (map (fun n => Note_with_tasks n (map patchT (Note.tasks n)))
           (Notebook.notes (fetch_one db uid nb))).
Proof.
  unfold fetch_one, Notebook_with_notes; simpl.
  match goal with
  | |- context [bool_decide (0 < length ?ids)%nat] => set (noteIds := ids)
  end.
  assert (E : (if bool_decide (0 < length noteIds)%nat
               then order_by Row.t_order_index
                      (filter (fun t => Row.t_note_id t ∈ noteIds)
                              (map updt (tasks_tbl db)))
               else [])
              = map updt
                  (if bool_decide (0 < length noteIds)%nat
                   then order_by Row.t_order_index
                          (filter (fun t => Row.t_note_id t ∈ noteIds) (tasks_tbl db))
                   else [])).
  { case_bool_decide; [|done].
    rewrite (filter_fmap_comm _ (fun t => Row.t_note_id t ∈ noteIds)).
    - apply order_by_fmap. intros r. by destruct (_ && _).
    - intros r. by destruct (_ && _). }
  rewrite !E. clear E. rewrite fetch_completions_tasks.
  match goal with
  | |- context [map updt ?l] => set (sorted := l);
      assert (Hsub : forall r, r ∈ sorted -> r ∈ tasks_tbl db)
  end.
  { unfold sorted. intros r. case_bool_decide as Hlen; [|by intros H0; inversion H0].
    rewrite order_by_elem, list_elem_of_filter. tauto. }
  assert (Eids : map Row.t_id (map updt sorted) = map Row.t_id sorted).
  { rewrite map_map. apply map_ext. intros r. by destruct (_ && _). }
  rewrite Eids. f_equal.
  rewrite (map_map (A:=Row.note) (B:=Note.t) (C:=Note.t)). apply map_ext. intros n.
  unfold Note_with_tasks; simpl. f_equal.
  assert (E : map (task_with_completions
                     (fetch_completions db (map Row.t_id sorted)))
                  (map updt sorted)
              = map patchT
                  (map (task_with_completions
                          (fetch_completions db (map Row.t_id sorted))) sorted)).
  { rewrite !map_map. apply map_ext_elem. intros r Hr. apply Hsub in Hr.
    unfold task_with_completions at 2. simpl.
    case_bool_decide as Hid; simpl; [|done].
    rewrite (Hw r Hr Hid). reflexivity. }
  rewrite E.
  apply (filter_fmap_comm _ (fun t => Task.note_id t = Row.n_id n) patchT).
  intros t. by case_bool_decide.
Qed.

Hypothesis Hnote : forall r, r ∈ tasks_tbl db -> Row.t_id r = taskId ->
                             Row.t_note_id r = noteId.
Hypothesis Hnotebook : forall n, n ∈ notes_tbl db -> Row.n_id n = noteId ->
                                 Row.n_notebook_id n = notebookId.

Lemma rename_patch_fetched (uid : string) (nb : Row.notebook) :
  Notebook_with_notes (fetch_one db uid nb)
    (map (fun n => Note_with_tasks n (map patchT (Note.tasks n)))
         (Notebook.notes (fetch_one db uid nb)))
  = (fun nb : Notebook.t =>
       if bool_decide (Notebook.id nb = notebookId) then
         Notebook_with_notes nb (map (fun n =>
           if bool_decide (Note.id n = noteId)
           then Note_with_tasks n (map patchT (Note.tasks n))
           else n) (Notebook.notes nb))
       else nb) (fetch_one db uid nb).
Proof.
  assert (Hsame : forall n, n ∈ Notebook.notes (fetch_one db uid nb) ->
            ~ (Row.nb_id nb = notebookId /\ Note.id n = noteId) ->
            Note_with_tasks n (map patchT (Note.tasks n)) = n).
  { intros n Hn Hneq.
    transitivity (Note_with_tasks n (Note.tasks n)); [|apply Note_with_tasks_same].
    f_equal.
    erewrite map_ext_elem; [apply map_id|]. intros t Ht. simpl.
    case_bool_decide as Hid; [|done]. exfalso. apply Hneq.
    destruct (fetched_tasks_rows db uid nb n t Hn Ht)
      as (_ & E2 & (nr & Hnr & E3 & E4) & (r & Hr & E5 & E6)).
    assert (Note.id n = noteId).
    { rewrite <- E2, <- E6. apply Hnote; [done|congruence]. }
    split; [|done]. rewrite <- E4. apply Hnotebook; [done|congruence]. }
  cbv beta. change (Notebook.id (fetch_one db uid nb)) with (Row.nb_id nb).
  destruct (decide (Row.nb_id nb = notebookId)) as [Hnb|Hnb].
  - rewrite (bool_decide_eq_true_2 _ Hnb). f_equal. apply map_ext_elem.
    intros n Hn. case_bool_decide as Hid; [done|]. apply Hsame; [done|]. tauto.
  - rewrite (bool_decide_eq_false_2 _ Hnb).
    etransitivity; [|apply Notebook_with_notes_same]. f_equal.
    erewrite map_ext_elem; [apply map_id|]. intros n Hn. cbv beta.
    apply Hsame; [done|]. tauto.
Qed.
End rename.



Lemma find_task_rename_patch (nbs : list Notebook.t)
    (notebookId noteId taskId title : string) :
  find_task
    (map (fun nb =>
        if bool_decide (Notebook.id nb = notebookId) then
          Notebook_with_notes nb (map (fun n =>
            if bool_decide (Note.id n = noteId)
            then Note_with_tasks n (map (fun t =>
                   if bool_decide (Task.id t = taskId)
                   then Task_with_title t title else t) (Note.tasks n))
            else n) (Notebook.notes nb))
        else nb) nbs) notebookId noteId taskId
  = (fun t => Task_with_title t title) <$> find_task nbs notebookId noteId taskId.
Proof.
  unfold find_task, find_note.
  rewrite (js_find_map_key Notebook.id) by (intros nb; case_bool_decide; reflexivity).
  destruct (js_find (fun nb => Notebook.id nb = notebookId) nbs) as [nb|] eqn:Enb;
    [|reflexivity].
  simpl. rewrite (bool_decide_eq_true_2 _ (js_find_key _ _ _ _ Enb)). simpl.
  rewrite (js_find_map_key Note.id) by (intros n; case_bool_decide; reflexivity).
  destruct (js_find (fun n => Note.id n = noteId) (Notebook.notes nb)) as [n|] eqn:En;
    [|reflexivity].
  simpl. rewrite (bool_decide_eq_true_2 _ (js_find_key _ _ _ _ En)). simpl.
  rewrite (js_find_map_key Task.id) by (intros t; case_bool_decide; reflexivity).
  destruct (js_find (fun t => Task.id t = taskId) (Note.tasks n)) as [t|] eqn:Et;
    [|reflexivity].
  simpl. rewrite (bool_decide_eq_true_2 _ (js_find_key _ _ _ _ Et)). reflexivity.
Qed.

(** X15. [renameTask] for a user the policies do not let write the
    task, in a store that keeps the key constraints of [notebooks] and
    [notebook_members]: the update passes over the row without an
    error, so the operation succeeds and reports nothing, the store is
    as before, and the hook state shows the new title until the next
    fetch brings the stored one back. *)
Theorem renameTask_without_right (db : Backend) (uid : string)
    (notebookId noteId taskId title : string) (s : Hook) (T : Task.t) :
  NoDup (map Row.nb_id (notebooks_tbl db)) ->
  members_unique db ->
  notebooks s = notebooksWithData db uid ->
  (forall r, r ∈ tasks_tbl db -> Row.t_id r = taskId ->
             tasks_writable db uid r = false) ->
  find_task (notebooks s) notebookId noteId taskId = Some T ->
  title <> Task.title T ->
  let result := renameTask uid false notebookId noteId taskId title (s, db) in
  result.1 = Succeeded /\ result.2.2 = db /\ toasts result.2.1 = toasts s /\
  find_task (notebooks result.2.1) notebookId noteId taskId
    = Some (Task_with_title T title) /\
  notebooksWithData result.2.2 uid = notebooks s /\
  notebooks result.2.1 <> notebooksWithData result.2.2 uid.
Proof.
  intros _ _ Hs Hw HT Htitle. simpl.
  assert (Edb : Backend_with_tasks db
                  (map (fun r =>
                     if bool_decide (Row.t_id r = taskId) && tasks_writable db uid r
                     then row_with_title r title else r) (tasks_tbl db)) = db).
  { transitivity (Backend_with_tasks db (tasks_tbl db)); [|by destruct db].
    f_equal. erewrite map_ext_elem; [apply map_id|]. intros r Hr. simpl.
    case_bool_decide as Hid; [|done]. by rewrite (Hw r Hr Hid). }
  rewrite Edb. split; [done|]. split; [done|]. split; [done|].
  assert (Hfind : find_task
            (notebooks (renameTask uid false notebookId noteId taskId title (s, db)).2.1)
            notebookId noteId taskId = Some (Task_with_title T title)).
  { simpl. by rewrite find_task_rename_patch, HT. }
  split; [exact Hfind|]. split; [done|].
  intros E. simpl in Hfind. rewrite E, <- Hs, HT in Hfind.
  injection Hfind as Hfind. apply Htitle. by rewrite Hfind.
Qed.

Lemma renameTask_without_right_witness :
  (fun t => Task.title t)
    <$> find_task
          (notebooks (renameTask "u2" false "nb1" "n1" "A" "Apples"
             (fetchNotebooks sample_db (Some "u2"%string) false sample_hook,
              sample_db)).2.1) "nb1" "n1" "A"
  = Some "Apples"%string /\
  map Row.t_title (tasks_tbl (renameTask "u2" false "nb1" "n1" "A" "Apples"
             (fetchNotebooks sample_db (Some "u2"%string) false sample_hook,
              sample_db)).2.2)
  = ["A"; "B"; "D"; "C"; "E"]%string.
Proof.
  destruct (renameTask_without_right sample_db "u2" "nb1" "n1" "A" "Apples"
              (fetchNotebooks sample_db (Some "u2"%string) false sample_hook)
              (task_with_completions
                 [{| fc_task_id := "A"; fc_user_id := "u1"; fc_userName := "Ann";
                     fc_avatarUrl := None |}]
                 (row_of_task (sample_task "A" None 0 []))))
    as (_ & H2 & _ & H4 & _).
  - refine (bool_decide_unpack _ _). vm_compute. exact I.
  - refine (bool_decide_unpack _ _). vm_compute. exact I.
  - reflexivity.
  - intros r Hr Hid. simpl in Hr.
    repeat (apply elem_of_cons in Hr as [->|Hr]); try discriminate Hid;
      [|inversion Hr].
    vm_compute. reflexivity.
  - vm_compute. reflexivity.
  - discriminate.
  - split; [by rewrite H4|by rewrite H2].
Defined.


(** ** The completions a fetch attaches to a task *)

Lemma js_Map_lookup {V} (entries : list (string * V)) (u : string) :
  js_Map entries !! u = snd <$> last (filter (fun e => e.1 = u) entries).
Proof.
  unfold js_Map. induction entries as [|e l IH]; [done|].
  rewrite reverse_cons, list_to_map_app, lookup_union, IH. simpl.
  rewrite filter_cons. destruct e as [k v]. simpl.
  destruct (decide (k = u)) as [->|Hk].
  - rewrite lookup_insert_eq.
    destruct (filter _ l) as [|a r] eqn:E; simpl; [done|].
    rewrite last_cons. by destruct (last r).
  - rewrite lookup_insert_ne by done. rewrite lookup_empty.
    by destruct (last (filter _ l)).
Qed.

Lemma last_fmap {A B} (f : A -> B) (l : list A) : last (map f l) = f <$> last l.
Proof.
  induction l as [|a l IH]; [done|]. simpl map. rewrite !last_cons, IH.
  by destruct (last l).
Qed.

Lemma fetch_completions_eq (db : Backend) (ids : list string) :
  fetch_completions db ids
  = map (fetched_completion db)
        (filter (fun c => Row.c_task_id c ∈ ids) (completions_tbl db)).
Proof.
  unfold fetch_completions. case_bool_decide as Hids.
  2:{ destruct ids; [|simpl in Hids; lia].
      rewrite (filter_ext_in _ (fun _ => False)); [|intros c _; set_solver].
      by induction (completions_tbl db). }
  set (completionData := filter _ (completions_tbl db)).
  case_bool_decide as Hdata; [|by destruct completionData; [|simpl in Hdata; lia]].
  apply map_ext_elem. intros c Hc. unfold fetched_completion.
  assert (E : js_Map (map (fun p => (Row.p_user_id p, p))
                (filter (fun p => Row.p_user_id p ∈
                           js_unique (map Row.c_user_id completionData))
                        (profiles_tbl db))) !! Row.c_user_id c
              = last_profile db (Row.c_user_id c)).
  { rewrite js_Map_lookup.
    rewrite (filter_fmap_comm _ (fun p => Row.p_user_id p = Row.c_user_id c)) by done.
    rewrite last_fmap, <- option_fmap_compose. simpl.
    rewrite option_fmap_id. unfold last_profile. f_equal.
    rewrite list_filter_filter. apply filter_ext_in. intros p _.
    split; [tauto|]. intros Hp. split; [done|]. rewrite Hp.
    unfold js_unique. apply elem_of_remove_dups, list_elem_of_fmap. eauto. }
  by rewrite E.
Qed.

(** The completions of one task in what a fetch loads. *)
Lemma fetch_completions_of_task (db : Backend) (ids : list string) (i : string) :
  i ∈ ids ->
  filter (fun c => fc_task_id c = i) (fetch_completions db ids)
  = map (fetched_completion db)
        (filter (fun c => Row.c_task_id c = i) (completions_tbl db)).
Proof.
  intros Hi. rewrite fetch_completions_eq.
  rewrite (filter_fmap_comm _ (fun c => Row.c_task_id c = i)) by done.
  f_equal. rewrite list_filter_filter. apply filter_ext_in. intros c _.
  split; [tauto|]. intros <-. done.
Qed.

(** ** Deleting a task *)

Lemma insert_by_head {A} (key : A -> Z) (x : A) (l : list A) :
  Forall (fun y => key x <= key y) l -> insert_by key x l = x :: l.
Proof.
  destruct 1 as [|y l Hy _]; simpl; [done|].
  by rewrite (proj2 (Z.leb_le _ _) Hy).
Qed.

Lemma filter_insert_by {A} (key : A -> Z) (P : A -> Prop)
    `{!forall x, Decision (P x)} (x : A) (l : list A) :
  ascending key l ->
  filter P (insert_by key x l)
  = if decide (P x) then insert_by key x (filter P l) else filter P l.
Proof.
  induction l as [|y l IH]; simpl; intros Hasc.
  - rewrite filter_cons, filter_nil. by destruct (decide (P x)).
  - destruct Hasc as [Hy Hasc]. destruct (key x <=? key y) eqn:E.
    + apply Z.leb_le in E. rewrite filter_cons.
      destruct (decide (P x)); [|done].
      symmetry. apply insert_by_head. apply Forall_forall. intros z Hz.
      apply list_elem_of_filter in Hz as [_ Hz].
      apply elem_of_cons in Hz as [->|Hz]; [done|].
      rewrite Forall_forall in Hy. specialize (Hy z Hz). lia.
    + rewrite !(filter_cons _ y). destruct (decide (P y)).
      * rewrite IH by done. destruct (decide (P x)); [|done].
        simpl. by rewrite E.
      * by apply IH.
Qed.

Lemma order_by_filter {A} (key : A -> Z) (P : A -> Prop)
    `{!forall x, Decision (P x)} (l : list A) :
  order_by key (filter P l) = filter P (order_by key l).
Proof.
  induction l as [|x l IH]; [done|].
  change (order_by key (x :: l)) with (insert_by key x (order_by key l)).
  rewrite filter_insert_by by apply order_by_ascending.
  rewrite filter_cons. destruct (decide (P x)); [|done].
  change (order_by key (x :: filter P l))
    with (insert_by key x (order_by key (filter P l))).
  by rewrite IH.
Qed.

Lemma filter_comm {A} (P Q : A -> Prop) `{!forall x, Decision (P x)}
    `{!forall x, Decision (Q x)} (l : list A) :
  filter P (filter Q l) = filter Q (filter P l).
Proof. rewrite !list_filter_filter. apply filter_ext_in. intros; tauto. Qed.

(** A patch of the tasks of the note [noteId] of the notebook
    [notebookId] that leaves alone every list without the task
    [taskId], against the same patch applied to every note. *)
Lemma located_patch_fetched (db : Backend) (uid notebookId noteId taskId : string)
    (G : list Task.t -> list Task.t) (nb : Row.notebook) :
  (forall l, (forall t, t ∈ l -> Task.id t <> taskId) -> G l = l) ->
  (forall r, r ∈ tasks_tbl db -> Row.t_id r = taskId -> Row.t_note_id r = noteId) ->
  (forall n, n ∈ notes_tbl db -> Row.n_id n = noteId ->
             Row.n_notebook_id n = notebookId) ->
  Notebook_with_notes (fetch_one db uid nb)
    (map (fun n => Note_with_tasks n (G (Note.tasks n)))
         (Notebook.notes (fetch_one db uid nb)))
  = (fun nb : Notebook.t =>
       if bool_decide (Notebook.id nb = notebookId) then
         Notebook_with_notes nb (map (fun n =>
           if bool_decide (Note.id n = noteId)
           then Note_with_tasks n (G (Note.tasks n))
           else n) (Notebook.notes nb))
       else nb) (fetch_one db uid nb).
Proof.
  intros HG Hnote Hnotebook.
  assert (Hsame : forall n, n ∈ Notebook.notes (fetch_one db uid nb) ->
            ~ (Row.nb_id nb = notebookId /\ Note.id n = noteId) ->
            Note_with_tasks n (G (Note.tasks n)) = n).
  { intros n Hn Hneq.
    transitivity (Note_with_tasks n (Note.tasks n)); [|apply Note_with_tasks_same].
    f_equal. apply HG. intros t Ht Hid. apply Hneq.
    destruct (fetched_tasks_rows db uid nb n t Hn Ht)
      as (_ & E2 & (nr & Hnr & E3 & E4) & (r & Hr & E5 & E6)).
    assert (Note.id n = noteId).
    { rewrite <- E2, <- E6. apply Hnote; [done|congruence]. }
    split; [|done]. rewrite <- E4. apply Hnotebook; [done|congruence]. }
  cbv beta. change (Notebook.id (fetch_one db uid nb)) with (Row.nb_id nb).
  destruct (decide (Row.nb_id nb = notebookId)) as [Hnb|Hnb].
  - rewrite (bool_decide_eq_true_2 _ Hnb). f_equal. apply map_ext_elem.
    intros n Hn. case_bool_decide as Hid; [done|]. apply Hsame; [done|]. tauto.
  - rewrite (bool_decide_eq_false_2 _ Hnb).
    etransitivity; [|apply Notebook_with_notes_same]. f_equal.
    erewrite map_ext_elem; [apply map_id|]. intros n Hn. cbv beta.
    apply Hsame; [done|]. tauto.
Qed.

Section delete.
Variables (db : Backend) (auth_uid taskId : string).

Hypothesis Hw : forall r, r ∈ tasks_tbl db -> Row.t_id r = taskId ->
                          tasks_writable db auth_uid r = true.

#[local] Abbreviation db' :=
  (Backend_with_completions
     (Backend_with_tasks db
        (filter (fun r => ~ (Row.t_id r = taskId
                             /\ tasks_writable db auth_uid r = true))
                (tasks_tbl db)))
     (filter (fun c => Row.c_task_id c ∉
                map Row.t_id
                  (filter (fun r => Row.t_id r = taskId
                                    /\ tasks_writable db auth_uid r = true)
                          (tasks_tbl db)))
             (completions_tbl db))).

Lemma delete_rows :
  filter (fun r => ~ (Row.t_id r = taskId /\ tasks_writable db auth_uid r = true))
         (tasks_tbl db)
  = filter (fun r => Row.t_id r <> taskId) (tasks_tbl db).
Proof.
  apply filter_ext_in. intros r Hr. split; [|tauto].
  intros H E. apply H. split; [done|]. by apply Hw.
Qed.

Lemma delete_completions_kept (i : string) :
  i <> taskId ->
  filter (fun c => Row.c_task_id c = i)
    (filter (fun c => Row.c_task_id c ∉
               map Row.t_id
                 (filter (fun r => Row.t_id r = taskId
                                   /\ tasks_writable db auth_uid r = true)
                         (tasks_tbl db)))
            (completions_tbl db))
  = filter (fun c => Row.c_task_id c = i) (completions_tbl db).
Proof.
  intros Hi. rewrite list_filter_filter. apply filter_ext_in.
  intros c _. split; [tauto|]. intros E. split; [done|]. rewrite E.
  intros Hin. apply list_elem_of_fmap in Hin as (r & -> & Hr).
  apply list_elem_of_filter in Hr as [[Hid _] _]. done.
Qed.

Lemma fetch_one_delete (uid : string) (nb : Row.notebook) :
  fetch_one db' uid nb
  = Notebook_with_notes (fetch_one db uid nb)
      (map (fun n => Note_with_tasks n
                       (filter (fun t => Task.id t <> taskId) (Note.tasks n)))
           (Notebook.notes (fetch_one db uid nb))).
Proof.
  unfold fetch_one, Notebook_with_notes; simpl. rewrite delete_rows.
  match goal with
  | |- context [bool_decide (0 < length ?ids)%nat] => set (noteIds := ids)
  end.
  set (sorted := if bool_decide (0 < length noteIds)%nat
                 then order_by Row.t_order_index
                        (filter (fun t => Row.t_note_id t ∈ noteIds) (tasks_tbl db))
                 else []).
  assert (E : (if bool_decide (0 < length noteIds)%nat
               then order_by Row.t_order_index
                      (filter (fun t => Row.t_note_id t ∈ noteIds)
                              (filter (fun r => Row.t_id r <> taskId) (tasks_tbl db)))
               else [])
              = filter (fun r => Row.t_id r <> taskId) sorted).
  { unfold sorted. case_bool_decide; [|done].
    by rewrite filter_comm, order_by_filter. }
  rewrite !E. clear E. f_equal.
  rewrite (map_map (A:=Row.note) (B:=Note.t) (C:=Note.t)). apply map_ext. intros n.
  unfold Note_with_tasks; simpl. f_equal.
  set (cs' := fetch_completions _ _). set (cs := fetch_completions _ _).
  assert (E : map (task_with_completions cs')
                  (filter (fun r => Row.t_id r <> taskId) sorted)
              = filter (fun t => Task.id t <> taskId)
                       (map (task_with_completions cs) sorted)).
  { rewrite (filter_fmap_comm _ (fun r => Row.t_id r <> taskId)) by done.
    apply map_ext_elem. intros r Hr.
    apply list_elem_of_filter in Hr as [Hid Hr].
    unfold task_with_completions. unfold cs', cs.
    rewrite !fetch_completions_of_task.
    - simpl. rewrite (delete_completions_kept _ Hid). reflexivity.
    - apply list_elem_of_fmap. eauto.
    - apply list_elem_of_fmap. exists r. split; [done|].
      apply list_elem_of_filter. done. }
  rewrite E. apply filter_comm.
Qed.
End delete.

(** X16. [deleteTask] by a user the policies let write the task, the
    task row being in the note and the note row in the notebook the call
    names: the task row is deleted and the completion rows of the task
    go with it; every other row stays; and the hook state, if it had
    been fetched from the store, is again what [fetchNotebooks] builds
    from the store. *)
Theorem deleteTask_cascades (db : Backend) (uid : string)
    (notebookId noteId taskId : string) (s : Hook) :
  notebooks s = notebooksWithData db uid ->
  (forall r, r ∈ tasks_tbl db -> Row.t_id r = taskId ->
             tasks_writable db uid r = true /\ Row.t_note_id r = noteId) ->
  (forall n, n ∈ notes_tbl db -> Row.n_id n = noteId ->
             Row.n_notebook_id n = notebookId) ->
  let w' := (deleteTask uid false notebookId noteId taskId (s, db)).2 in
  notebooks w'.1 = notebooksWithData w'.2 uid /\
  tasks_tbl w'.2 = filter (fun r => Row.t_id r <> taskId) (tasks_tbl db) /\
  (taskId ∈ map Row.t_id (tasks_tbl db) ->
   completions_tbl w'.2
   = filter (fun c => Row.c_task_id c <> taskId) (completions_tbl db)) /\
  toasts w'.1 = toasts s.
Proof.
  intros Hs Hw Hn. simpl.
  assert (Hw1 : forall r, r ∈ tasks_tbl db -> Row.t_id r = taskId ->
                          tasks_writable db uid r = true) by (intros; by apply Hw).
  split; [|split; [by apply delete_rows|split; [|done]]].
  - rewrite Hs. unfold notebooksWithData at 2.
    change (all_notebooks (Backend_with_completions _ _) uid)
      with (all_notebooks db uid).
    unfold notebooksWithData. rewrite map_map. apply map_ext. intros nb.
    rewrite fetch_one_delete by done.
    rewrite (located_patch_fetched db uid notebookId noteId taskId
               (filter (fun t => Task.id t <> taskId))); [done| | |done].
    + intros l Hl. apply filter_all, Forall_forall. done.
    + intros; by apply Hw.
  - intros Hin. apply list_elem_of_fmap in Hin as (r & Hid & Hr).
    apply filter_ext_in. intros c _. split.
    + intros H E. apply H. apply list_elem_of_fmap. exists r. split; [congruence|].
      apply list_elem_of_filter. split; [|done]. split; [done|]. by apply Hw1.
    + intros H Hin. apply H. apply list_elem_of_fmap in Hin as (r' & -> & Hr').
      by apply list_elem_of_filter in Hr' as [[? _] _].
Qed.

Lemma deleteTask_cascades_witness :
  map Task.id
      (all_tasks (notebooksWithData
         (deleteTask "u1" false "nb1" "n1" "A"
            (fetchNotebooks sample_db (Some "u1"%string) false sample_hook,
             sample_db)).2.2 "u1"))
  = ["D"; "B"; "E"; "C"]%string
  /\ completions_tbl
       (deleteTask "u1" false "nb1" "n1" "A"
          (fetchNotebooks sample_db (Some "u1"%string) false sample_hook,
           sample_db)).2.2 = [].
Proof.
  destruct (deleteTask_cascades sample_db "u1" "nb1" "n1" "A"
              (fetchNotebooks sample_db (Some "u1"%string) false sample_hook))
    as (H1 & _ & H3 & _).
  - reflexivity.
  - intros r Hr Hid. simpl in Hr.
    repeat (apply elem_of_cons in Hr as [->|Hr]); try discriminate Hid;
      [|inversion Hr].
    split; vm_compute; reflexivity.
  - intros n Hn Hid. simpl in Hn.
    repeat (apply elem_of_cons in Hn as [->|Hn]); try discriminate Hid;
      [|inversion Hn].
    reflexivity.
  - split.
    + rewrite <- H1. vm_compute. reflexivity.
    + rewrite H3; [vm_compute; reflexivity|]. simpl. apply elem_of_cons. by left.
Defined.


(** ** Deleting a folder *)

Lemma fetch_completions_folders (db : Backend) (rows : list Row.folder)
    (ids : list string) :
  fetch_completions (Backend_with_folders db rows) ids = fetch_completions db ids.
Proof. reflexivity. Qed.

Section delete_folder.
Variables (db : Backend) (auth_uid folderId : string).

Hypothesis Hin : folderId ∈ map Row.f_id (folders_tbl db).
Hypothesis Hw : forall r, r ∈ folders_tbl db -> Row.f_id r = folderId ->
                          folders_writable db auth_uid r = true.

#[local] Abbreviation deleted :=
  (filter (fun r => Row.f_id r = folderId /\ folders_writable db auth_uid r = true)
          (folders_tbl db)).

#[local] Abbreviation unfile :=
  (fun t : Row.task =>
     if match Row.t_folder_id t with
        | Some f => bool_decide (f ∈ map Row.f_id deleted)
        | None => false
        end
     then row_at_root t else t).

Lemma deleted_folder_ids (f : string) :
  f ∈ map Row.f_id deleted <-> f = folderId.
Proof.
  rewrite list_elem_of_fmap. split.
  - intros (r & -> & Hr). by apply list_elem_of_filter in Hr as [[? _] _].
  - intros ->. apply list_elem_of_fmap in Hin as (r & E & Hr).
    exists r. split; [done|]. apply list_elem_of_filter. split; [|done].
    split; [done|]. by apply Hw.
Qed.

Lemma unfile_task (cs : list FetchedCompletion) (r : Row.task) :
  task_with_completions cs (unfile r)
  = (fun t => if bool_decide (Task.folder_id t = Some folderId)
              then Task_at_root t else t) (task_with_completions cs r).
Proof.
  cbv beta. unfold task_with_completions at 2. simpl.
  destruct (Row.t_folder_id r) as [f|] eqn:E.
  - destruct (decide (f = folderId)) as [->|Hne].
    + rewrite (bool_decide_eq_true_2 _ (proj2 (deleted_folder_ids _) eq_refl)).
      rewrite bool_decide_eq_true_2 by done.
      unfold task_with_completions, Task_at_root; simpl. done.
    + rewrite bool_decide_eq_false_2 by (by rewrite deleted_folder_ids).
      rewrite bool_decide_eq_false_2 by congruence.
      unfold task_with_completions. by rewrite E.
  - rewrite bool_decide_eq_false_2 by done.
    unfold task_with_completions. by rewrite E.
Qed.

Lemma fetch_one_delete_folder (uid : string) (nb : Row.notebook) :
  fetch_one
    (Backend_with_tasks
       (Backend_with_folders db
          (filter (fun r => ~ (Row.f_id r = folderId
                               /\ folders_writable db auth_uid r = true))
                  (folders_tbl db)))
       (map unfile (tasks_tbl db))) uid nb
  = Notebook_with_notes (fetch_one db uid nb)
      (map (Note_without_folder folderId) (Notebook.notes (fetch_one db uid nb))).
Proof.
  unfold fetch_one, Notebook_with_notes; simpl. f_equal.
  rewrite (map_map (A:=Row.note) (B:=Note.t) (C:=Note.t)). apply map_ext. intros n.
  unfold Note_without_folder, Note_with_folders, Note_with_tasks; simpl.
  match goal with
  | |- context [bool_decide (0 < length ?ids)%nat] => set (noteIds := ids)
  end.
  assert (Hk : forall r, Row.t_order_index (unfile r) = Row.t_order_index r).
  { intros r. destruct (Row.t_folder_id r); [case_bool_decide|]; done. }
  assert (Hn : forall r, Row.t_note_id (unfile r) = Row.t_note_id r).
  { intros r. destruct (Row.t_folder_id r); [case_bool_decide|]; done. }
  assert (Hi : forall r, Row.t_id (unfile r) = Row.t_id r).
  { intros r. destruct (Row.t_folder_id r); [case_bool_decide|]; done. }
  assert (E : (if bool_decide (0 < length noteIds)%nat
               then order_by Row.t_order_index
                      (filter (fun t => Row.t_note_id t ∈ noteIds)
                              (map unfile (tasks_tbl db)))
               else [])
              = map unfile
                  (if bool_decide (0 < length noteIds)%nat
                   then order_by Row.t_order_index
                          (filter (fun t => Row.t_note_id t ∈ noteIds) (tasks_tbl db))
                   else [])).
  { case_bool_decide; [|done].
    rewrite (filter_fmap_comm _ (fun t => Row.t_note_id t ∈ noteIds)).
    - by apply order_by_fmap.
    - intros r. by rewrite Hn. }
  rewrite !E. clear E. rewrite fetch_completions_tasks, fetch_completions_folders.
  match goal with
  | |- context [map unfile ?l] => set (sorted := l)
  end.
  assert (Eids : map Row.t_id (map unfile sorted) = map Row.t_id sorted).
  { rewrite map_map. by apply map_ext. }
  rewrite Eids.
  f_equal.
  - rewrite (map_map (A:=Row.task) (B:=Row.task) (C:=Task.t)).
    rewrite (filter_fmap_comm _ (fun r => Row.t_note_id r = Row.n_id n)).
    2:{ intros r. unfold task_with_completions; simpl. by rewrite Hn. }
    rewrite (filter_fmap_comm _ (fun r => Row.t_note_id r = Row.n_id n)) by done.
    rewrite map_map. apply map_ext. intros r. apply unfile_task.
  - assert (E : (if bool_decide (0 < length noteIds)%nat
                 then order_by Row.f_order_index
                        (filter (fun f => Row.f_note_id f ∈ noteIds)
                           (filter (fun r => ~ (Row.f_id r = folderId
                                        /\ folders_writable db auth_uid r = true))
                                   (folders_tbl db)))
                 else [])
                = filter (fun r => Row.f_id r <> folderId)
                    (if bool_decide (0 < length noteIds)%nat
                     then order_by Row.f_order_index
                            (filter (fun f => Row.f_note_id f ∈ noteIds) (folders_tbl db))
                     else [])).
    { case_bool_decide; [|done].
      assert (Efil : filter (fun r => ~ (Row.f_id r = folderId
                                /\ folders_writable db auth_uid r = true))
                            (folders_tbl db)
                     = filter (fun r => Row.f_id r <> folderId) (folders_tbl db)).
      { apply filter_ext_in. intros r Hr. split; [|tauto].
        intros Hnot E. apply Hnot. split; [done|]. by apply Hw. }
      by rewrite Efil, filter_comm, order_by_filter. }
    rewrite E. clear E. rewrite filter_comm.
    symmetry. by apply filter_fmap_comm.
Qed.
End delete_folder.




(** ** A failed send in the comments panel *)

Lemma js_some_filter {A} (P Q : A -> Prop) `{!forall x, Decision (P x)}
    `{!forall x, Decision (Q x)} (l : list A) :
  (forall x, P x -> Q x) -> js_some P (filter Q l) = js_some P l.
Proof.
  intros HPQ. unfold js_some. apply bool_decide_ext.
  rewrite !Exists_exists. split.
  - intros (x & Hx & HP). apply list_elem_of_filter in Hx as [_ Hx]. eauto.
  - intros (x & Hx & HP). exists x. split; [|done].
    apply list_elem_of_filter. auto.
Qed.

Section failed_send.
Variables (taskId : string) (user : option string) (profile : option ProfileData).
Variable tempId : string.

(** The thread [a], which holds the optimistic comment, against the
    thread [b] of the same feed without it. *)
#[local] Abbreviation shadows :=
  (fun a b : Thread =>
     filter (fun c => Comment.id c <> tempId) (comments a) = comments b /\
     lookups a = lookups b /\ notices a = notices b).

Lemma feed_step_shadows (a b : Thread) (e : Event) :
  feed_event tempId e -> shadows a b ->
  shadows (Panel.step taskId user profile a e) (Panel.step taskId user profile b e).
Proof.
  intros He (Hc & Hl & Hn). destruct e as [| |newRow|newRow data|old_id];
    simpl in He; try done; simpl.
  - unfold Panel.on_insert. rewrite <- Hc.
    rewrite (js_some_filter _ (fun c => Comment.id c <> tempId)) by congruence.
    destruct (js_some _ (comments a)); simpl; [done|]. by rewrite Hl, Hn.
  - unfold Panel.on_profile; simpl. rewrite <- Hc.
    rewrite (js_some_filter _ (fun c => Comment.id c <> tempId)) by congruence.
    rewrite Hl, Hn. split; [|done].
    destruct (js_some _ (comments a)); [done|].
    rewrite filter_app, filter_cons, decide_True by done. done.
  - unfold Panel.on_delete; simpl. rewrite <- Hc. split; [|done].
    apply filter_comm.
Qed.

Lemma feed_step_keeps (s : Thread) (e : Event) :
  feed_event tempId e ->
  newText (Panel.step taskId user profile s e) = newText s /\
  sending (Panel.step taskId user profile s e) = sending s.
Proof.
  intros He. destruct e as [| |newRow|newRow data|old_id]; simpl in He; try done; simpl.
  unfold Panel.on_insert. by destruct (js_some _ _).
Qed.

Lemma feed_run_shadows (tr : list Event) (a b : Thread) :
  Forall (feed_event tempId) tr -> shadows a b ->
  shadows (Panel.run taskId user profile a tr) (Panel.run taskId user profile b tr).
Proof.
  unfold Panel.run. intros Htr. revert a b.
  induction Htr as [|e tr He _ IH]; intros a b Hab; simpl; [done|].
  apply IH. by apply feed_step_shadows.
Qed.
End failed_send.

(** X18. A send that fails leaves no trace in the thread.  For a
    signed-in user with a text that is not blank and no send pending,
    and a temporary id no comment holds: whatever the change feed
    delivers between the send and its failure, the thread ends with the
    comments and the pending look-ups the feed alone would have given,
    the trimmed text back in the input, and the one notice of the
    failure. *)
Theorem failed_send_leaves_no_trace (taskId uid : string)
    (profile : option ProfileData) (tempId now : string) (tr : list Event)
    (s : Thread) :
  trim (newText s) <> ""%string ->
  sending s = false ->
  tempId ∉ map Comment.id (comments s) ->
  Forall (feed_event tempId) tr ->
  Panel.run taskId (Some uid) profile s
    (Send tempId now :: tr ++ [SendAnswer tempId (trim (newText s)) None])
  = failed_send (trim (newText s)) (Panel.run taskId (Some uid) profile s tr).
Proof.
  intros Htext Hsend Hfresh Htr. unfold Panel.run.
  change (Send tempId now :: tr ++ [SendAnswer tempId (trim (newText s)) None])
    with ([Send tempId now] ++ tr ++ [SendAnswer tempId (trim (newText s)) None]).
  rewrite !foldl_app. cbn [foldl Panel.step].
  unfold Panel.handleSend_begin at 1.
  rewrite (bool_decide_eq_false_2 _ Htext), Hsend. simpl.
  match goal with
  | |- context [foldl _ ?x tr] =>
      match x with {| comments := _ |} => set (a := x) end
  end.
  destruct (feed_run_shadows taskId (Some uid) profile tempId tr a s Htr)
    as (Hc & Hl & Hn).
  { split; [|done]. unfold a; simpl.
    rewrite filter_app, filter_cons, decide_False by (simpl; tauto).
    rewrite filter_nil, app_nil_r. apply filter_all, Forall_forall.
    intros c Hc E. apply Hfresh. rewrite <- E. apply list_elem_of_fmap. eauto. }
  unfold Panel.run in Hc, Hl, Hn.
  unfold Panel.handleSend_end, failed_send, setComments; simpl.
  by rewrite Hc, Hl, Hn.
Qed.

Lemma failed_send_leaves_no_trace_witness :
  Panel.run "A" (Some "u1"%string) None sample_thread
    [Send "temp_1" "2025-12-07T18:01:00Z";
     PushDelete "c1";
     SendAnswer "temp_1" "hi there" None]
  = {| comments := []; newText := "hi there"; sending := false; lookups := [];
       notices := ["Failed to send comment"%string] |}.
Proof.
  apply (failed_send_leaves_no_trace "A" "u1" None "temp_1" "2025-12-07T18:01:00Z"
           [PushDelete "c1"] sample_thread).
  - vm_compute. discriminate.
  - reflexivity.
  - simpl. intros H. apply elem_of_cons in H as [H|H]; [discriminate|inversion H].
  - repeat constructor.
Defined.


(** ** A toggle and the progress of the user *)

Lemma toggleTask_patches (U : string) (fault : bool)
    (notebookId noteId taskId : string) (w : Hook * Backend) (T : Task.t) :
  find_task (notebooks w.1) notebookId noteId taskId = Some T ->
  (toggleTask (Some U) fault notebookId noteId taskId w).1 = Succeeded ->
  exists name avatar,
    notebooks (toggleTask (Some U) fault notebookId noteId taskId w).2.1
    = toggle_patch notebookId noteId taskId U (includes U (Task.completedBy T))
        name avatar (notebooks w.1).
Proof.
  intros HT. unfold toggleTask. rewrite HT.
  destruct (includes U (Task.completedBy T)).
  - unfold delete_completion. destruct fault; [discriminate|]. simpl. eauto.
  - unfold insert_completion. destruct (fault || bool_decide _); [discriminate|].
    simpl. eauto.
Qed.

Lemma count_patched (P : Task.t -> Prop) `{!forall t, Decision (P t)}
    (g : Task.t -> Task.t) (taskId : string) (l : list Task.t) (T : Task.t) :
  NoDup (map Task.id l) -> T ∈ l -> Task.id T = taskId ->
  len (filter P (map (fun t => if bool_decide (Task.id t = taskId) then g t else t) l))
  = len (filter P l) + (if decide (P (g T)) then 1 else 0)
    - (if decide (P T) then 1 else 0).
Proof.
  unfold len. induction l as [|a l IH]; intros Hnd HT Hid; [inversion HT|].
  simpl in Hnd. apply NoDup_cons in Hnd as [Ha Hnd]. simpl map.
  destruct (decide (Task.id a = taskId)) as [E|E].
  - assert (a = T).
    { apply elem_of_cons in HT as [->|HT]; [done|]. exfalso. apply Ha.
      rewrite E, <- Hid. apply list_elem_of_fmap. eauto. }
    subst a. rewrite (bool_decide_eq_true_2 _ E).
    assert (Hrest : map (fun t => if bool_decide (Task.id t = taskId) then g t else t) l
                    = l).
    { erewrite map_ext_elem; [apply map_id|]. intros t Ht. cbv beta.
      rewrite bool_decide_eq_false_2; [done|]. intros E'. apply Ha.
      rewrite E, <- E'. apply list_elem_of_fmap. eauto. }
    rewrite Hrest, !filter_cons.
    destruct (decide (P (g T))), (decide (P T)); simpl; lia.
  - rewrite (bool_decide_eq_false_2 _ E).
    apply elem_of_cons in HT as [->|HT]; [done|].
    specialize (IH Hnd HT Hid). rewrite !filter_cons.
    destruct (decide (P a)); simpl; lia.
Qed.

Lemma toggled_completed (U : string) (name : string) (avatar : option string)
    (T : Task.t) :
  U ∈ Task.completedBy
        (toggled U (includes U (Task.completedBy T)) name avatar T)
  <-> U ∉ Task.completedBy T.
Proof.
  unfold toggled, includes. simpl. case_bool_decide as HU.
  - rewrite list_elem_of_filter. tauto.
  - rewrite elem_of_app, list_elem_of_singleton. tauto.
Qed.

Section toggle_progress.
Context {N : JSNumber}.

(** X19. A toggle that succeeds moves the progress of the user in the
    notebook by one task, the task ids of the state being pairwise
    distinct: the notebook the view finds under the id has as many tasks
    as before, and one more completed by the user when the user had not
    completed the task, one less otherwise. *)
Theorem toggleTask_moves_progress (U : string) (fault : bool)
    (notebookId noteId taskId : string) (w : Hook * Backend)
    (NB : Notebook.t) (T : Task.t) :
  NoDup (map Task.id (all_tasks (notebooks w.1))) ->
  js_find (fun nb => Notebook.id nb = notebookId) (notebooks w.1) = Some NB ->
  find_task (notebooks w.1) notebookId noteId taskId = Some T ->
  (toggleTask (Some U) fault notebookId noteId taskId w).1 = Succeeded ->
  exists NB',
    js_find (fun nb => Notebook.id nb = notebookId)
      (notebooks (toggleTask (Some U) fault notebookId noteId taskId w).2.1)
    = Some NB' /\
    total (calculateProgress NB' U) = total (calculateProgress NB U) /\
    0 < total (calculateProgress NB U) /\
    completed (calculateProgress NB' U)
    = completed (calculateProgress NB U)
      + (if includes U (Task.completedBy T) then -1 else 1).
Proof.
  intros Hnd HNB HT Hok.
  destruct (toggleTask_patches U fault notebookId noteId taskId w T HT Hok)
    as (name & avatar & ->).
  destruct (found_task_located _ _ _ _ _ Hnd HT) as (Hloc & _ & HidT & _).
  pose proof HNB as HNBin. apply js_find_Some in HNBin as [HNBin HNBid].
  set (c := includes U (Task.completedBy T)).
  set (tg := fun t : Task.t =>
               if bool_decide (Task.id t = taskId)
               then toggled U c name avatar t else t).
  exists (Notebook_with_notes NB (map (fun n =>
            if bool_decide (Note.id n = noteId)
            then Note_with_tasks n (map tg (Note.tasks n)) else n)
            (Notebook.notes NB))).
  split.
  { unfold toggle_patch.
    rewrite (js_find_map_key Notebook.id) by (intros nb; case_bool_decide; reflexivity).
    rewrite HNB. simpl. by rewrite (bool_decide_eq_true_2 _ HNBid). }
  (* the tasks of the notebook, before and after *)
  assert (Hloc1 : located [NB] notebookId noteId taskId).
  { intros nb n t Hnb. apply list_elem_of_singleton in Hnb as ->. by apply Hloc. }
  assert (Hall : flat_map Note.tasks
                   (map (fun n =>
                           if bool_decide (Note.id n = noteId)
                           then Note_with_tasks n (map tg (Note.tasks n)) else n)
                        (Notebook.notes NB))
                 = map tg (flat_map Note.tasks (Notebook.notes NB))).
  { pose proof (toggle_patch_all_tasks notebookId noteId taskId U c name avatar
                  [NB] Hloc1) as H.
    unfold all_tasks, toggle_patch in H. simpl in H.
    rewrite (bool_decide_eq_true_2 _ HNBid), !app_nil_r in H. exact H. }
  assert (HTin : T ∈ flat_map Note.tasks (Notebook.notes NB)).
  { unfold find_task, find_note in HT. rewrite HNB in HT. simpl in HT.
    destruct (js_find _ (Notebook.notes NB)) as [n|] eqn:En; [|discriminate].
    simpl in HT. apply js_find_Some in En as [Hn _].
    apply js_find_Some in HT as [HTn _]. apply elem_of_flat_map. eauto. }
  assert (Hnd1 : NoDup (map Task.id (flat_map Note.tasks (Notebook.notes NB)))).
  { apply (NoDup_flat_map_inner
             (fun nb => flat_map Note.tasks (Notebook.notes nb)) Task.id
             (notebooks w.1) NB Hnd HNBin). }
  assert (Hpos : 0 < len (flat_map Note.tasks (Notebook.notes NB))).
  { unfold len. destruct (flat_map Note.tasks (Notebook.notes NB));
      [inversion HTin|simpl; lia]. }
  unfold calculateProgress. simpl Notebook.notes. rewrite Hall.
  assert (Hlen : len (map tg (flat_map Note.tasks (Notebook.notes NB)))
                 = len (flat_map Note.tasks (Notebook.notes NB))).
  { unfold len. by rewrite length_map. }
  rewrite Hlen, (bool_decide_eq_false_2 (len _ = 0)) by lia. simpl.
  split; [done|]. split; [done|].
  unfold tg.
  rewrite (count_patched (fun task => U ∈ Task.completedBy task)
             (toggled U c name avatar) taskId _ T Hnd1 HTin HidT).
  pose proof (toggled_completed U name avatar T) as HgT. fold c in HgT.
  assert (Hc : c = bool_decide (U ∈ Task.completedBy T)) by reflexivity.
  destruct (decide (U ∈ Task.completedBy (toggled U c name avatar T))) as [H1|H1];
    destruct (decide (U ∈ Task.completedBy T)) as [H2|H2]; try tauto.
  - rewrite Hc, (bool_decide_eq_false_2 _ H2). lia.
  - rewrite Hc, (bool_decide_eq_true_2 _ H2). lia.
Qed.
End toggle_progress.

Lemma toggleTask_moves_progress_witness :
  exists NB',
    js_find (fun nb => Notebook.id nb = "nb1"%string)
      (notebooks (toggleTask (Some "u1"%string) false "nb1" "n1" "X"
                    (two_users_hook, two_users_db)).2.1)
    = Some NB' /\
    completed (calculateProgress (N:=exactQ) NB' "u1") = 0.
Proof.
  destruct (@toggleTask_moves_progress exactQ "u1" false "nb1" "n1" "X"
              (two_users_hook, two_users_db)
              (Notebook_with_notes sample_notebook
                 [Note_with_tasks sample_note
                    [sample_task "X" None 0 ["u1"; "u2"]%string]])
              (sample_task "X" None 0 ["u1"; "u2"]%string))
    as (NB' & H1 & _ & _ & H2).
  - refine (bool_decide_unpack _ _). vm_compute. exact I.
  - reflexivity.
  - reflexivity.
  - reflexivity.
  - exists NB'. split; [exact H1|]. rewrite H2. reflexivity.
Defined.


(** ** A new task against a fresh fetch *)

Lemma insert_by_snoc {A} (key : A -> Z) (a x : A) (l : list A) :
  key a <= key x -> insert_by key a (l ++ [x]) = insert_by key a l ++ [x].
Proof.
  intros Hk. induction l as [|b l IH]; simpl.
  - by rewrite (proj2 (Z.leb_le _ _) Hk).
  - destruct (key a <=? key b); [done|]. by rewrite IH.
Qed.

Lemma order_by_snoc {A} (key : A -> Z) (x : A) (l : list A) :
  (forall y, y ∈ l -> key y <= key x) ->
  order_by key (l ++ [x]) = order_by key l ++ [x].
Proof.
  unfold order_by. induction l as [|a l IH]; intros Hk; simpl; [done|].
  rewrite IH by (intros y Hy; apply Hk; by right).
  apply insert_by_snoc. apply Hk. by left.
Qed.

Lemma filter_none {A} (P : A -> Prop) `{!forall x, Decision (P x)} (l : list A) :
  (forall x, x ∈ l -> ~ P x) -> filter P l = [].
Proof.
  induction l as [|a l IH]; intros Hl; [done|].
  rewrite filter_cons, decide_False by (apply Hl; by left).
  apply IH. intros x Hx. apply Hl. by right.
Qed.

(** The rows of one container among the ordered rows of a notebook,
    after a row that sorts last in its container has been added. *)
Lemma container_rows_add (tbl : list Row.task) (data : Row.task)
    (noteIds : list string) (nid : string) (f : option string) :
  nid ∈ noteIds ->
  (forall r, r ∈ tbl -> Row.t_note_id r = Row.t_note_id data ->
             Row.t_folder_id r = Row.t_folder_id data ->
             Row.t_order_index r <= Row.t_order_index data) ->
  filter (fun r => Row.t_note_id r = nid /\ Row.t_folder_id r = f)
    (order_by Row.t_order_index
       (filter (fun r => Row.t_note_id r ∈ noteIds) (tbl ++ [data])))
  = filter (fun r => Row.t_note_id r = nid /\ Row.t_folder_id r = f)
      (order_by Row.t_order_index
         (filter (fun r => Row.t_note_id r ∈ noteIds) tbl))
    ++ (if decide (Row.t_note_id data = nid /\ Row.t_folder_id data = f)
        then [data] else []).
Proof.
  intros Hnid Hkey. rewrite <- !order_by_filter.
  assert (E : forall l : list Row.task,
            filter (fun r => Row.t_note_id r = nid /\ Row.t_folder_id r = f)
              (filter (fun r => Row.t_note_id r ∈ noteIds) l)
            = filter (fun r => Row.t_note_id r = nid /\ Row.t_folder_id r = f) l).
  { intros l. rewrite list_filter_filter. apply filter_ext_in.
    intros r _. split; [tauto|]. intros [E1 E2]. rewrite E1. tauto. }
  rewrite !E, filter_app, filter_cons, filter_nil.
  destruct (decide (Row.t_note_id data = nid /\ Row.t_folder_id data = f))
    as [[E1 E2]|Hne]; [|by rewrite !app_nil_r].
  apply order_by_snoc. intros r Hr.
  apply list_elem_of_filter in Hr as [[E3 E4] Hr]. apply Hkey; congruence.
Qed.

Lemma fetched_note_of_row (db : Backend) (uid : string) (nb : Row.notebook)
    (n : Note.t) :
  n ∈ Notebook.notes (fetch_one db uid nb) ->
  forall r, r ∈ tasks_tbl db -> Row.t_note_id r = Note.id n ->
    exists t, t ∈ Note.tasks n /\ Task.folder_id t = Row.t_folder_id r /\
              Task.order_index t = Row.t_order_index r.
Proof.
  unfold fetch_one; simpl. intros Hn r Hr Hid.
  apply list_elem_of_fmap in Hn as (nr & -> & Hnr). simpl in *.
  match goal with
  | |- context [bool_decide (0 < length ?ids)%nat] => set (noteIds := ids)
  end.
  assert (Hin : Row.n_id nr ∈ noteIds) by (apply list_elem_of_fmap; eauto).
  rewrite bool_decide_eq_true_2.
  2:{ destruct noteIds; [inversion Hin|simpl; lia]. }
  eexists. split.
  - apply list_elem_of_filter. split; [|apply list_elem_of_fmap; exists r; split;
      [reflexivity|]].
    + done.
    + apply order_by_elem, list_elem_of_filter. split; [by rewrite Hid|done].
  - done.
Qed.

Section add.
Variables (db : Backend) (data : Row.task).

Hypothesis Hfresh : Row.t_id data ∉ map Row.c_task_id (completions_tbl db).

#[local] Abbreviation db' := (Backend_with_tasks db (tasks_tbl db ++ [data])).

#[local] Abbreviation new_task :=
  {| Task.id := Row.t_id data; Task.title := Row.t_title data;
     Task.note_id := Row.t_note_id data; Task.folder_id := Row.t_folder_id data;
     Task.order_index := Row.t_order_index data;
     Task.created_at := Row.t_created_at data;
     Task.completedBy := []; Task.completions := [] |}.

Lemma new_task_fetched (ids : list string) :
  Row.t_id data ∈ ids ->
  task_with_completions (fetch_completions db ids) data = new_task.
Proof.
  intros Hin. unfold task_with_completions.
  rewrite fetch_completions_of_task by done.
  rewrite filter_none; [done|].
  intros c Hc E. apply Hfresh. rewrite <- E. apply list_elem_of_fmap. eauto.
Qed.

Lemma old_task_fetched (ids ids' : list string) (r : Row.task) :
  Row.t_id r ∈ ids -> Row.t_id r ∈ ids' ->
  task_with_completions (fetch_completions db ids') r
  = task_with_completions (fetch_completions db ids) r.
Proof.
  intros H1 H2. unfold task_with_completions.
  by rewrite !fetch_completions_of_task.
Qed.

(** One container of one fetched note, before and after the insert. *)
Lemma fetched_container_add (uid : string) (nb : Row.notebook) (f : option string) :
  (forall r, r ∈ tasks_tbl db -> Row.t_note_id r = Row.t_note_id data ->
             Row.t_folder_id r = Row.t_folder_id data ->
             Row.t_order_index r <= Row.t_order_index data) ->
  map (fun n => container_tasks n f) (Notebook.notes (fetch_one db' uid nb))
  = map (fun n => container_tasks n f
                  ++ (if decide (Row.t_note_id data = Note.id n
                                 /\ Row.t_folder_id data = f)
                      then [new_task] else []))
        (Notebook.notes (fetch_one db uid nb)).
Proof.
  intros Hkey. unfold fetch_one; simpl. rewrite !map_map.
  match goal with
  | |- context [bool_decide (0 < length ?ids)%nat] => set (noteIds := ids)
  end.
  apply map_ext_elem. intros n Hn. unfold container_tasks; simpl.
  assert (Hin : Row.n_id n ∈ noteIds) by (apply list_elem_of_fmap; eauto).
  rewrite !bool_decide_eq_true_2 by (destruct noteIds; [inversion Hin|simpl; lia]).
  rewrite fetch_completions_tasks.
  set (sorted' := order_by _ (filter _ (_ ++ [data]))).
  set (sorted := order_by _ (filter _ (tasks_tbl db))).
  rewrite !list_filter_filter.
  rewrite !(filter_fmap_comm _
              (fun r => Row.t_folder_id r = f /\ Row.t_note_id r = Row.n_id n))
    by done.
  assert (Eq : forall l : list Row.task,
            filter (fun r => Row.t_folder_id r = f /\ Row.t_note_id r = Row.n_id n) l
            = filter (fun r => Row.t_note_id r = Row.n_id n /\ Row.t_folder_id r = f) l).
  { intros l. apply filter_ext_in. intros; tauto. }
  rewrite !Eq. unfold sorted' at 2.
  rewrite (container_rows_add _ _ _ _ _ Hin Hkey). fold sorted.
  assert (Hsub : forall r, r ∈ sorted -> r ∈ sorted').
  { intros r. unfold sorted, sorted'.
    rewrite !order_by_elem, !list_elem_of_filter, elem_of_app. tauto. }
  rewrite map_app. f_equal.
  - apply map_ext_elem. intros r Hr. apply list_elem_of_filter in Hr as [_ Hr].
    apply old_task_fetched; apply list_elem_of_fmap; eauto.
  - destruct (decide (Row.t_note_id data = Row.n_id n /\ Row.t_folder_id data = f))
      as [[E1 E2]|Hne]; [|done].
    simpl. f_equal. apply new_task_fetched.
    apply list_elem_of_fmap. exists data. split; [done|].
    unfold sorted'. rewrite order_by_elem, list_elem_of_filter, elem_of_app.
    split; [by rewrite E1|]. right. by apply list_elem_of_singleton.
Qed.
End add.

Lemma fetched_note_row (db : Backend) (uid : string) (nb : Row.notebook) (n : Note.t) :
  n ∈ Notebook.notes (fetch_one db uid nb) ->
  exists nr, nr ∈ notes_tbl db /\ Row.n_id nr = Note.id n /\
             Row.n_notebook_id nr = Row.nb_id nb.
Proof.
  unfold fetch_one; simpl. intros Hn.
  apply list_elem_of_fmap in Hn as (nr & -> & Hnr). simpl.
  apply order_by_elem, list_elem_of_filter in Hnr as [Hnb Hnr]. eauto.
Qed.

(** X20. [addTask] against a fresh fetch.  The state having been
    fetched from the store and holding the note, the new task is
    appended to the tasks of the note, while a fetch orders the tasks of
    a note by [order_index]; still every container of every note (the
    root and each folder) shows after [addTask] the tasks, in the order,
    that a fetch from the store would show. *)
Theorem addTask_container_matches_fetch (db : Backend) (uid : string)
    (new_id now notebookId noteId title : string) (folderId : option string)
    (s : Hook) (note : Note.t) :
  notebooks s = notebooksWithData db uid ->
  find_note (notebooks s) notebookId noteId = Some note ->
  folder_ids_nonempty note folderId ->
  (forall n, n ∈ notes_tbl db -> Row.n_id n = noteId ->
             Row.n_notebook_id n = notebookId) ->
  new_id ∉ map Row.c_task_id (completions_tbl db) ->
  let w' := (addTask false new_id now notebookId noteId title folderId (s, db)).2 in
  forall f : option string,
    map (fun nb => map (fun n => container_tasks n f) (Notebook.notes nb))
        (notebooks w'.1)
    = map (fun nb => map (fun n => container_tasks n f) (Notebook.notes nb))
          (notebooksWithData w'.2 uid).
Proof.
  intros Hs Hnote Hids Hnb Hfresh w' f. subst w'. unfold addTask. cbn [fst snd].
  rewrite Hnote, folderTasks_of_container by done. simpl.
  set (k := maxOrder_of (container_tasks note folderId) + 1).
  assert (Hkey : forall r, r ∈ tasks_tbl db -> Row.t_note_id r = noteId ->
                   Row.t_folder_id r = folderId -> Row.t_order_index r <= k).
  { intros r Hr E1 E2. rewrite Hs in Hnote. unfold find_note in Hnote.
    destruct (js_find _ (notebooksWithData db uid)) as [NB|] eqn:ENB; [|discriminate].
    simpl in Hnote. apply js_find_Some in ENB as [HNB _].
    apply js_find_Some in Hnote as [Hn Hid].
    apply list_elem_of_fmap in HNB as (nbrow & -> & _).
    destruct (fetched_note_of_row db uid nbrow note Hn r Hr) as (t & Ht & E3 & E4);
      [congruence|].
    assert (Hc : t ∈ container_tasks note folderId).
    { apply list_elem_of_filter. split; [congruence|done]. }
    destruct (maxOrder_of_spec (container_tasks note folderId)) as [_ Hmax].
    destruct Hmax as [_ Hle]; [by intros E; rewrite E in Hc; inversion Hc|].
    specialize (Hle (Task.order_index t)). unfold k. rewrite <- E4.
    assert (Task.order_index t <= maxOrder_of (container_tasks note folderId)); [|lia].
    apply Hle. apply list_elem_of_fmap. eauto. }
  rewrite Hs. unfold notebooksWithData.
  change (all_notebooks (Backend_with_tasks db _) uid) with (all_notebooks db uid).
  rewrite !map_map. apply map_ext_elem. intros nbrow _.
  rewrite (fetched_container_add db
             {| Row.t_id := new_id; Row.t_note_id := noteId;
                Row.t_folder_id := folderId; Row.t_title := title;
                Row.t_order_index := k; Row.t_created_at := now |}
             Hfresh uid nbrow f Hkey). simpl.
  assert (Hrow : forall n, n ∈ Notebook.notes (fetch_one db uid nbrow) ->
                   noteId = Note.id n -> Row.nb_id nbrow = notebookId).
  { intros n Hn E. destruct (fetched_note_row db uid nbrow n Hn) as (nr & Hnr & E1 & E2).
    rewrite <- E2. apply Hnb; [done|congruence]. }
  cbv beta. change (Notebook.id (fetch_one db uid nbrow)) with (Row.nb_id nbrow).
  case_bool_decide as Hid.
  - simpl. rewrite map_map. apply map_ext_elem. intros n Hn.
    destruct (decide (Note.id n = noteId)) as [Hn'|Hn'].
    + rewrite (bool_decide_eq_true_2 _ Hn').
      unfold container_tasks; simpl. rewrite filter_app, filter_cons, filter_nil.
      f_equal. simpl.
      destruct (decide (folderId = f)) as [E1|E1].
      * by rewrite decide_True by (split; congruence).
      * by rewrite decide_False by tauto.
    + rewrite (bool_decide_eq_false_2 _ Hn').
      rewrite decide_False by (intros [? _]; congruence). by rewrite app_nil_r.
  - apply map_ext_elem. intros n Hn.
    rewrite decide_False; [by rewrite app_nil_r|].
    intros [E _]. apply Hid. by apply (Hrow n).
Qed.

Lemma addTask_container_matches_fetch_witness :
  map (map (map Task.id))
    (map (fun nb => map (fun n => container_tasks n (Some "f1"%string))
                        (Notebook.notes nb))
       (notebooksWithData
          (addTask false "Z" "2025-12-08" "nb1" "n1" "Zed" (Some "f1"%string)
             (fetchNotebooks sample_db (Some "u1"%string) false sample_hook,
              sample_db)).2.2 "u1"))
  = [[["D"; "E"; "Z"]; []]; []]%string.
Proof.
  rewrite <- (addTask_container_matches_fetch sample_db "u1" "Z" "2025-12-08"
                "nb1" "n1" "Zed" (Some "f1"%string)
                (fetchNotebooks sample_db (Some "u1"%string) false sample_hook)
                (default sample_note
                   (find_note (notebooksWithData sample_db "u1") "nb1" "n1"))).
  - vm_compute. reflexivity.
  - reflexivity.
  - vm_compute. reflexivity.
  - split; [discriminate|]. intros t Ht. vm_compute in Ht.
    repeat (apply elem_of_cons in Ht as [->|Ht]); try discriminate; inversion Ht.
  - intros n Hn Hid. simpl in Hn.
    repeat (apply elem_of_cons in Hn as [->|Hn]); try discriminate Hid;
      [|inversion Hn].
    reflexivity.
  - simpl. intros H. apply elem_of_cons in H as [H|H]; [discriminate|inversion H].
Defined.


(** ** The member list of the panel against the notebook view *)

Lemma insert_by_perm {A} (key : A -> Z) (x : A) (l : list A) :
  insert_by key x l ≡ₚ x :: l.
Proof.
  induction l as [|a l IH]; simpl; [done|].
  destruct (key x <=? key a); [done|]. rewrite IH. apply Permutation_swap.
Qed.

Lemma order_by_perm {A} (key : A -> Z) (l : list A) : order_by key l ≡ₚ l.
Proof.
  unfold order_by. induction l as [|a l IH]; simpl; [done|].
  by rewrite insert_by_perm, IH.
Qed.

Lemma NoDup_fmap_filter {A K} (g : A -> K) (P : A -> Prop)
    `{!forall x, Decision (P x)} (l : list A) :
  NoDup (map g l) -> NoDup (map g (filter P l)).
Proof.
  induction l as [|a l IH]; simpl; [done|]. intros Hnd.
  apply NoDup_cons in Hnd as [Ha Hnd]. rewrite filter_cons.
  destruct (decide (P a)); [|by apply IH]. simpl. apply NoDup_cons.
  split; [|by apply IH]. intros Hin. apply Ha.
  apply list_elem_of_fmap in Hin as (x & -> & Hx).
  apply list_elem_of_filter in Hx as [_ Hx]. apply list_elem_of_fmap. eauto.
Qed.

Lemma filter_split_perm {A} (P : A -> Prop) `{!forall x, Decision (P x)} (l : list A) :
  filter P l ++ filter (fun x => ~ P x) l ≡ₚ l.
Proof.
  induction l as [|a l IH]; [done|]. rewrite !filter_cons.
  destruct (decide (P a)).
  - rewrite decide_False by tauto. simpl. by rewrite IH.
  - rewrite decide_True by done. rewrite <- Permutation_middle. by rewrite IH.
Qed.

Lemma flat_map_ext_elem {A B} (f g : A -> list B) (l : list A) :
  (forall x, x ∈ l -> f x = g x) -> flat_map f l = flat_map g l.
Proof.
  induction l as [|a l IH]; intros H; simpl; [done|].
  rewrite (H a) by (by left). rewrite IH; [done|]. intros x Hx. apply H. by right.
Qed.

(** Grouping a list by a key along distinct keys that cover it gives
    the elements of the list back. *)
Lemma group_by_key_perm {A} (key : A -> string) (ns : list string) (l : list A) :
  NoDup ns -> (forall x, x ∈ l -> key x ∈ ns) ->
  flat_map (fun n => filter (fun x => key x = n) l) ns ≡ₚ l.
Proof.
  revert l. induction ns as [|n ns IH]; intros l Hnd Hcov; simpl.
  - destruct l as [|x l]; [done|]. specialize (Hcov x (list_elem_of_here _ _)).
    inversion Hcov.
  - apply NoDup_cons in Hnd as [Hn Hnd].
    etransitivity; [|apply (filter_split_perm (fun x => key x = n) l)].
    apply Permutation_app; [done|].
    etransitivity; [|apply (IH (filter (fun x => key x <> n) l) Hnd)].
    + erewrite flat_map_ext_elem; [reflexivity|]. intros i Hi. cbv beta.
      rewrite list_filter_filter. apply filter_ext_in. intros x _.
      split; [|tauto]. intros E. split; [done|]. congruence.
    + intros x Hx. apply list_elem_of_filter in Hx as [Hne Hx].
      specialize (Hcov x Hx). apply elem_of_cons in Hcov as [E|E]; [done|exact E].
Qed.

Lemma flat_map_fmap {A B C} (f : B -> list C) (g : A -> B) (l : list A) :
  flat_map f (map g l) = flat_map (fun x => f (g x)) l.
Proof. induction l as [|a l IH]; simpl; [done|]. by rewrite IH. Qed.

(** The tasks of a fetched notebook are, in some order, the tasks the
    panel counts, when no two notes share an id. *)
Lemma fetched_all_tasks_perm (db : Backend) (uid : string) (nb : Row.notebook) :
  NoDup (map Row.n_id (notes_tbl db)) ->
  exists ids,
    (forall r, r ∈ tasks_tbl db ->
       Row.t_note_id r ∈ map Row.n_id
         (filter (fun n => Row.n_notebook_id n = Row.nb_id nb) (notes_tbl db)) ->
       Row.t_id r ∈ ids) /\
    flat_map Note.tasks (Notebook.notes (fetch_one db uid nb))
    ≡ₚ map (task_with_completions (fetch_completions db ids))
         (filter (fun t => Row.t_note_id t ∈ map Row.n_id
                    (filter (fun n => Row.n_notebook_id n = Row.nb_id nb)
                            (notes_tbl db)))
                 (tasks_tbl db)).
Proof.
  intros Hnd. unfold fetch_one; simpl.
  set (rows := filter (fun n => Row.n_notebook_id n = Row.nb_id nb) (notes_tbl db)).
  set (noteIds := map Row.n_id (order_by Row.n_order_index rows)).
  assert (Hids : forall i, i ∈ noteIds <-> i ∈ map Row.n_id rows).
  { intros i. unfold noteIds. rewrite !list_elem_of_fmap.
    split; intros (n & -> & Hn); exists n; (split; [done|]);
      by apply (order_by_elem Row.n_order_index rows n). }
  assert (Hndi : NoDup noteIds).
  { unfold noteIds. rewrite order_by_perm. by apply NoDup_fmap_filter. }
  set (sorted := if bool_decide (0 < length noteIds)%nat
                 then order_by Row.t_order_index
                        (filter (fun t => Row.t_note_id t ∈ noteIds) (tasks_tbl db))
                 else []).
  exists (map Row.t_id sorted).
  assert (Hsorted : sorted ≡ₚ filter (fun t => Row.t_note_id t ∈ map Row.n_id rows)
                                     (tasks_tbl db)).
  { unfold sorted. case_bool_decide as Hlen.
    - rewrite order_by_perm. erewrite filter_ext_in; [reflexivity|].
      intros r _. apply Hids.
    - rewrite filter_none; [done|]. intros r _ Hin. apply Hids in Hin.
      destruct noteIds; [inversion Hin|]. apply Hlen. simpl. lia. }
  split.
  - intros r Hr Hin. apply list_elem_of_fmap. exists r. split; [done|].
    rewrite Hsorted. apply list_elem_of_filter. done.
  - rewrite flat_map_fmap. simpl. rewrite <- Hsorted.
    set (twcs := map _ sorted).
    assert (E : flat_map (fun x : Row.note =>
                            filter (fun t => Task.note_id t = Row.n_id x) twcs)
                         (order_by Row.n_order_index rows)
                = flat_map (fun i => filter (fun t => Task.note_id t = i) twcs)
                           noteIds).
    { unfold noteIds. by rewrite flat_map_fmap. }
    rewrite E.
    apply group_by_key_perm; [exact Hndi|].
    intros t Ht. apply list_elem_of_fmap in Ht as (r & -> & Hr). simpl.
    unfold sorted in Hr. case_bool_decide; [|inversion Hr].
    by apply order_by_elem, list_elem_of_filter in Hr as [Hr _].
Qed.

Lemma fetched_completed_iff (db : Backend) (ids : list string) (r : Row.task)
    (U : string) :
  Row.t_id r ∈ ids ->
  U ∈ Task.completedBy (task_with_completions (fetch_completions db ids) r)
  <-> completion_row (Row.t_id r) U ∈ completions_tbl db.
Proof.
  intros Hin. unfold task_with_completions; simpl.
  rewrite fetch_completions_of_task by done. rewrite map_map. simpl.
  rewrite list_elem_of_fmap. split.
  - intros (c & -> & Hc). apply list_elem_of_filter in Hc as [<- Hc]. by destruct c.
  - intros Hc. exists (completion_row (Row.t_id r) U). split; [done|].
    apply list_elem_of_filter. done.
Qed.

(** Counting the completion rows of a user over a set of tasks, or the
    tasks of the set the user has a row for, is the same. *)
Lemma count_rows_or_tasks (tasks : list Row.task) (rows : list Row.completion)
    (U : string) :
  NoDup (map Row.t_id tasks) -> NoDup rows ->
  length (filter (fun c => Row.c_user_id c = U)
            (filter (fun c => Row.c_task_id c ∈ map Row.t_id tasks) rows))
  = length (filter (fun r => completion_row (Row.t_id r) U ∈ rows) tasks).
Proof.
  intros Hnt Hnr.
  rewrite <- (length_map Row.c_task_id), <- (length_map Row.t_id (filter _ tasks)).
  apply Permutation_length, NoDup_Permutation.
  - apply NoDup_fmap_2_strong; [|by do 2 apply NoDup_filter].
    intros [i u] [j v] Hc Hd E. simpl in E. subst j.
    apply list_elem_of_filter in Hc as [Hc _]. apply list_elem_of_filter in Hd as [Hd _].
    simpl in *. congruence.
  - by apply NoDup_fmap_filter.
  - intros i. rewrite !list_elem_of_fmap. split.
    + intros ([j u] & -> & Hc). apply list_elem_of_filter in Hc as [Hu Hc].
      apply list_elem_of_filter in Hc as [Hj Hc]. simpl in *. subst u.
      apply list_elem_of_fmap in Hj as (r & E & Hr). exists r. split; [done|].
      apply list_elem_of_filter. split; [|done]. by rewrite <- E.
    + intros (r & -> & Hr). apply list_elem_of_filter in Hr as [Hc Hr].
      exists (completion_row (Row.t_id r) U). split; [done|].
      apply list_elem_of_filter. split; [done|]. apply list_elem_of_filter.
      split; [|done]. simpl. apply list_elem_of_fmap. eauto.
Qed.

Lemma filter_fmap_comm_elem {A B} (P : B -> Prop) (Q : A -> Prop)
    `{!forall x, Decision (P x)} `{!forall x, Decision (Q x)} (f : A -> B)
    (l : list A) :
  (forall x, x ∈ l -> (P (f x) <-> Q x)) -> filter P (map f l) = map f (filter Q l).
Proof.
  induction l as [|a l IH]; intros HPQ; simpl; [done|].
  rewrite !filter_cons, IH by (intros x Hx; apply HPQ; by right).
  pose proof (HPQ a (list_elem_of_here _ _)) as Ha.
  destruct (decide (P (f a))), (decide (Q a)); try done; exfalso; tauto.
Qed.

Lemma count_without_key {A} (g : A -> string) (k : string) (l : list A) :
  NoDup (map g l) ->
  len (filter (fun x => g x <> k) l)
  = len l - (if bool_decide (k ∈ map g l) then 1 else 0).
Proof.
  unfold len. induction l as [|a l IH]; simpl; intros Hnd; [done|].
  apply NoDup_cons in Hnd as [Ha Hnd]. specialize (IH Hnd).
  rewrite filter_cons. destruct (decide (g a <> k)) as [Hne|He].
  - simpl length. destruct (bool_decide (k ∈ map g l)) eqn:E.
    + rewrite bool_decide_eq_true_2; [lia|]. right. by apply bool_decide_eq_true in E.
    + rewrite bool_decide_eq_false_2; [lia|]. apply bool_decide_eq_false in E.
      intros Hin. apply elem_of_cons in Hin as [Hin|Hin]; [congruence|done].
  - apply dec_stable in He. subst k.
    rewrite (bool_decide_eq_true_2 (g a ∈ g a :: map g l)) by (by left).
    rewrite (bool_decide_eq_false_2 _ Ha) in IH. lia.
Qed.

Lemma member_users_unique (db : Backend) (nbid : string) :
  NoDup (map (fun m => (Row.m_notebook_id m, Row.m_user_id m)) (members_tbl db)) ->
  NoDup (map Row.m_user_id (member_rows db nbid)).
Proof.
  unfold member_rows. induction (members_tbl db) as [|a l IH]; intros Hnd;
    [rewrite filter_nil; constructor|].
  simpl in Hnd. apply NoDup_cons in Hnd as [Ha Hnd]. rewrite filter_cons.
  destruct (decide (Row.m_notebook_id a = nbid)) as [E|E]; [|by apply IH].
  simpl. apply NoDup_cons. split; [|by apply IH].
  intros Hin. apply Ha. apply list_elem_of_fmap in Hin as (m & Em & Hm).
  apply list_elem_of_filter in Hm as [Hnb Hm].
  apply list_elem_of_fmap. exists m. split; [congruence|done].
Qed.

Section panel.
Context {N : JSNumber}.

Lemma panel_progress_of (db : Backend) (uid : string) (nb : Row.notebook) (U : string) :
  keys_unique db ->
  let noteIds :=
    map Row.n_id
        (filter (fun n => Row.n_notebook_id n = Row.nb_id nb) (notes_tbl db)) in
  let tasks :=
    if bool_decide (0 < length noteIds)%nat
    then filter (fun t => Row.t_note_id t ∈ noteIds) (tasks_tbl db)
    else [] in
  let taskIds := map Row.t_id tasks in
  let completions :=
    if bool_decide (0 < length taskIds)%nat
    then filter (fun c => Row.c_task_id c ∈ taskIds) (completions_tbl db)
    else [] in
  MembersPanel.progress_of completions taskIds U
  = calculateProgress (fetch_one db uid nb) U.
Proof.
  intros (Hn & Ht & Hc) noteIds tasks taskIds completions.
  destruct (fetched_all_tasks_perm db uid nb Hn) as (ids & Hids & Hperm).
  fold noteIds in Hids, Hperm.
  assert (Etasks : tasks = filter (fun t => Row.t_note_id t ∈ noteIds) (tasks_tbl db)).
  { unfold tasks. case_bool_decide as Hlen; [done|]. symmetry. apply filter_none.
    intros r _ Hin. destruct noteIds; [inversion Hin|]. apply Hlen. simpl. lia. }
  rewrite <- Etasks in Hperm.
  assert (Hlen : len (flat_map Note.tasks (Notebook.notes (fetch_one db uid nb)))
                 = len taskIds).
  { unfold len, taskIds. by rewrite Hperm, !length_map. }
  unfold calculateProgress, MembersPanel.progress_of. rewrite Hlen.
  destruct (decide (len taskIds = 0)) as [E0|E0].
  - rewrite (bool_decide_eq_true_2 _ E0), E0. simpl.
    assert (completions = []) as ->; [|done].
    unfold completions. rewrite bool_decide_eq_false_2; [done|].
    unfold len in E0. lia.
  - rewrite (bool_decide_eq_false_2 _ E0).
    assert (Hpos : 0 < len taskIds) by (unfold len in *; lia).
    rewrite (bool_decide_eq_true_2 _ Hpos).
    assert (Hcount :
      len (filter (fun c => Row.c_user_id c = U) completions)
      = len (filter (fun task => U ∈ Task.completedBy task)
               (flat_map Note.tasks (Notebook.notes (fetch_one db uid nb))))).
    { unfold len. f_equal. rewrite Hperm.
      rewrite (filter_fmap_comm_elem _
                 (fun r => completion_row (Row.t_id r) U ∈ completions_tbl db)).
      2:{ intros r Hr. apply fetched_completed_iff. rewrite Etasks in Hr.
          apply list_elem_of_filter in Hr as [Hr1 Hr2]. by apply Hids. }
      rewrite length_map. unfold completions.
      rewrite bool_decide_eq_true_2 by (unfold len in Hpos; lia).
      apply count_rows_or_tasks; [|done].
      rewrite Etasks. by apply NoDup_fmap_filter. }
    by rewrite Hcount.
Qed.


End panel.


